(** * Timeline synthesis and validation (server.mjs)

    A shallow embedding of the helpers [parseCatalog], [clamp],
    [clampTimeline], [simpleFallbackTimeline] and of the
    [/live2d_timeline] route of the Live2D backend, followed by the
    properties of its specification.

    JavaScript numbers are modelled by [num]: a finite number is an
    exact rational, next to NaN and the two infinities (signed zero is
    not distinguished, and the rounding error of a double division is
    not modelled). [Math.max], [Math.min] and [Math.round] are exact
    on doubles, so the clamp functions compute here what they compute
    there. *)

From Stdlib Require Import ZArith QArith Qcanon Qround List String Ascii Bool Lia.
From Stdlib Require Import DecimalString.
Import ListNotations.
Open Scope string_scope.
Open Scope list_scope.

(** ** Numbers *)

Inductive num : Type :=
| NaN
| NInf
| Fin (q : Qc)
| PInf.

Definition ofZ (z : Z) : num := Fin (Q2Qc (inject_Z z)).
Definition ofQ (q : Q) : num := Fin (Q2Qc q).

(** [a <= b] on numbers; false as soon as one side is NaN. *)
Definition num_leb (a b : num) : bool :=
  match a, b with
  | NaN, _ | _, NaN => false
  | NInf, _ => true
  | _, PInf => true
  | Fin x, Fin y => Qle_bool x y
  | _, _ => false
  end.

(** [a < b] on numbers. *)
Definition num_ltb (a b : num) : bool :=
  match a, b with
  | NaN, _ | _, NaN => false
  | PInf, _ => false
  | _, NInf => false
  | Fin x, Fin y => negb (Qle_bool y x)
  | _, _ => true
  end.

Definition num_le (a b : num) : Prop := num_leb a b = true.
Definition num_lt (a b : num) : Prop := num_ltb a b = true.

Definition is_nan (a : num) : bool :=
  match a with NaN => true | _ => false end.

(** [Math.max(a, b)] and [Math.min(a, b)]: NaN if either is NaN. *)
Definition Math_max (a b : num) : num :=
  match a, b with
  | NaN, _ | _, NaN => NaN
  | _, _ => if num_leb a b then b else a
  end.

Definition Math_min (a b : num) : num :=
  match a, b with
  | NaN, _ | _, NaN => NaN
  | _, _ => if num_leb a b then a else b
  end.

(** [Math.round(a)]: the integer nearest to [a], halves going up. *)
Definition round_Q (q : Q) : Z := Qfloor (q + (1 # 2)).

Definition Math_round (a : num) : num :=
  match a with
  | Fin q => ofZ (round_Q q)
  | _ => a
  end.

Definition Math_abs (a : num) : num :=
  match a with
  | NaN => NaN
  | NInf | PInf => PInf
  | Fin q => Fin (if Qle_bool 0 q then q else (- q)%Qc)
  end.

(** [a + b], [a - b] and [a / b]. *)
Definition num_add (a b : num) : num :=
  match a, b with
  | NaN, _ | _, NaN => NaN
  | PInf, NInf | NInf, PInf => NaN
  | PInf, _ | _, PInf => PInf
  | NInf, _ | _, NInf => NInf
  | Fin x, Fin y => Fin (x + y)%Qc
  end.

Definition num_neg (a : num) : num :=
  match a with
  | NaN => NaN
  | NInf => PInf
  | PInf => NInf
  | Fin x => Fin (- x)%Qc
  end.

Definition num_sub (a b : num) : num := num_add a (num_neg b).

(** [a / b], only used with the finite numerator 1000: the exact
    quotient. The engine's quotient is this one rounded to the nearest
    double, so [Math.round] of the two agrees unless the exact
    quotient lies within that rounding of a half-integer; it agrees at
    the rates computed below (60, 200 and 5000 per second), and the
    bounds proved for other rates (a step of at least 1 up to 2000 per
    second, of 0 above) are bounds at the doubles 0.5, 7.5 and 1000,
    which rounding to the nearest double keeps. *)
Definition num_div (a b : num) : num :=
  match a, b with
  | Fin x, Fin y =>
      if Qeq_bool y 0 then
        (if Qeq_bool x 0 then NaN else if Qle_bool 0 x then PInf else NInf)
      else Fin (x / y)%Qc
  | Fin _, (PInf | NInf) => Fin 0%Qc
  | _, _ => NaN
  end.

(** An integral finite number. *)
Definition is_integer (a : num) : Prop :=
  exists z : Z, a = ofZ z.

(** Boolean equality, used to run examples. *)
Definition num_eqb (a b : num) : bool :=
  match a, b with
  | NaN, NaN | NInf, NInf | PInf, PInf => true
  | Fin x, Fin y => Qeq_bool x y
  | _, _ => false
  end.

(** ** Values

    The JSON-like values the server handles. An object is the list of
    its own properties in enumeration order (what [Object.entries]
    returns); an array is the list of its elements. *)

#[local] Set Warnings "-register-all".

Inductive value : Type :=
| VUndef
| VNull
| VBool (b : bool)
| VNum (n : num)
| VStr (s : string)
| VArr (xs : list value)
| VObj (kvs : list (string * value)).

(** Outcome of a computation: a value, a raised exception, or no
    answer within the loop budget (the loop does not end, or the
    process runs out of time or memory first). *)
Inductive result (A : Type) : Type :=
| Ok (a : A)
| Throw
| OutOfFuel.
Arguments Ok {A} a.
Arguments Throw {A}.
Arguments OutOfFuel {A}.

Definition bind {A B : Type} (r : result A) (f : A -> result B) : result B :=
  match r with
  | Ok a => f a
  | Throw => Throw
  | OutOfFuel => OutOfFuel
  end.

Notation "'do' x <- r ; k" := (bind r (fun x => k))
  (at level 10, x name, r at level 100, k at level 200).

Fixpoint mapM {A B : Type} (f : A -> result B) (xs : list A) : result (list B) :=
  match xs with
  | [] => Ok []
  | x :: rest =>
      do y <- f x;
      do ys <- mapM f rest;
      Ok (y :: ys)
  end.

(** Truthiness ([!v], [a || b]). *)
Definition truthy (v : value) : bool :=
  match v with
  | VUndef | VNull => false
  | VBool b => b
  | VNum NaN => false
  | VNum (Fin q) => negb (Qeq_bool q 0)
  | VNum _ => true
  | VStr s => negb (String.eqb s "")
  | VArr _ | VObj _ => true
  end.

(** [a || b] *)
Definition or_else (a b : value) : value := if truthy a then a else b.

(** Own properties of an object. *)
Fixpoint obj_get (kvs : list (string * value)) (k : string) : value :=
  match kvs with
  | [] => VUndef
  | (k', v) :: rest => if String.eqb k' k then v else obj_get rest k
  end.

Fixpoint obj_has (kvs : list (string * value)) (k : string) : bool :=
  match kvs with
  | [] => false
  | (k', _) :: rest => String.eqb k' k || obj_has rest k
  end.

(** [o[k] = v]: overwrite in place, or add as the last property. *)
Fixpoint obj_set (kvs : list (string * value)) (k : string) (v : value)
  : list (string * value) :=
  match kvs with
  | [] => [(k, v)]
  | (k', v') :: rest =>
      if String.eqb k' k then (k, v) :: rest else (k', v') :: obj_set rest k v
  end.

Definition nat_of_len (n : nat) : num := ofZ (Z.of_nat n).

(** [v.k] for a [v] that is neither null nor undefined, for the names
    the server reads ([length] of arrays and strings included; no
    other inherited property carries one of those names). *)
Definition getField (v : value) (k : string) : value :=
  match v with
  | VObj kvs => obj_get kvs k
  | VArr xs => if String.eqb k "length" then VNum (nat_of_len (List.length xs)) else VUndef
  | VStr s => if String.eqb k "length" then VNum (nat_of_len (String.length s)) else VUndef
  | _ => VUndef
  end.

(** [v.k]: a TypeError on null and undefined. *)
Definition getProp (v : value) (k : string) : result value :=
  match v with
  | VUndef | VNull => Throw
  | _ => Ok (getField v k)
  end.

(** [v?.k] *)
Definition getPropOpt (v : value) (k : string) : value :=
  match v with
  | VUndef | VNull => VUndef
  | _ => getField v k
  end.

(** [a === b] against a string literal. *)
Definition is_str (v : value) (s : string) : bool :=
  match v with
  | VStr s' => String.eqb s' s
  | _ => false
  end.

Definition is_array (v : value) : bool :=
  match v with VArr _ => true | _ => false end.

(** ** Parameter definitions *)

Record ParameterDefinition : Type := mkDef {
  id : string;
  min : num;
  max : num;
  default : num;
  isToggleLike : bool;
  note : string
}.

(** ** The host's built-ins

    What the JavaScript engine and its libraries supply and this
    development does not look into. *)
Record Host : Type := mkHost {
  (** the number a string converts to ([Number(s)]) *)
  StringToNumber : string -> num;
  (** the text of a number ([String(n)]) *)
  NumberToString : num -> string;
  (** the text of an array ([xs.join(",")]); [None] when the
      conversion of an element raises *)
  ArrayToString : list value -> option string;
  (** the floating-point expression
      [0.5 + 0.1*Math.sin((t/1000)*2*Math.PI*0.33)] at [t] *)
  breath : num -> num;
  (** the floating-point expression [Math.floor((t/3500)%1*10)] at [t] *)
  blinkPhase : num -> num;
  (** the regular expression of [parseCatalog] on one line, with the
      captured fields converted as the loop body does *)
  matchLine : string -> option ParameterDefinition;
  (** one line of the glossary text *)
  glossaryLine : ParameterDefinition -> string;
  (** the fixed instruction lines that open the system prompt *)
  systemRules : string;
  (** the three anger patterns tried on the joined word texts *)
  hintAngry : string -> bool
}.

Section Server.

Context (host : Host).

(** ** Conversions *)

(** [ToNumber]: what [Math.round], [Math.max] and [-] make of an
    operand. A plain object with an own property named [toString]
    has no callable conversion left, a TypeError. *)
Definition ToNumber (v : value) : result num :=
  match v with
  | VUndef => Ok NaN
  | VNull => Ok (ofZ 0)
  | VBool b => Ok (ofZ (if b then 1 else 0))
  | VNum n => Ok n
  | VStr s => Ok (StringToNumber host s)
  | VArr xs =>
      match ArrayToString host xs with
      | Some s => Ok (StringToNumber host s)
      | None => Throw
      end
  | VObj kvs => if obj_has kvs "toString" then Throw else Ok NaN
  end.

(** [ToString]: what [RegExp.prototype.test] makes of its argument. *)
Definition ToString (v : value) : result string :=
  match v with
  | VUndef => Ok "undefined"
  | VNull => Ok "null"
  | VBool b => Ok (if b then "true" else "false")
  | VNum n => Ok (NumberToString host n)
  | VStr s => Ok s
  | VArr xs =>
      match ArrayToString host xs with
      | Some s => Ok s
      | None => Throw
      end
  | VObj kvs => if obj_has kvs "toString" then Throw else Ok "[object Object]"
  end.

(** The decimal text of an array index. *)
Definition index_key (i : nat) : string :=
  NilEmpty.string_of_uint (Nat.to_uint i).

Fixpoint indexed {A : Type} (i : nat) (xs : list A) : list (string * A) :=
  match xs with
  | [] => []
  | x :: rest => (index_key i, x) :: indexed (S i) rest
  end.

Fixpoint chars (s : string) : list value :=
  match s with
  | EmptyString => []
  | String c rest => VStr (String c EmptyString) :: chars rest
  end.

(** [Object.entries(v)] for a [v] that is neither null nor undefined. *)
Definition Object_entries (v : value) : list (string * value) :=
  match v with
  | VObj kvs => kvs
  | VArr xs => indexed 0 xs
  | VStr s => indexed 0 (chars s)
  | _ => []
  end.

(** ** [clamp] and [clampTimeline] *)

Definition clamp (v a b : num) : num := Math_max a (Math_min b v).

(** [new Map(defs.map(d => [d.id, d]))] followed by [byId.get(k)]:
    a later definition replaces an earlier one of the same id. *)
Fixpoint byId (defs : list ParameterDefinition) (k : string)
  : option ParameterDefinition :=
  match defs with
  | [] => None
  | d :: rest =>
      match byId rest k with
      | Some d' => Some d'
      | None => if String.eqb (id d) k then Some d else None
      end
  end.

(** The value stored for a number [v] under definition [d]. *)
Definition clampValue (d : ParameterDefinition) (v : num) : num :=
  let vv := clamp v (min d) (max d) in
  if isToggleLike d then Math_round vv else vv.

(** [out[k] = vv] on the object [out] that [clampMap] builds from
    [{}], for a number [vv]: an own property is created or
    overwritten, except under the key [__proto__], where the
    assignment reaches the setter inherited from [Object.prototype],
    which ignores a number and leaves [out] as it is. *)
Definition proto_key : string := "__proto__".

Definition assign_number (out : list (string * value)) (k : string) (vv : num)
  : list (string * value) :=
  if String.eqb k proto_key then out else obj_set out k (VNum vv).

(** One turn of the loop of [clampMap]. *)
Definition clampEntry (defs : list ParameterDefinition)
    (out : list (string * value)) (kv : string * value) : list (string * value) :=
  let (k, v) := kv in
  match byId defs k, v with
  | Some d, VNum n => assign_number out k (clampValue d n)
  | _, _ => out
  end.

Definition clampMap (defs : list ParameterDefinition) (obj : value)
  : list (string * value) :=
  fold_left (clampEntry defs) (Object_entries (or_else obj (VObj []))) [].

(** The callback of [keyframes.map]. *)
Definition clampKeyframe (defs : list ParameterDefinition) (kf : value)
  : result value :=
  do tm <- getProp kf "timeMs";
  do n <- ToNumber (or_else tm (VNum (ofZ 0)));
  let timeMs := Math_max (ofZ 0) (Math_round n) in
  let src := or_else (or_else (getField kf "params") (getField kf "set")) (VObj []) in
  Ok (VObj [("timeMs", VNum timeMs); ("params", VObj (clampMap defs src))]).

(** [1000/60] *)
Definition default_dt : num := ofQ (50 # 3).

(** The contents of the object [timeline] when [clampTimeline] returns
    it: the function assigns to the properties of its argument and
    returns that same object (see [clampTimelineH] for the heap). *)
Definition clampTimeline (timeline : value) (defs : list ParameterDefinition)
  : result value :=
  if negb (truthy timeline) then Ok timeline else
  match timeline with
  | VObj kvs =>
      if is_str (obj_get kvs "mode") "keyframes" then
        match or_else (obj_get kvs "keyframes") (VArr []) with
        | VArr kfs =>
            do ks <- mapM (clampKeyframe defs) kfs;
            Ok (VObj (obj_set kvs "keyframes" (VArr ks)))
        | _ => Throw
        end
      else if is_str (obj_get kvs "mode") "fixed_fps"
              && truthy (getPropOpt (obj_get kvs "fixedFps") "frames") then
        match obj_get kvs "fixedFps" with
        | VObj fkvs =>
            do n <- ToNumber (or_else (obj_get fkvs "dtMs") (VNum default_dt));
            let dtMs := Math_max (ofZ 8) (Math_round n) in
            let fkvs1 := obj_set fkvs "dtMs" (VNum dtMs) in
            match obj_get fkvs1 "frames" with
            | VArr frames =>
                let fs := List.map (fun f => VObj (clampMap defs f)) frames in
                Ok (VObj (obj_set kvs "fixedFps"
                            (VObj (obj_set fkvs1 "frames" (VArr fs)))))
            | _ => Throw
            end
        | _ => Ok timeline
        end
      else Ok timeline
  | _ => Ok timeline
  end.

(** ** [parseCatalog] *)

Definition LF : ascii := ascii_of_nat 10.
Definition CR : ascii := ascii_of_nat 13.

(** [s.split(/\r?\n/)], with [cur] the line read so far, reversed. *)
Fixpoint split_from (cur : list ascii) (s : string) : list string :=
  let close l := string_of_list_ascii (rev l) in
  match s with
  | EmptyString => [close cur]
  | String c rest =>
      if Ascii.eqb c LF then close cur :: split_from [] rest
      else if Ascii.eqb c CR then
        match rest with
        | String c' rest' =>
            if Ascii.eqb c' LF then close cur :: split_from [] rest'
            else split_from (c :: cur) rest
        | EmptyString => split_from (c :: cur) rest
        end
      else split_from (c :: cur) rest
  end.

Definition split_lines (s : string) : list string := split_from [] s.

Fixpoint filter_map {A B : Type} (f : A -> option B) (xs : list A) : list B :=
  match xs with
  | [] => []
  | x :: rest =>
      match f x with
      | Some y => y :: filter_map f rest
      | None => filter_map f rest
      end
  end.

(** [(txt || '').split] is a TypeError on a truthy [txt] that is not a
    string. *)
Definition parseCatalog (txt : value) : result (list ParameterDefinition) :=
  match or_else txt (VStr "") with
  | VStr s => Ok (filter_map (matchLine host) (split_lines s))
  | _ => Throw
  end.

(** ** [simpleFallbackTimeline] *)

(** A default of a parameter or of a destructuring pattern. *)
Definition dflt (v d : value) : value :=
  match v with VUndef => d | _ => v end.

(** [xs.reduce((m, x) => Math.max(m, x.k || 0), 0)] *)
Fixpoint reduce_max (k : string) (xs : list value) (m : num) : result num :=
  match xs with
  | [] => Ok m
  | x :: rest =>
      do f <- getProp x k;
      do n <- ToNumber (or_else f (VNum (ofZ 0)));
      reduce_max k rest (Math_max m n)
  end.

Definition has (defs : list ParameterDefinition) (i : string) : bool :=
  existsb (fun d => String.eqb (id d) i) defs.

Definition is_terminal (c : ascii) : bool :=
  Ascii.eqb c "."%char || Ascii.eqb c "!"%char || Ascii.eqb c "?"%char.

(** [/[.!?]/.test(s)] *)
Fixpoint test_terminal (s : string) : bool :=
  match s with
  | EmptyString => false
  | String c rest => is_terminal c || test_terminal rest
  end.

(** The predicate of [words.find] at frame time [t]. *)
Definition nodWord (t : num) (w : value) : result bool :=
  do tx <- getProp w "text";
  do s <- ToString tx;
  if test_terminal s then
    do st <- getProp w "startMs";
    do n <- ToNumber (or_else st (VNum (ofZ 0)));
    Ok (num_ltb (Math_abs (num_sub n t)) (ofZ 200))
  else Ok false.

(** [words.find(p)] *)
Fixpoint find_word (t : num) (ws : list value) : result value :=
  match ws with
  | [] => Ok VUndef
  | w :: rest =>
      do b <- nodWord t w;
      if b then Ok w else find_word t rest
  end.

Definition is_zero (n : num) : bool := num_eqb n (ofZ 0).

(** The body of the frame loop at time [t]. *)
Definition frameAt (words : list value) (defs : list ParameterDefinition) (t : num)
  : result value :=
  let f0 : list (string * value) := [] in
  let f1 := if has defs "ParamBreath"
            then obj_set f0 "ParamBreath" (VNum (breath host t)) else f0 in
  let f2 := if has defs "ParamEyeLOpen" && has defs "ParamEyeROpen" then
              if is_zero (blinkPhase host t)
              then obj_set (obj_set f1 "ParamEyeLOpen" (VNum (ofQ (1 # 10))))
                           "ParamEyeROpen" (VNum (ofQ (1 # 10)))
              else f1
            else f1 in
  if has defs "ParamAngleY" then
    do e <- find_word t words;
    Ok (VObj (if truthy e then obj_set f2 "ParamAngleY" (VNum (ofZ 3)) else f2))
  else Ok (VObj f2).

(** [for (let t = 0; t <= dur; t += dtMs)], at most [fuel] turns:
    the number of turns the process can afford, each of which pushes
    one frame. A loop that needs more gives no answer. *)
Fixpoint framesLoop (fuel : nat) (words : list value)
    (defs : list ParameterDefinition) (dur dtMs t : num) : result (list value) :=
  match fuel with
  | O => OutOfFuel
  | S fuel' =>
      if num_leb t dur then
        do f <- frameAt words defs t;
        do fs <- framesLoop fuel' words defs dur dtMs (num_add t dtMs);
        Ok (f :: fs)
      else Ok []
  end.

Definition simpleFallbackTimeline (fuel : nat) (words visemes : list value)
    (defs : list ParameterDefinition) (fps : value) : result value :=
  do n <- ToNumber (dflt fps (VNum (ofZ 60)));
  let dtMs := Math_round (num_div (ofZ 1000) (Math_max (ofZ 1) n)) in
  do dw <- reduce_max "endMs" words (ofZ 0);
  do dv <- reduce_max "startMs" visemes (ofZ 0);
  let dur := Math_max dw dv in
  do frames <- framesLoop fuel words defs dur dtMs (ofZ 0);
  Ok (VObj [("mode", VStr "fixed_fps");
            ("fixedFps", VObj [("dtMs", VNum dtMs); ("frames", VArr frames)])]).

(** ** The [/live2d_timeline] route *)

Inductive response : Type :=
| Response (status : Z) (body : value).

Definition MAX_PARAMS : nat := 280.

(** [try { r } catch { h }]: only an exception reaches the handler. *)
Definition try_catch {A : Type} (r h : result A) : result A :=
  match r with
  | Throw => h
  | _ => r
  end.

Definition bad_input : response :=
  Response 400 (VObj [("error", VStr "BAD_INPUT");
                      ("message", VStr "words[] and visemes[] required")]).

Definition newline : string := String LF EmptyString.

(** The fallback answer of the route: synthesize against [defs], then
    clamp against [defs]. *)
Definition fallbackClamped (fuel : nat) (words visemes : list value)
    (defs : list ParameterDefinition) (fps : value) : result response :=
  do fb <- simpleFallbackTimeline fuel words visemes defs fps;
  do tl <- clampTimeline fb defs;
  Ok (Response 200 tl).

(** [!x.length] *)
Definition no_length (v : value) : bool :=
  negb (truthy (getPropOpt v "length")).

(** The generative collaborator together with the safe extraction of
    its JSON: from the system prompt and the user message, [None] when
    anything up to the extraction raises (no API key, a rejected
    call), otherwise the value of [outJSON]. *)
Definition Collaborator : Type := string -> value -> option value.

(** The minimal shape checks of the route on [outJSON]. *)
Definition isFixed (outJSON : value) : bool :=
  truthy outJSON && is_str (getField outJSON "mode") "fixed_fps"
  && truthy (getField outJSON "fixedFps")
  && is_array (getField (getField outJSON "fixedFps") "frames").

Definition isKeyed (outJSON : value) : bool :=
  truthy outJSON && is_str (getField outJSON "mode") "keyframes"
  && is_array (getField outJSON "keyframes").

(** The route after [parseCatalog]: lines 300 to 379. *)
Definition planWithDefs (fuel : nat) (collab : Collaborator)
    (words visemes : list value) (fps strategy : value)
    (defs : list ParameterDefinition) : result response :=
  match defs with
  | [] =>
      do fb <- simpleFallbackTimeline fuel words visemes [] fps;
      Ok (Response 200 fb)
  | _ =>
      let trimmed := firstn MAX_PARAMS defs in
      let glossaryLines := String.concat newline (List.map (glossaryLine host) trimmed) in
      do texts <- mapM (fun w => ToString (or_else (getPropOpt w "text") (VStr ""))) words;
      let lineText := String.concat " " texts in
      let system := (systemRules host ++ glossaryLines)%string in
      let user := VObj [("words", VArr words); ("visemes", VArr visemes);
                        ("fps", fps); ("strategy", strategy);
                        ("hints", VObj [("angry", VBool (hintAngry host lineText))])] in
      try_catch
        (match collab system user with
         | None => Throw
         | Some outJSON =>
             if negb (isFixed outJSON) && negb (isKeyed outJSON) then
               fallbackClamped fuel words visemes trimmed fps
             else
               do safe <- clampTimeline outJSON trimmed;
               if is_str (getField safe "mode") "keyframes"
                  && (negb (is_array (getField safe "keyframes"))
                      || no_length (getField safe "keyframes")) then
                 fallbackClamped fuel words visemes trimmed fps
               else if is_str (getField safe "mode") "fixed_fps"
                       && no_length (getPropOpt (getPropOpt safe "fixedFps") "frames") then
                 fallbackClamped fuel words visemes trimmed fps
               else Ok (Response 200 safe)
         end)
        (fallbackClamped fuel words visemes defs fps)
  end.

(** [app.post('/live2d_timeline', ...)] on the request body. *)
Definition live2d_timeline (fuel : nat) (collab : Collaborator) (body : value)
  : result response :=
  let b := or_else body (VObj []) in
  let words := dflt (getField b "words") (VArr []) in
  let visemes := dflt (getField b "visemes") (VArr []) in
  let parameterCatalog := dflt (getField b "parameterCatalog") (VStr "") in
  let fps := dflt (getField b "fps") (VNum (ofZ 60)) in
  let strategy := dflt (getField b "strategy") (VStr "auto") in
  match words, visemes with
  | VArr ws, VArr vs =>
      do defs <- parseCatalog parameterCatalog;
      planWithDefs fuel collab ws vs fps strategy defs
  | _, _ => Ok bad_input
  end.

(** ** The timeline as a heap object

    [clampTimeline] receives a reference and assigns to properties of
    the object behind it and of its [fixedFps] object (lines 54, 60
    and 61). A heap is a list of objects, a reference the index of
    one. A property holds a reference to a heap object ([Ref]) or a
    value kept in place ([Imm]): data the function only reads, and an
    array or object that no other reference reaches. *)











End Server.







(** ** Vocabulary of the statements *)

Definition len (v : value) : nat :=
  match v with VArr xs => List.length xs | _ => 0 end.

(** Number of keyframes or frames a timeline carries. *)
Definition frameCount (tl : value) : nat :=
  if is_str (getField tl "mode") "keyframes" then len (getField tl "keyframes")
  else if is_str (getField tl "mode") "fixed_fps"
       then len (getField (getField tl "fixedFps") "frames")
       else 0.

(** A time field that is a number, a boolean or missing. *)
Definition plainTime (v : value) : bool :=
  match v with
  | VUndef | VNull | VBool _ | VNum _ => true
  | _ => false
  end.

Definition plainKeyframe (kf : value) : bool :=
  match kf with
  | VUndef | VNull => false
  | _ => plainTime (getField kf "timeMs")
  end.

(** Every keyframe is an object-like value with a plain [timeMs], and
    [dtMs] is plain. *)
Definition timesPlain (t : value) : bool :=
  if isKeyed t then
    match getField t "keyframes" with
    | VArr kfs => forallb plainKeyframe kfs
    | _ => true
    end
  else if isFixed t then plainTime (getField (getField t "fixedFps") "dtMs")
  else true.

(** A time field that, falling back to [dft] when falsy, converts to
    a number other than NaN. *)
Definition converts (host : Host) (v : value) (dft : num) : Prop :=
  exists n, ToNumber host (or_else v (VNum dft)) = Ok n /\ is_nan n = false.

(** A keyframe that is neither null nor undefined, with such a
    [timeMs]. *)
Definition keyframeConverts (host : Host) (kf : value) : Prop :=
  kf <> VUndef /\ kf <> VNull /\ converts host (getField kf "timeMs") (ofZ 0).

(** Every keyframe is such a keyframe, and [dtMs] is such a field. *)
Definition timesConvert (host : Host) (t : value) : Prop :=
  (isKeyed t = true ->
     forall kfs, getField t "keyframes" = VArr kfs ->
       Forall (keyframeConverts host) kfs) /\
  (isKeyed t = false -> isFixed t = true ->
     converts host (getField (getField t "fixedFps") "dtMs") default_dt).

(** No time stored in a timeline is NaN. *)
Definition saneTime (v : value) : bool :=
  match v with
  | VNum NaN => false
  | _ => true
  end.

Definition timesSane (t : value) : bool :=
  if is_str (getField t "mode") "keyframes" then
    match getField t "keyframes" with
    | VArr ks => forallb (fun k => saneTime (getField k "timeMs")) ks
    | _ => true
    end
  else if is_str (getField t "mode") "fixed_fps" then
    saneTime (getField (getField t "fixedFps") "dtMs")
  else true.

(** No number of a parameter map is NaN (JSON has no NaN). *)
Definition numberOk (kv : string * value) : bool :=
  match snd kv with
  | VNum NaN => false
  | _ => true
  end.

Definition mapOk (m : value) : bool := forallb numberOk (Object_entries m).

Definition keyframeOk (kf : value) : bool :=
  mapOk (getField kf "params") && mapOk (getField kf "set").

Definition paramsOk (t : value) : bool :=
  forallb keyframeOk (match getField t "keyframes" with VArr kfs => kfs | _ => [] end)
  && forallb mapOk (match getField (getField t "fixedFps") "frames" with
                    | VArr fs => fs | _ => [] end).

(** A definition with an ordered range, integral when toggle-like. *)
Definition goodDef (d : ParameterDefinition) : Prop :=
  num_le (min d) (max d) /\
  (isToggleLike d = true -> is_integer (min d) /\ is_integer (max d)).

(** The post-validation invariant on one parameter map. *)
Definition validEntry (defs : list ParameterDefinition) (kv : string * value) : Prop :=
  exists d x,
    In d defs /\ id d = fst kv /\ byId defs (fst kv) = Some d /\
    snd kv = VNum x /\ num_le (min d) x /\ num_le x (max d) /\
    (isToggleLike d = true -> is_integer x).

Definition validMap (defs : list ParameterDefinition) (m : value) : Prop :=
  exists kvs, m = VObj kvs /\ Forall (validEntry defs) kvs.

Definition validKeyframe (defs : list ParameterDefinition) (kf : value) : Prop :=
  (exists t, getField kf "timeMs" = VNum t /\ num_le (ofZ 0) t) /\
  validMap defs (getField kf "params").

(** The post-validation invariant on a clamped timeline. *)
Definition validTimeline (defs : list ParameterDefinition) (t : value) : Prop :=
  (is_str (getField t "mode") "keyframes" = true ->
     exists ks, getField t "keyframes" = VArr ks /\ Forall (validKeyframe defs) ks) /\
  (is_str (getField t "mode") "fixed_fps" = true ->
     exists dt fs,
       getField (getField t "fixedFps") "dtMs" = VNum dt /\ num_le (ofZ 8) dt /\
       getField (getField t "fixedFps") "frames" = VArr fs /\
       Forall (validMap defs) fs).

(** Request data of the documented types. *)
Definition finiteTime (v : value) : bool :=
  match v with
  | VUndef | VNum (Fin _) => true
  | _ => false
  end.

Definition plainText (v : value) : bool :=
  match v with
  | VUndef | VStr _ => true
  | _ => false
  end.

Definition plainWord (w : value) : bool :=
  match w with
  | VObj kvs =>
      finiteTime (obj_get kvs "startMs") && finiteTime (obj_get kvs "endMs")
      && plainText (obj_get kvs "text")
  | _ => false
  end.

Definition plainViseme (v : value) : bool :=
  match v with
  | VObj kvs => finiteTime (obj_get kvs "startMs")
  | _ => false
  end.


(** [s] ends in one of [. ! ?]. *)
Fixpoint ends_terminal (s : string) : bool :=
  match s with
  | EmptyString => false
  | String c EmptyString => is_terminal c
  | String _ rest => ends_terminal rest
  end.

(** ** Auxiliary notions and sample data *)

(** An entry of the output stems from a numeric entry of the source
    whose id the catalog knows. *)
Definition fromSource (defs : list ParameterDefinition)
    (src : list (string * value)) (kv : string * value) : Prop :=
  exists d n,
    byId defs (fst kv) = Some d /\ In (fst kv, VNum n) src /\
    snd kv = VNum (clampValue d n) /\ fst kv <> proto_key.

(** An entry that clamping leaves as it is. *)
Definition fixedEntry (defs : list ParameterDefinition) (kv : string * value) : Prop :=
  exists d x,
    byId defs (fst kv) = Some d /\ snd kv = VNum x /\ clampValue d x = x /\
    fst kv <> proto_key.

(** [Math.max(0, Math.round(n))] and [Math.max(8, Math.round(n))]. *)
Definition normTime (n : num) : num := Math_max (ofZ 0) (Math_round n).
Definition normDt (n : num) : num := Math_max (ofZ 8) (Math_round n).

(** [kf.params || kf.set || {}] *)
Definition keyframeSource (kf : value) : value :=
  or_else (or_else (getField kf "params") (getField kf "set")) (VObj []).

(** A host to run examples with: no string is a number, no catalog
    line matches, the breathing value is 0.5 and the blink phase 1. *)
Definition sample_host : Host :=
  mkHost (fun _ => NaN) (fun _ => "") (fun _ => None)
         (fun _ => ofQ (1 # 2)) (fun _ => ofZ 1) (fun _ => None)
         (fun d => id d) "" (fun _ => false).

(** A definition with range [0, 1]. *)
Definition unit_def (i : string) (toggle : bool) : ParameterDefinition :=
  mkDef i (ofZ 0) (ofZ 1) (ofZ 0) toggle "".

(** The two timeline shapes of the system prompt. *)
Definition keyed (kfs : list value) : value :=
  VObj [("mode", VStr "keyframes"); ("keyframes", VArr kfs)].

Definition fixed (dt : value) (frames : list value) : value :=
  VObj [("mode", VStr "fixed_fps");
        ("fixedFps", VObj [("dtMs", dt); ("frames", VArr frames)])].

Definition keyframe (t : value) (ps : list (string * value)) : value :=
  VObj [("timeMs", t); ("params", VObj ps)].

(** What [parseCatalog] makes of a line with range [-1.5, 1.5] and the
    note "piecewise", and of a line with range [5, 1]. *)
Definition piecewise_def : ParameterDefinition :=
  mkDef "P" (ofQ (-3 # 2)) (ofQ (3 # 2)) (ofZ 0) true "piecewise".

Definition inverted_def : ParameterDefinition :=
  mkDef "P" (ofZ 5) (ofZ 1) (ofZ 0) false "".


(** The frame step for a finite rate of at most 2000: a positive
    integer. *)
Definition stepOf (q : Qc) : num :=
  Math_round (num_div (ofZ 1000) (Math_max (ofZ 1) (Fin q))).

(** An object whose field [k] is a finite number or missing. *)
Definition finiteField (k : string) (x : value) : bool :=
  match x with
  | VObj kvs => finiteTime (obj_get kvs k)
  | _ => false
  end.

(** The head parameter with range [-10, 10]. *)
Definition angleY_def : ParameterDefinition :=
  mkDef "ParamAngleY" (ofZ (-10)) (ofZ 10) (ofZ 0) false "".


(** A word boundary as the [/tts] route records it. *)
Definition word (text : string) (startMs endMs : Z) : value :=
  VObj [("startMs", VNum (ofZ startMs)); ("endMs", VNum (ofZ endMs));
        ("text", VStr text); ("boundaryType", VStr "WordBoundary")].

(** A request body with no catalog, frame rate or strategy. *)
Definition request (words visemes : list value) : value :=
  VObj [("words", VArr words); ("visemes", VArr visemes)].

(** A collaborator that fails, and one that answers a keyframes
    timeline with no keyframe. *)
Definition no_reply : Collaborator := fun _ _ => None.
Definition empty_reply : Collaborator := fun _ _ => Some (keyed []).

(** 280 definitions that are not [ParamBreath]. *)
Definition filler_defs : list ParameterDefinition :=
  repeat (unit_def "Param1" false) 280.

(** ** Audio format helpers of the [/tts] route

    Strings are byte strings; [toLowerCase] changes the letters A to
    Z, which is all that the search for "mp3" can see (no other
    character lowers to [m], [p] or [3]). *)

Definition lower (c : ascii) : ascii :=
  let n := nat_of_ascii c in
  if (65 <=? n)%nat && (n <=? 90)%nat then ascii_of_nat (n + 32) else c.

Fixpoint toLowerCase (s : string) : string :=
  match s with
  | EmptyString => EmptyString
  | String c rest => String (lower c) (toLowerCase rest)
  end.

(** [s.includes(sub)] *)
Fixpoint includes (sub s : string) : bool :=
  String.prefix sub s ||
  match s with
  | EmptyString => false
  | String _ rest => includes sub rest
  end.

Inductive OutputFormat : Type :=
| Audio24Khz48KBitRateMonoMp3
| Riff24Khz16BitMonoPcm.

(** [(fmt || '').toLowerCase()] is a TypeError on a truthy [fmt] that
    is not a string. *)
Definition azureFormatFromClient (fmt : value) : result OutputFormat :=
  match or_else fmt (VStr "") with
  | VStr s =>
      Ok (if includes "mp3" (toLowerCase s)
          then Audio24Khz48KBitRateMonoMp3 else Riff24Khz16BitMonoPcm)
  | _ => Throw
  end.

(** Line 199: [format.toLowerCase().includes('mp3') ? ... : ...]. *)
Definition ttsMime (format : value) : result string :=
  match format with
  | VStr s => Ok (if includes "mp3" (toLowerCase s) then "audio/mpeg" else "audio/wav")
  | _ => Throw
  end.

(** ** The [/emotion] route *)

Section Emotion.

Context (host : Host).

(** [a ?? b] *)
Definition nullish_else (a b : value) : value :=
  match a with
  | VUndef | VNull => b
  | _ => a
  end.

(** [Number(v ?? 0)] *)
Definition numberOr0 (v : value) : result num :=
  ToNumber host (nullish_else v (VNum (ofZ 0))).

(** [o.k = x] in module (strict) code: a TypeError on null, undefined
    and on a primitive. An array is seen as the object of its index
    properties, which is all the five emotion names can tell. *)
Definition setProp (o : value) (k : string) (x : value) : result value :=
  match o with
  | VObj kvs => Ok (VObj (obj_set kvs k x))
  | VArr xs => Ok (VObj (obj_set (indexed 0 xs) k x))
  | _ => Throw
  end.

(** [out.k = Math.max(c, Number(out.k ?? 0))] *)
Definition raiseTo (c : num) (k : string) (out : value) : result value :=
  do v <- getProp out k;
  do n <- numberOr0 v;
  setProp out k (VNum (Math_max c n)).

(** [out.k = Math.min(Number(out.k ?? 0), c)] *)
Definition lowerTo (c : num) (k : string) (out : value) : result value :=
  do v <- getProp out k;
  do n <- numberOr0 v;
  setProp out k (VNum (Math_min n c)).

(** The rule-based overrides of lines 270 to 276. *)
Definition angryOverrides (out : value) : result value :=
  do o1 <- raiseTo (ofQ (9 # 10)) "angry" out;
  do o2 <- raiseTo (ofQ (6 # 10)) "annoyed" o1;
  do o3 <- lowerTo (ofQ (1 # 10)) "happiness" o2;
  do o4 <- lowerTo (ofQ (2 # 10)) "sad" o3;
  lowerTo (ofQ (2 # 10)) "confused" o4.

(** [clamp01(out.k)] *)
Definition clamp01 (out : value) (k : string) : result value :=
  do v <- getProp out k;
  do n <- numberOr0 v;
  Ok (VNum (Math_min (ofZ 1) (Math_max (ofZ 0) n))).

Definition emotionBody (out : value) : result value :=
  do h <- clamp01 out "happiness";
  do c <- clamp01 out "confused";
  do a <- clamp01 out "annoyed";
  do g <- clamp01 out "angry";
  do s <- clamp01 out "sad";
  Ok (VObj [("happiness", h); ("confused", c); ("annoyed", a);
            ("angry", g); ("sad", s)]).

Definition zeroScores : value :=
  VObj [("happiness", VNum (ofZ 0)); ("confused", VNum (ofZ 0));
        ("annoyed", VNum (ofZ 0)); ("angry", VNum (ofZ 0));
        ("sad", VNum (ofZ 0))].

(** The scoring collaborator together with the parse of its text:
    from the text of the request, [None] when anything up to line 262
    raises (no API key, a rejected call), otherwise the value of [out]
    ([{}] when the reply is empty or is not JSON). *)
Definition Scorer : Type := value -> option value.

(** [app.post('/emotion', ...)] on the request body. *)
Definition emotion (scorer : Scorer) (body : value) : result response :=
  let text := dflt (getField (or_else body (VObj [])) "text") (VStr "") in
  try_catch
    (match scorer text with
     | None => Throw
     | Some out =>
         do s <- ToString host text;
         do out' <- (if hintAngry host s then angryOverrides out else Ok out);
         do b <- emotionBody out';
         Ok (Response 200 b)
     end)
    (Ok (Response 200 zeroScores)).

End Emotion.

(** ** Line structure of a catalog text *)

Fixpoint no_char (c : ascii) (s : string) : bool :=
  match s with
  | EmptyString => true
  | String c' rest => negb (Ascii.eqb c' c) && no_char c rest
  end.

(** [s] ends in a carriage return. *)
Fixpoint ends_CR (s : string) : bool :=
  match s with
  | EmptyString => false
  | String c EmptyString => Ascii.eqb c CR
  | String _ rest => ends_CR rest
  end.

(** A line as [split] can return it: no line feed inside, no carriage
    return at the end. *)
Definition plainLine (l : string) : bool := no_char LF l && negb (ends_CR l).

(** The text with every line feed written as carriage return, line
    feed. *)
Fixpoint to_crlf (s : string) : string :=
  match s with
  | EmptyString => EmptyString
  | String c rest =>
      if Ascii.eqb c LF then String CR (String LF (to_crlf rest))
      else String c (to_crlf rest)
  end.

(** [s] starts with a line feed. *)
Definition starts_LF (s : string) : bool :=
  match s with
  | String c _ => Ascii.eqb c LF
  | EmptyString => false
  end.

(** The duration the synthesizer computes: the latest [endMs] of the
    words and [startMs] of the visemes, at least 0. *)
Definition duration (host : Host) (words visemes : list value) : result num :=
  do dw <- reduce_max host "endMs" words (ofZ 0);
  do dv <- reduce_max host "startMs" visemes (ofZ 0);
  Ok (Math_max dw dv).

(** A parameter the synthesizer may set: catalogued, with a number,
    and not under the key [__proto__]. *)
Definition emitted (defs : list ParameterDefinition) (kv : string * value) : Prop :=
  has defs (fst kv) = true /\ (exists n, snd kv = VNum n) /\ fst kv <> proto_key.

(** A host like [sample_host] whose blink phase is 0. *)
Definition blinking_host : Host :=
  mkHost (fun _ => NaN) (fun _ => "") (fun _ => None)
         (fun _ => ofQ (1 # 2)) (fun _ => ofZ 0) (fun _ => None)
         (fun d => id d) "" (fun _ => false).

(** A catalog of one line, and a host like [sample_host] whose
    regular expression reads that line as [angleY_def]. *)
Definition catalog_line : string := "- ParamAngleY — [-10, 10]".

Definition catalog_host : Host :=
  mkHost (fun _ => NaN) (fun _ => "") (fun _ => None)
         (fun _ => ofQ (1 # 2)) (fun _ => ofZ 1)
         (fun l => if String.eqb l catalog_line then Some angleY_def else None)
         (fun d => id d) "" (fun _ => false).

(** A request body with that catalog. *)
Definition catalog_request (words visemes : list value) : value :=
  VObj [("words", VArr words); ("visemes", VArr visemes);
        ("parameterCatalog", VStr catalog_line)].

(** A score field that is a number other than NaN, or missing. *)
Definition scoreOk (v : value) : bool :=
  match v with
  | VUndef | VNull => true
  | VNum n => negb (is_nan n)
  | _ => false
  end.

(** [Math.min(1, Math.max(0, n))] *)
Definition unit01 (n : num) : num := Math_min (ofZ 1) (Math_max (ofZ 0) n).

(** The five scores of an answer of the [/emotion] route. *)
Definition scores (h c a g s : num) : value :=
  VObj [("happiness", VNum h); ("confused", VNum c); ("annoyed", VNum a);
        ("angry", VNum g); ("sad", VNum s)].

(** The five names scored by the [/emotion] route. *)
Definition emotionNames : list string :=
  ["happiness"; "confused"; "annoyed"; "angry"; "sad"].

(** * Properties *)

Lemma num_eqb_eq (a b : num) : num_eqb a b = true -> a = b.
Proof.
  destruct a, b; simpl; try discriminate; try reflexivity.
  intros H. f_equal. apply Qc_is_canon. now apply Qeq_bool_iff.
Qed.

(** ** Numbers *)

Lemma this_ofZ (z : Z) : (this (Q2Qc (inject_Z z)) == inject_Z z)%Q.
Proof. unfold Q2Qc, this. apply Qred_correct. Qed.

Lemma Qfloor_unique (x : Q) (z : Z) :
  (inject_Z z <= x)%Q -> (x < inject_Z (z + 1))%Q -> Qfloor x = z.
Proof.
  intros Hlo Hhi.
  assert (H1 : (z <= Qfloor x)%Z).
  { rewrite <- (Qfloor_Z z). now apply Qfloor_resp_le. }
  assert (H2 : (Qfloor x < z + 1)%Z).
  { rewrite Zlt_Qlt. eapply Qle_lt_trans; [apply Qfloor_le | exact Hhi]. }
  lia.
Qed.

Lemma round_Q_inject (z : Z) : round_Q (inject_Z z) = z.
Proof.
  unfold round_Q. apply Qfloor_unique.
  - rewrite <- (Qplus_0_r (inject_Z z)) at 1.
    apply Qplus_le_r. discriminate.
  - rewrite inject_Z_plus. apply Qplus_lt_r. reflexivity.
Qed.

Lemma round_Q_comp (x y : Q) : (x == y)%Q -> round_Q x = round_Q y.
Proof. intros H. unfold round_Q. now rewrite H. Qed.

Lemma round_Q_mono (x y : Q) : (x <= y)%Q -> (round_Q x <= round_Q y)%Z.
Proof.
  intros H. unfold round_Q. apply Qfloor_resp_le. now apply Qplus_le_l.
Qed.

Lemma round_Q_ofZ (z : Z) : round_Q (Q2Qc (inject_Z z)) = z.
Proof. rewrite (round_Q_comp _ _ (this_ofZ z)). apply round_Q_inject. Qed.

Lemma Math_round_ofZ (z : Z) : Math_round (ofZ z) = ofZ z.
Proof.
  change (ofZ (round_Q (Q2Qc (inject_Z z))) = ofZ z).
  now rewrite round_Q_ofZ.
Qed.

Lemma num_leb_ofZ (a b : Z) : num_leb (ofZ a) (ofZ b) = (a <=? b)%Z.
Proof.
  unfold ofZ, num_leb.
  destruct (Z.leb_spec a b) as [H | H].
  - apply Qle_bool_iff. rewrite !this_ofZ. now rewrite <- Zle_Qle.
  - destruct (Qle_bool _ _) eqn:E; [ | reflexivity].
    apply Qle_bool_iff in E. rewrite !this_ofZ in E.
    rewrite <- Zle_Qle in E. lia.
Qed.

Lemma num_leb_refl (a : num) : is_nan a = false -> num_leb a a = true.
Proof.
  destruct a; simpl; try discriminate; try reflexivity.
  intros _. apply Qle_bool_iff. apply Qle_refl.
Qed.

Lemma num_leb_trans (a b c : num) :
  num_leb a b = true -> num_leb b c = true -> num_leb a c = true.
Proof.
  destruct a, b, c; simpl; try discriminate; try reflexivity.
  rewrite !Qle_bool_iff. apply Qle_trans.
Qed.

Lemma num_leb_total (a b : num) :
  is_nan a = false -> is_nan b = false ->
  num_leb a b = false -> num_leb b a = true.
Proof.
  destruct a, b; simpl; try discriminate; try reflexivity.
  intros _ _ H. apply Qle_bool_iff.
  destruct (Qlt_le_dec q0 q) as [L | L].
  - now apply Qlt_le_weak.
  - apply Qle_bool_iff in L. simpl in *. congruence.
Qed.

Lemma num_leb_antisym (a b : num) :
  num_leb a b = true -> num_leb b a = true -> a = b.
Proof.
  destruct a, b; simpl; try discriminate; try reflexivity.
  rewrite !Qle_bool_iff. intros H1 H2.
  f_equal. apply Qc_is_canon. now apply Qle_antisym.
Qed.

Lemma num_leb_not_nan (a b : num) :
  num_leb a b = true -> is_nan a = false /\ is_nan b = false.
Proof. destruct a, b; simpl; try discriminate; auto. Qed.

Lemma Math_round_nan (a : num) : is_nan (Math_round a) = is_nan a.
Proof. destruct a; reflexivity. Qed.

Lemma Math_round_mono (a b : num) :
  num_leb a b = true -> num_leb (Math_round a) (Math_round b) = true.
Proof.
  destruct a, b; simpl; try discriminate; try reflexivity.
  intros H. apply Qle_bool_iff in H.
  change (num_leb (ofZ (round_Q q)) (ofZ (round_Q q0)) = true).
  rewrite num_leb_ofZ. apply Z.leb_le. now apply round_Q_mono.
Qed.

Lemma Math_round_idem (a : num) : Math_round (Math_round a) = Math_round a.
Proof.
  destruct a; try reflexivity.
  change (Math_round (ofZ (round_Q q)) = ofZ (round_Q q)).
  apply Math_round_ofZ.
Qed.

Lemma Math_round_integer (a : num) :
  is_integer a -> Math_round a = a.
Proof. intros [z ->]. apply Math_round_ofZ. Qed.

(** ** [clamp] *)

Lemma clamp_nan (v a b : num) :
  is_nan a || is_nan b || is_nan v = true -> clamp v a b = NaN.
Proof.
  unfold clamp, Math_max, Math_min.
  destruct a, b, v; simpl; try discriminate; try reflexivity;
    repeat match goal with |- context [if ?c then _ else _] => destruct c end;
    reflexivity.
Qed.

Lemma clamp_cases (v a b : num) :
  is_nan a = false -> is_nan b = false -> is_nan v = false ->
  clamp v a b =
    if num_leb b v then (if num_leb a b then b else a)
    else (if num_leb a v then v else a).
Proof.
  intros Ha Hb Hv. unfold clamp.
  assert (Hmin : Math_min b v = if num_leb b v then b else v).
  { destruct b, v; try discriminate; reflexivity. }
  rewrite Hmin.
  destruct (num_leb b v).
  - destruct a, b; try discriminate; reflexivity.
  - destruct a, v; try discriminate; reflexivity.
Qed.

Lemma clamp_not_nan (v a b : num) :
  is_nan a = false -> is_nan b = false -> is_nan v = false ->
  is_nan (clamp v a b) = false.
Proof.
  intros Ha Hb Hv. rewrite clamp_cases by assumption.
  repeat match goal with |- context [if ?c then _ else _] => destruct c end;
    assumption.
Qed.

Lemma clamp_in (v a b : num) :
  num_leb a b = true -> is_nan v = false ->
  num_leb a (clamp v a b) = true /\ num_leb (clamp v a b) b = true.
Proof.
  intros Hab Hv.
  destruct (num_leb_not_nan _ _ Hab) as [Ha Hb].
  rewrite clamp_cases by assumption. rewrite Hab.
  destruct (num_leb b v) eqn:Ebv.
  - split; [assumption | now apply num_leb_refl].
  - destruct (num_leb a v) eqn:Eav.
    + split; [assumption | now apply num_leb_total].
    + split; [now apply num_leb_refl | assumption].
Qed.

Lemma clamp_fix (x a b : num) :
  num_leb a x = true -> num_leb x b = true -> clamp x a b = x.
Proof.
  intros Hax Hxb.
  destruct (num_leb_not_nan _ _ Hax) as [Ha Hx].
  destruct (num_leb_not_nan _ _ Hxb) as [_ Hb].
  rewrite clamp_cases by assumption. rewrite Hax.
  destruct (num_leb b x) eqn:Ebx; [ | reflexivity].
  rewrite (num_leb_trans _ _ _ Hax Hxb). now apply num_leb_antisym.
Qed.

Lemma clamp_inverted (v a b : num) :
  is_nan a = false -> is_nan b = false -> is_nan v = false ->
  num_leb a b = false -> clamp v a b = a.
Proof.
  intros Ha Hb Hv Hab. rewrite clamp_cases by assumption. rewrite Hab.
  destruct (num_leb b v) eqn:Ebv; [reflexivity | ].
  destruct (num_leb a v) eqn:Eav; [ | reflexivity].
  assert (num_leb v b = true) by now apply num_leb_total.
  rewrite (num_leb_trans a v b) in Hab by assumption. discriminate.
Qed.

(** Rounding a value of the range and clamping again lands on the
    same integer. *)
Lemma round_clamp_round (x a b : num) :
  num_leb a x = true -> num_leb x b = true ->
  Math_round (clamp (Math_round x) a b) = Math_round x.
Proof.
  intros Hax Hxb.
  destruct (num_leb_not_nan _ _ Hax) as [Ha Hx].
  destruct (num_leb_not_nan _ _ Hxb) as [_ Hb].
  assert (Hr : is_nan (Math_round x) = false) by now rewrite Math_round_nan.
  rewrite clamp_cases by assumption.
  rewrite (num_leb_trans _ _ _ Hax Hxb).
  destruct (num_leb b (Math_round x)) eqn:E1.
  - apply num_leb_antisym.
    + rewrite <- (Math_round_idem x). now apply Math_round_mono.
    + now apply Math_round_mono.
  - destruct (num_leb a (Math_round x)) eqn:E2.
    + apply Math_round_idem.
    + apply num_leb_antisym.
      * now apply Math_round_mono.
      * rewrite <- (Math_round_idem x). apply Math_round_mono.
        now apply num_leb_total.
Qed.

Lemma clampValue_idem (d : ParameterDefinition) (v : num) :
  clampValue d (clampValue d v) = clampValue d v.
Proof.
  unfold clampValue.
  destruct (is_nan (min d) || is_nan (max d) || is_nan v) eqn:En.
  - rewrite (clamp_nan v) by exact En.
    assert (E2 : clamp NaN (min d) (max d) = NaN).
    { apply clamp_nan. simpl. apply orb_true_r. }
    destruct (isToggleLike d); simpl; rewrite E2; reflexivity.
  - apply orb_false_elim in En. destruct En as [En Hv].
    apply orb_false_elim in En. destruct En as [Ha Hb].
    destruct (num_leb (min d) (max d)) eqn:Hab.
    + destruct (clamp_in v _ _ Hab Hv) as [H1 H2].
      destruct (isToggleLike d).
      * now apply round_clamp_round.
      * now apply clamp_fix.
    + rewrite (clamp_inverted v) by assumption.
      destruct (isToggleLike d).
      * rewrite clamp_inverted; try assumption; try reflexivity.
        now rewrite Math_round_nan.
      * now apply clamp_inverted.
Qed.

(** ** Objects *)

Lemma obj_get_set_same (kvs : list (string * value)) (k : string) (v : value) :
  obj_get (obj_set kvs k v) k = v.
Proof.
  induction kvs as [ | [k' v'] rest IH]; simpl.
  - now rewrite String.eqb_refl.
  - destruct (String.eqb k' k) eqn:E; simpl.
    + now rewrite String.eqb_refl.
    + now rewrite E.
Qed.

Lemma obj_get_set_other (kvs : list (string * value)) (k k' : string) (v : value) :
  String.eqb k k' = false ->
  obj_get (obj_set kvs k v) k' = obj_get kvs k'.
Proof.
  intros Hk. induction kvs as [ | [k0 v0] rest IH]; simpl.
  - now rewrite Hk.
  - destruct (String.eqb k0 k) eqn:E; simpl.
    + apply String.eqb_eq in E. subst k0. now rewrite Hk.
    + now rewrite IH.
Qed.

Lemma obj_set_set (kvs : list (string * value)) (k : string) (v v' : value) :
  obj_set (obj_set kvs k v) k v' = obj_set kvs k v'.
Proof.
  induction kvs as [ | [k0 v0] rest IH]; simpl.
  - now rewrite String.eqb_refl.
  - destruct (String.eqb k0 k) eqn:E; simpl.
    + now rewrite String.eqb_refl.
    + now rewrite E, IH.
Qed.

Lemma obj_has_In (kvs : list (string * value)) (k : string) :
  obj_has kvs k = true <-> In k (List.map fst kvs).
Proof.
  induction kvs as [ | [k0 v0] rest IH]; simpl.
  - split; [discriminate | tauto].
  - rewrite orb_true_iff, IH, String.eqb_eq. tauto.
Qed.

Lemma obj_set_fresh (kvs : list (string * value)) (k : string) (v : value) :
  ~ In k (List.map fst kvs) -> obj_set kvs k v = kvs ++ [(k, v)].
Proof.
  induction kvs as [ | [k0 v0] rest IH]; simpl; intros H.
  - reflexivity.
  - destruct (String.eqb k0 k) eqn:E.
    + apply String.eqb_eq in E. tauto.
    + rewrite IH; tauto.
Qed.

Lemma obj_set_In (kvs : list (string * value)) (k : string) (v : value)
    (kv : string * value) :
  In kv (obj_set kvs k v) -> kv = (k, v) \/ In kv kvs.
Proof.
  induction kvs as [ | [k0 v0] rest IH]; simpl.
  - intros [<- | []]. now left.
  - destruct (String.eqb k0 k); simpl; intros [H | H]; subst; auto.
    destruct (IH H); auto.
Qed.

Lemma obj_set_keys (kvs : list (string * value)) (k : string) (v : value) :
  List.map fst (obj_set kvs k v) =
    if obj_has kvs k then List.map fst kvs else List.map fst kvs ++ [k].
Proof.
  induction kvs as [ | [k0 v0] rest IH]; simpl.
  - reflexivity.
  - destruct (String.eqb k0 k) eqn:E; simpl.
    + apply String.eqb_eq in E. now subst.
    + rewrite IH. now destruct (obj_has rest k).
Qed.

Lemma obj_set_NoDup (kvs : list (string * value)) (k : string) (v : value) :
  NoDup (List.map fst kvs) -> NoDup (List.map fst (obj_set kvs k v)).
Proof.
  intros H. rewrite obj_set_keys.
  destruct (obj_has kvs k) eqn:E; [assumption | ].
  assert (Hn : ~ In k (List.map fst kvs)).
  { rewrite <- obj_has_In. congruence. }
  clear E. induction (List.map fst kvs) as [ | x xs IH]; simpl.
  - constructor; [tauto | constructor].
  - inversion H; subst. constructor.
    + rewrite in_app_iff. simpl in *. intuition congruence.
    + apply IH; simpl in *; tauto.
Qed.

(** ** [byId] *)

Lemma byId_In (defs : list ParameterDefinition) (k : string) (d : ParameterDefinition) :
  byId defs k = Some d -> In d defs /\ id d = k.
Proof.
  induction defs as [ | d0 rest IH]; simpl; [discriminate | ].
  destruct (byId rest k) as [d' | ].
  - intros H. injection H as ->. destruct (IH eq_refl). auto.
  - destruct (String.eqb (id d0) k) eqn:E; [ | discriminate].
    intros H. injection H as ->. apply String.eqb_eq in E. auto.
Qed.

(** ** [clampMap] *)

Lemma assign_number_cases (out : list (string * value)) (k : string) (vv : num) :
  (k = proto_key /\ assign_number out k vv = out) \/
  (k <> proto_key /\ assign_number out k vv = obj_set out k (VNum vv)).
Proof.
  unfold assign_number. destruct (String.eqb k proto_key) eqn:E.
  - left. apply String.eqb_eq in E. auto.
  - right. apply String.eqb_neq in E. auto.
Qed.

Lemma assign_number_other (out : list (string * value)) (k : string) (vv : num) :
  k <> proto_key -> assign_number out k vv = obj_set out k (VNum vv).
Proof.
  intros H. destruct (assign_number_cases out k vv) as [[E _] | [_ E]];
    [contradiction | exact E].
Qed.

Lemma fold_clampEntry_from (defs : list ParameterDefinition)
    (es out : list (string * value)) (kv : string * value) :
  In kv (fold_left (clampEntry defs) es out) ->
  In kv out \/ fromSource defs es kv.
Proof.
  revert out. induction es as [ | [k v] rest IH]; simpl; intros out H.
  - now left.
  - destruct (IH _ H) as [Hin | (d & n & H1 & H2 & H3)].
    + unfold clampEntry in Hin.
      destruct (byId defs k) as [d | ] eqn:Ed; [ | now left].
      destruct v; try (now left).
      destruct (assign_number_cases out k (clampValue d n)) as [[_ E] | [Hk E]];
        rewrite E in Hin; [now left | ].
      destruct (obj_set_In _ _ _ _ Hin) as [-> | Hin']; [ | now left].
      right. exists d, n. simpl. repeat split; auto.
    + destruct H3 as [H3 H4].
      right. exists d, n. repeat split; auto. now right.
Qed.

Lemma clampMap_from (defs : list ParameterDefinition) (obj : value)
    (kv : string * value) :
  In kv (clampMap defs obj) ->
  fromSource defs (Object_entries (or_else obj (VObj []))) kv.
Proof.
  unfold clampMap. intros H.
  destruct (fold_clampEntry_from _ _ _ _ H) as [[] | H']. exact H'.
Qed.

Lemma fold_clampEntry_NoDup (defs : list ParameterDefinition)
    (es out : list (string * value)) :
  NoDup (List.map fst out) ->
  NoDup (List.map fst (fold_left (clampEntry defs) es out)).
Proof.
  revert out. induction es as [ | [k v] rest IH]; simpl; intros out H.
  - exact H.
  - apply IH. unfold clampEntry.
    destruct (byId defs k) as [d | ]; [ | exact H].
    destruct v; try exact H.
    destruct (assign_number_cases out k (clampValue d n)) as [[_ E] | [_ E]];
      rewrite E; [exact H | now apply obj_set_NoDup].
Qed.

Lemma clampMap_NoDup (defs : list ParameterDefinition) (obj : value) :
  NoDup (List.map fst (clampMap defs obj)).
Proof. apply fold_clampEntry_NoDup. constructor. Qed.

Lemma fold_clampEntry_rebuild (defs : list ParameterDefinition)
    (out acc : list (string * value)) :
  NoDup (List.map fst (acc ++ out)) ->
  Forall (fixedEntry defs) out ->
  fold_left (clampEntry defs) out acc = acc ++ out.
Proof.
  revert acc. induction out as [ | [k v] rest IH]; simpl; intros acc Hnd Hfix.
  - now rewrite app_nil_r.
  - inversion Hfix as [ | ? ? (d & x & H1 & H2 & H3 & H4) Hrest]; subst.
    simpl in H1, H2, H4. subst v. rewrite H1, H3.
    rewrite (assign_number_other _ _ _ H4).
    rewrite obj_set_fresh.
    + rewrite IH; [now rewrite <- app_assoc | | exact Hrest].
      now rewrite <- app_assoc.
    + rewrite map_app in Hnd. simpl in Hnd.
      apply NoDup_remove_2 in Hnd. rewrite in_app_iff in Hnd. tauto.
Qed.

Lemma clampMap_fixed (defs : list ParameterDefinition) (obj : value) :
  Forall (fixedEntry defs) (clampMap defs obj).
Proof.
  apply Forall_forall. intros [k v] H.
  destruct (clampMap_from _ _ _ H) as (d & n & H1 & _ & H3 & H4).
  exists d, (clampValue d n). repeat split; try assumption.
  apply clampValue_idem.
Qed.

Lemma clampMap_idem (defs : list ParameterDefinition) (obj : value) :
  clampMap defs (VObj (clampMap defs obj)) = clampMap defs obj.
Proof.
  unfold clampMap at 1. simpl.
  apply (fold_clampEntry_rebuild defs (clampMap defs obj) []).
  - apply clampMap_NoDup.
  - apply clampMap_fixed.
Qed.

Lemma obj_has_set (kvs : list (string * value)) (k k' : string) (v : value) :
  obj_has (obj_set kvs k v) k' = String.eqb k k' || obj_has kvs k'.
Proof.
  induction kvs as [ | [k0 v0] rest IH]; simpl.
  - reflexivity.
  - destruct (String.eqb k0 k) eqn:E; simpl.
    + apply String.eqb_eq in E. subst k0.
      now destruct (String.eqb k k').
    + rewrite IH. destruct (String.eqb k0 k'), (String.eqb k k'); reflexivity.
Qed.

Lemma obj_set_noop (kvs : list (string * value)) (k : string) (v : value) :
  obj_has kvs k = true -> obj_get kvs k = v -> obj_set kvs k v = kvs.
Proof.
  induction kvs as [ | [k0 v0] rest IH]; simpl; [discriminate | ].
  destruct (String.eqb k0 k) eqn:E; simpl.
  - intros _ ->. apply String.eqb_eq in E. now subst.
  - intros H1 H2. now rewrite IH.
Qed.

(** ** Time fields *)

Lemma zero_canon (q : Qc) : Qeq_bool q 0 = true -> Fin q = ofZ 0.
Proof.
  intros H. unfold ofZ. f_equal. apply Qc_is_canon.
  apply Qeq_bool_iff in H. rewrite H. symmetry. apply (this_ofZ 0).
Qed.

Lemma or_else_zero (t : num) :
  is_nan t = false -> or_else (VNum t) (VNum (ofZ 0)) = VNum t.
Proof.
  unfold or_else. destruct t; simpl; try discriminate; try reflexivity.
  intros _. destruct (Qeq_bool q 0) eqn:E; simpl; [ | reflexivity].
  now rewrite (zero_canon q E).
Qed.

(** A plain time field converts to a number that is not NaN,
    whatever the default it falls back to. *)
Lemma plainTime_number (host : Host) (tm : value) (dft n : num) :
  plainTime tm = true -> is_nan dft = false ->
  ToNumber host (or_else tm (VNum dft)) = Ok n -> is_nan n = false.
Proof.
  unfold or_else. intros Hp Hd.
  destruct tm as [ | | b | m | | | ]; simpl in *; try discriminate;
    try (intros H; injection H as <-; exact Hd).
  - destruct b; simpl; intros H; injection H as <-; [reflexivity | exact Hd].
  - destruct m; simpl; try (intros H; injection H as <-; (exact Hd || reflexivity)).
    destruct (Qeq_bool q 0); simpl; intros H; injection H as <-;
      [exact Hd | reflexivity].
Qed.

Lemma floor_at (c : Z) (r : num) :
  is_nan r = false ->
  Math_max (ofZ c) r = (if num_leb (ofZ c) r then r else ofZ c).
Proof. intros H. destruct r; try discriminate; reflexivity. Qed.

Lemma floor_round_fix (c : Z) (n : num) :
  is_nan n = false ->
  let t := Math_max (ofZ c) (Math_round n) in
  is_nan t = false /\ num_leb (ofZ c) t = true /\
  Math_max (ofZ c) (Math_round t) = t.
Proof.
  intros Hn t. subst t.
  assert (Hr : is_nan (Math_round n) = false) by now rewrite Math_round_nan.
  rewrite floor_at by exact Hr.
  destruct (num_leb (ofZ c) (Math_round n)) eqn:E.
  - repeat split; try assumption.
    rewrite Math_round_idem, floor_at by exact Hr. now rewrite E.
  - repeat split; try reflexivity.
    + rewrite num_leb_ofZ. apply Z.leb_refl.
    + rewrite Math_round_ofZ, floor_at by reflexivity.
      now rewrite num_leb_ofZ, Z.leb_refl.
Qed.

Lemma truthy_ge8 (t : num) : num_leb (ofZ 8) t = true -> truthy (VNum t) = true.
Proof.
  destruct t; try discriminate; try reflexivity.
  unfold num_leb, ofZ, truthy. intros H. apply Qle_bool_iff in H.
  destruct (Qeq_bool q 0) eqn:E; [ | reflexivity].
  apply Qeq_bool_iff in E. rewrite (this_ofZ 8), E in H.
  exfalso. revert H. unfold Qle. simpl. lia.
Qed.

(** ** [clampKeyframe] *)

Lemma clampKeyframe_out (host : Host) (defs : list ParameterDefinition)
    (kf k : value) :
  clampKeyframe host defs kf = Ok k ->
  exists tm n,
    getProp kf "timeMs" = Ok tm /\
    ToNumber host (or_else tm (VNum (ofZ 0))) = Ok n /\
    k = VObj [("timeMs", VNum (normTime n));
              ("params", VObj (clampMap defs (keyframeSource kf)))].
Proof.
  unfold clampKeyframe.
  destruct (getProp kf "timeMs") as [tm | | ] eqn:E1; simpl; try discriminate.
  destruct (ToNumber host (or_else tm (VNum (ofZ 0)))) as [n | | ] eqn:E2;
    simpl; try discriminate.
  intros H. injection H as <-. exists tm, n. auto.
Qed.

Lemma clampKeyframe_obj (host : Host) (defs : list ParameterDefinition)
    (kvs : list (string * value)) :
  clampKeyframe host defs (VObj kvs) =
    do n <- ToNumber host (or_else (obj_get kvs "timeMs") (VNum (ofZ 0)));
    Ok (VObj [("timeMs", VNum (normTime n));
              ("params", VObj (clampMap defs (keyframeSource (VObj kvs))))]).
Proof. reflexivity. Qed.

Lemma kf_time (a b : value) :
  obj_get [("timeMs", a); ("params", b)] "timeMs" = a.
Proof. reflexivity. Qed.

Lemma kf_source (a : value) (m : list (string * value)) :
  keyframeSource (VObj [("timeMs", a); ("params", VObj m)]) = VObj m.
Proof. reflexivity. Qed.

Lemma floor_round_nan (c : Z) (n : num) :
  is_nan (Math_max (ofZ c) (Math_round n)) = false -> is_nan n = false.
Proof. destruct n; try reflexivity. unfold ofZ. simpl. discriminate. Qed.

Lemma saneTime_number (n : num) : saneTime (VNum n) = true -> is_nan n = false.
Proof. now destruct n. Qed.

(** A clamped keyframe whose stored time is not NaN is clamped to
    itself. *)
Lemma clampKeyframe_fix (host : Host) (defs : list ParameterDefinition)
    (kf k : value) :
  clampKeyframe host defs kf = Ok k ->
  saneTime (getField k "timeMs") = true ->
  clampKeyframe host defs k = Ok k.
Proof.
  intros H Hs.
  destruct (clampKeyframe_out _ _ _ _ H) as (tm & n & H1 & H2 & ->).
  assert (Hn : is_nan n = false).
  { apply (floor_round_nan 0). fold (normTime n).
    apply saneTime_number. exact Hs. }
  destruct (floor_round_fix 0 n Hn) as (T1 & T2 & T3).
  fold (normTime n) in T1, T2, T3.
  rewrite clampKeyframe_obj, kf_time, kf_source.
  rewrite or_else_zero by exact T1.
  change (ToNumber host (VNum (normTime n))) with (Ok (normTime n)).
  unfold bind. unfold normTime at 1. rewrite T3.
  now rewrite clampMap_idem.
Qed.

Lemma mapM_fix {A : Type} (f : A -> result A) (P : A -> bool) (xs ys : list A) :
  (forall x y, f x = Ok y -> P y = true -> f y = Ok y) ->
  mapM f xs = Ok ys -> forallb P ys = true ->
  mapM f ys = Ok ys.
Proof.
  intros Hf. revert ys. induction xs as [ | x rest IH]; simpl; intros ys H Hp.
  - injection H as <-. reflexivity.
  - destruct (f x) as [y | | ] eqn:Ex; simpl in H; try discriminate.
    destruct (mapM f rest) as [ys' | | ] eqn:Er; simpl in H; try discriminate.
    injection H as <-. simpl in Hp.
    apply andb_true_iff in Hp. destruct Hp as [Hy Hrest]. simpl.
    rewrite (Hf _ _ Ex Hy). simpl. now rewrite (IH ys' eq_refl Hrest).
Qed.

(** ** [clampTimeline], branch by branch *)

Lemma clampTimeline_keyframes (host : Host) (defs : list ParameterDefinition)
    (kvs : list (string * value)) :
  is_str (obj_get kvs "mode") "keyframes" = true ->
  clampTimeline host (VObj kvs) defs =
    match or_else (obj_get kvs "keyframes") (VArr []) with
    | VArr kfs =>
        do ks <- mapM (clampKeyframe host defs) kfs;
        Ok (VObj (obj_set kvs "keyframes" (VArr ks)))
    | _ => Throw
    end.
Proof. intros H. unfold clampTimeline. simpl negb. cbv iota. now rewrite H. Qed.

Lemma clampTimeline_fixed (host : Host) (defs : list ParameterDefinition)
    (kvs fkvs : list (string * value)) :
  is_str (obj_get kvs "mode") "fixed_fps" = true ->
  obj_get kvs "fixedFps" = VObj fkvs ->
  truthy (obj_get fkvs "frames") = true ->
  clampTimeline host (VObj kvs) defs =
    do n <- ToNumber host (or_else (obj_get fkvs "dtMs") (VNum default_dt));
    match obj_get fkvs "frames" with
    | VArr frames =>
        Ok (VObj (obj_set kvs "fixedFps"
                   (VObj (obj_set (obj_set fkvs "dtMs" (VNum (normDt n))) "frames"
                            (VArr (List.map (fun f => VObj (clampMap defs f)) frames))))))
    | _ => Throw
    end.
Proof.
  intros Hm Hf Ht. unfold clampTimeline. simpl negb. cbv iota.
  assert (Hk : is_str (obj_get kvs "mode") "keyframes" = false).
  { destruct (obj_get kvs "mode"); simpl in *; try discriminate.
    apply String.eqb_eq in Hm. now subst. }
  rewrite Hk, Hm, Hf. simpl getPropOpt. rewrite Ht. simpl andb. cbv iota.
  destruct (ToNumber host _) as [n | | ]; simpl; try reflexivity.
  now rewrite obj_get_set_other by reflexivity.
Qed.

Lemma clampTimeline_other (host : Host) (defs : list ParameterDefinition)
    (kvs : list (string * value)) :
  is_str (obj_get kvs "mode") "keyframes" = false ->
  is_str (obj_get kvs "mode") "fixed_fps"
    && truthy (getPropOpt (obj_get kvs "fixedFps") "frames") = false ->
  clampTimeline host (VObj kvs) defs = Ok (VObj kvs).
Proof. intros H1 H2. unfold clampTimeline. simpl negb. cbv iota. now rewrite H1, H2. Qed.

Lemma clampTimeline_not_object (host : Host) (defs : list ParameterDefinition)
    (t : value) :
  (forall kvs, t <> VObj kvs) -> clampTimeline host t defs = Ok t.
Proof.
  intros H. unfold clampTimeline.
  destruct (negb (truthy t)); [reflexivity | ].
  destruct t; try reflexivity. now destruct (H kvs).
Qed.

(** A truthy [frames] under [fixedFps?.] means [fixedFps] is an object. *)
Lemma frames_object (v : value) :
  truthy (getPropOpt v "frames") = true -> exists fkvs, v = VObj fkvs.
Proof.
  destruct v; simpl; try discriminate. intros _. now exists kvs.
Qed.

Lemma map_clampMap_idem (defs : list ParameterDefinition) (frames : list value) :
  List.map (fun f => VObj (clampMap defs f))
      (List.map (fun f => VObj (clampMap defs f)) frames)
  = List.map (fun f => VObj (clampMap defs f)) frames.
Proof.
  rewrite map_map. apply map_ext. intros f. now rewrite clampMap_idem.
Qed.

Lemma or_else_array (x : value) (kfs : list value) :
  or_else x (VArr []) = VArr kfs ->
  x = VArr kfs \/ (kfs = [] /\ truthy x = false).
Proof.
  unfold or_else. destruct (truthy x) eqn:E; intros H.
  - now left.
  - injection H as <-. now right.
Qed.

Lemma clampTimeline_fix_keyframes (host : Host) (defs : list ParameterDefinition)
    (kvs : list (string * value)) (t1 : value) :
  is_str (obj_get kvs "mode") "keyframes" = true ->
  clampTimeline host (VObj kvs) defs = Ok t1 ->
  timesSane t1 = true ->
  clampTimeline host t1 defs = Ok t1.
Proof.
  intros Hm. rewrite clampTimeline_keyframes by exact Hm.
  destruct (or_else (obj_get kvs "keyframes") (VArr [])) as [ | | | | |kfs| ] eqn:E;
    try discriminate.
  destruct (mapM (clampKeyframe host defs) kfs) as [ks | | ] eqn:Em;
    simpl; try discriminate.
  intros H Hs. injection H as <-.
  assert (Hmode : obj_get (obj_set kvs "keyframes" (VArr ks)) "mode"
                  = obj_get kvs "mode")
    by now rewrite obj_get_set_other.
  assert (Hks : mapM (clampKeyframe host defs) ks = Ok ks).
  { apply (mapM_fix _ (fun k => saneTime (getField k "timeMs")) kfs ks);
      try assumption.
    - intros x y. apply clampKeyframe_fix.
    - unfold timesSane in Hs. simpl getField in Hs.
      rewrite Hmode, Hm, obj_get_set_same in Hs. exact Hs. }
  rewrite clampTimeline_keyframes.
  - rewrite obj_get_set_same. unfold or_else. simpl truthy. cbv iota.
    rewrite Hks. simpl. now rewrite obj_set_set.
  - now rewrite Hmode.
Qed.

Lemma clampTimeline_fix_fixed (host : Host) (defs : list ParameterDefinition)
    (kvs fkvs : list (string * value)) (t1 : value) :
  is_str (obj_get kvs "mode") "fixed_fps" = true ->
  obj_get kvs "fixedFps" = VObj fkvs ->
  truthy (obj_get fkvs "frames") = true ->
  clampTimeline host (VObj kvs) defs = Ok t1 ->
  timesSane t1 = true ->
  clampTimeline host t1 defs = Ok t1.
Proof.
  intros Hm Hf Ht.
  rewrite (clampTimeline_fixed host defs kvs fkvs) by assumption.
  destruct (ToNumber host _) as [n | | ] eqn:En; simpl; try discriminate.
  destruct (obj_get fkvs "frames") as [ | | | | |frames| ] eqn:Efr; try discriminate.
  intros H Hs. injection H as <-.
  assert (Hk : is_str (obj_get kvs "mode") "keyframes" = false).
  { destruct (obj_get kvs "mode"); simpl in *; try discriminate.
    apply String.eqb_eq in Hm. now subst. }
  set (fs := List.map (fun f => VObj (clampMap defs f)) frames) in *.
  set (fk := obj_set (obj_set fkvs "dtMs" (VNum (normDt n))) "frames" (VArr fs)) in *.
  assert (Gfr : obj_get fk "frames" = VArr fs) by apply obj_get_set_same.
  assert (Gdt : obj_get fk "dtMs" = VNum (normDt n)).
  { unfold fk. rewrite obj_get_set_other by reflexivity. apply obj_get_set_same. }
  assert (Hn : is_nan n = false).
  { apply (floor_round_nan 8). fold (normDt n). apply saneTime_number.
    unfold timesSane in Hs. simpl getField in Hs.
    rewrite obj_get_set_other in Hs by reflexivity.
    rewrite Hk, Hm, obj_get_set_same in Hs. simpl getField in Hs.
    now rewrite Gdt in Hs. }
  destruct (floor_round_fix 8 n Hn) as (T1 & T2 & T3).
  fold (normDt n) in T1, T2, T3.
  assert (Hfs : List.map (fun f => VObj (clampMap defs f)) fs = fs)
    by apply map_clampMap_idem.
  rewrite (clampTimeline_fixed host defs _ fk).
  - rewrite Gdt. unfold or_else. rewrite (truthy_ge8 _ T2).
    change (ToNumber host (VNum (normDt n))) with (Ok (normDt n)).
    unfold bind. rewrite Gfr. unfold normDt at 1. rewrite T3.
    rewrite Hfs.
    rewrite obj_set_set.
    rewrite (obj_set_noop fk "dtMs") by
      (try exact Gdt; unfold fk; rewrite !obj_has_set; reflexivity).
    rewrite (obj_set_noop fk "frames") by
      (try exact Gfr; unfold fk; rewrite !obj_has_set; reflexivity).
    reflexivity.
  - now rewrite obj_get_set_other by reflexivity.
  - apply obj_get_set_same.
  - now rewrite Gfr.
Qed.

(** C6 (the code at the failing input). A keyframe whose [timeMs] is
    an object: the first pass stores NaN ([Math.max(0, NaN)]) as its
    time, the second pass reads NaN as missing and stores 0, so
    clamping the clamped timeline changes it. Likewise a [dtMs] that
    is an object is stored as NaN, then as 17. *)
Theorem clampTimeline_twice_differs :
  (forall host : Host,
     clampTimeline host (keyed [VObj [("timeMs", VObj [])]]) []
       = Ok (keyed [keyframe (VNum NaN) []]) /\
     clampTimeline host (keyed [keyframe (VNum NaN) []]) []
       = Ok (keyed [keyframe (VNum (ofZ 0)) []])) /\
  keyed [keyframe (VNum NaN) []] <> keyed [keyframe (VNum (ofZ 0)) []] /\
  (forall host : Host,
     clampTimeline host (fixed (VObj []) [VObj []]) []
       = Ok (fixed (VNum NaN) [VObj []]) /\
     clampTimeline host (fixed (VNum NaN) [VObj []]) []
       = Ok (fixed (VNum (ofZ 17)) [VObj []])) /\
  fixed (VNum NaN) [VObj []] <> fixed (VNum (ofZ 17)) [VObj []].
Proof.
  split; [ | split; [ | split]].
  - intros host. split; vm_compute; reflexivity.
  - unfold keyed, keyframe, ofZ. congruence.
  - intros host. split; vm_compute; reflexivity.
  - unfold fixed, ofZ. congruence.
Qed.

(** ** The frame step *)

Lemma normDt_default : normDt default_dt = ofZ 17.
Proof. vm_compute. reflexivity. Qed.

Lemma ofZ_neq (a b : Z) : a <> b -> ofZ a <> ofZ b.
Proof.
  intros Hab H.
  assert (H1 : num_leb (ofZ a) (ofZ b) = true)
    by (rewrite H; now apply num_leb_refl).
  assert (H2 : num_leb (ofZ b) (ofZ a) = true)
    by (rewrite H; now apply num_leb_refl).
  rewrite num_leb_ofZ in H1, H2. apply Z.leb_le in H1, H2. lia.
Qed.

(** C8 (amended). In fixed-rate mode with a [frames] array, the stored
    [dtMs] is the given one rounded to the nearest integer and raised
    to at least 8 when the given one is a number other than 0 and NaN;
    when it is 0, NaN or missing, the stored [dtMs] is 17 (the rounded
    default [1000/60]). *)
Theorem clampTimeline_dtMs (host : Host) (defs : list ParameterDefinition)
    (kvs fkvs : list (string * value)) (frames : list value) :
  is_str (obj_get kvs "mode") "fixed_fps" = true ->
  obj_get kvs "fixedFps" = VObj fkvs ->
  obj_get fkvs "frames" = VArr frames ->
  (forall d, obj_get fkvs "dtMs" = VNum d ->
     exists t1, clampTimeline host (VObj kvs) defs = Ok t1 /\
       getField (getField t1 "fixedFps") "dtMs" =
         VNum (if truthy (VNum d) then Math_max (ofZ 8) (Math_round d) else ofZ 17)) /\
  (obj_get fkvs "dtMs" = VUndef ->
     exists t1, clampTimeline host (VObj kvs) defs = Ok t1 /\
       getField (getField t1 "fixedFps") "dtMs" = VNum (ofZ 17)).
Proof.
  intros Hm Hf Hfr.
  assert (Ht : truthy (obj_get fkvs "frames") = true) by now rewrite Hfr.
  assert (G : forall n,
    getField (getField
      (VObj (obj_set kvs "fixedFps"
         (VObj (obj_set (obj_set fkvs "dtMs" (VNum n)) "frames"
            (VArr (List.map (fun f => VObj (clampMap defs f)) frames))))))
      "fixedFps") "dtMs" = VNum n).
  { intros n. simpl getField at 2. rewrite obj_get_set_same. simpl getField.
    rewrite obj_get_set_other by reflexivity. apply obj_get_set_same. }
  split.
  - intros d Hd.
    rewrite (clampTimeline_fixed host defs kvs fkvs) by assumption.
    rewrite Hd, Hfr. unfold or_else.
    destruct (truthy (VNum d)).
    + eexists. split; [reflexivity | apply G].
    + eexists. split; [reflexivity | ]. rewrite G. now rewrite normDt_default.
  - intros Hd.
    rewrite (clampTimeline_fixed host defs kvs fkvs) by assumption.
    rewrite Hd, Hfr. unfold or_else. simpl truthy. cbv iota.
    eexists. split; [reflexivity | ]. rewrite G. now rewrite normDt_default.
Qed.

Lemma clampTimeline_dtMs_witness :
  exists t1,
    clampTimeline sample_host (fixed (VNum (ofZ 5)) [VObj []]) [] = Ok t1 /\
    getField (getField t1 "fixedFps") "dtMs" = VNum (ofZ 8).
Proof.
  destruct (clampTimeline_dtMs sample_host []
              [("mode", VStr "fixed_fps");
               ("fixedFps", VObj [("dtMs", VNum (ofZ 5)); ("frames", VArr [VObj []])])]
              [("dtMs", VNum (ofZ 5)); ("frames", VArr [VObj []])] [VObj []]
              eq_refl eq_refl eq_refl) as [H _].
  destruct (H (ofZ 5) eq_refl) as (t1 & H1 & H2).
  exists t1. split; [exact H1 | ]. rewrite H2. vm_compute. reflexivity.
Defined.

(** C8 (counterexample). A candidate [dtMs] of 0 is below 8, and the
    stored [dtMs] is 17, not 8. *)
Lemma clampTimeline_dtMs_zero :
  (forall host : Host,
     clampTimeline host (fixed (VNum (ofZ 0)) [VObj []]) []
       = Ok (fixed (VNum (ofZ 17)) [VObj []])) /\
  Math_max (ofZ 8) (Math_round (ofZ 0)) = ofZ 8 /\
  ofZ 17 <> ofZ 8.
Proof.
  split; [ | split].
  - intros host. vm_compute. reflexivity.
  - vm_compute. reflexivity.
  - apply ofZ_neq. discriminate.
Qed.

(** ** Keyframes: [params] and [set] *)

Lemma mapM_Forall2 {A B : Type} (f : A -> result B) (xs : list A) (ys : list B) :
  mapM f xs = Ok ys -> Forall2 (fun x y => f x = Ok y) xs ys.
Proof.
  revert ys. induction xs as [ | x rest IH]; simpl; intros ys H.
  - injection H as <-. constructor.
  - destruct (f x) as [y | | ] eqn:Ex; simpl in H; try discriminate.
    destruct (mapM f rest) as [ys' | | ] eqn:Er; simpl in H; try discriminate.
    injection H as <-. constructor; auto.
Qed.

Lemma fold_clampEntry_keeps (defs : list ParameterDefinition)
    (es out : list (string * value)) (k : string) :
  obj_has out k = true ->
  obj_has (fold_left (clampEntry defs) es out) k = true.
Proof.
  revert out. induction es as [ | [k' v] rest IH]; simpl; intros out H.
  - exact H.
  - apply IH. unfold clampEntry.
    destruct (byId defs k') as [d | ]; [ | exact H].
    destruct v; try exact H.
    destruct (assign_number_cases out k' (clampValue d n)) as [[_ E] | [_ E]];
      rewrite E; [exact H | ].
    rewrite obj_has_set, H. apply orb_true_r.
Qed.

(** A numeric entry under a catalogued id other than [__proto__] is
    retained. *)
Lemma fold_clampEntry_retains (defs : list ParameterDefinition)
    (es out : list (string * value)) (k : string) (n : num)
    (d : ParameterDefinition) :
  In (k, VNum n) es -> byId defs k = Some d -> k <> proto_key ->
  obj_has (fold_left (clampEntry defs) es out) k = true.
Proof.
  intros Hin Hd Hk.
  revert out Hin. induction es as [ | [k' v] rest IH]; simpl; intros out Hin.
  - destruct Hin.
  - destruct Hin as [Heq | Hin].
    + injection Heq as -> ->. apply fold_clampEntry_keeps.
      unfold clampEntry. rewrite Hd, (assign_number_other _ _ _ Hk).
      rewrite obj_has_set, String.eqb_refl. reflexivity.
    + now apply IH.
Qed.

(** Nothing is ever stored under [__proto__]. *)
Lemma fold_clampEntry_no_proto (defs : list ParameterDefinition)
    (es out : list (string * value)) :
  obj_has out proto_key = false ->
  obj_has (fold_left (clampEntry defs) es out) proto_key = false.
Proof.
  revert out. induction es as [ | [k v] rest IH]; simpl; intros out H.
  - exact H.
  - apply IH. unfold clampEntry.
    destruct (byId defs k) as [d | ]; [ | exact H].
    destruct v; try exact H.
    destruct (assign_number_cases out k (clampValue d n)) as [[_ E] | [Hk E]];
      rewrite E; [exact H | ].
    rewrite obj_has_set, H.
    destruct (String.eqb k proto_key) eqn:Ek; [ | reflexivity].
    apply String.eqb_eq in Ek. contradiction.
Qed.

(** C10. In keyframes mode each keyframe's parameter map is read from
    [params] and, when [params] is missing or falsy, from [set]; the
    output keyframe stores the clamped map under [params], and a
    numeric entry of a [set]-only keyframe under a catalogued id other
    than [__proto__] is retained there, while nothing is stored under
    [__proto__]. *)
Theorem clampTimeline_params_or_set (host : Host) (defs : list ParameterDefinition)
    (kvs : list (string * value)) (kfs : list value) (t1 : value) :
  is_str (obj_get kvs "mode") "keyframes" = true ->
  obj_get kvs "keyframes" = VArr kfs ->
  clampTimeline host (VObj kvs) defs = Ok t1 ->
  exists ks,
    getField t1 "keyframes" = VArr ks /\
    Forall2 (fun kf k =>
      getField k "params" =
        VObj (clampMap defs
                (if truthy (getField kf "params") then getField kf "params"
                 else or_else (getField kf "set") (VObj []))) /\
      (forall m i n d,
         truthy (getField kf "params") = false ->
         getField kf "set" = VObj m -> In (i, VNum n) m ->
         byId defs i = Some d -> i <> proto_key ->
         exists ps, getField k "params" = VObj ps /\ obj_has ps i = true) /\
      (exists ps, getField k "params" = VObj ps /\ obj_has ps proto_key = false))
      kfs ks.
Proof.
  intros Hm Hk. rewrite clampTimeline_keyframes by exact Hm.
  rewrite Hk. unfold or_else at 1. simpl truthy. cbv iota.
  destruct (mapM (clampKeyframe host defs) kfs) as [ks | | ] eqn:Em;
    simpl; try discriminate.
  intros H. injection H as <-. exists ks. split.
  - simpl. apply obj_get_set_same.
  - apply mapM_Forall2 in Em. clear Hk.
    induction Em as [ | kf k kfs' ks' Hkf _ IH]; [constructor | ].
    constructor; [ | exact IH].
    destruct (clampKeyframe_out _ _ _ _ Hkf) as (tm & n & _ & _ & ->).
    assert (Hsrc : keyframeSource kf =
              if truthy (getField kf "params") then getField kf "params"
              else or_else (getField kf "set") (VObj [])).
    { unfold keyframeSource, or_else.
      destruct (truthy (getField kf "params")) eqn:E; cbv iota.
      - now rewrite E.
      - reflexivity. }
    split; [ | split].
    + simpl. now rewrite Hsrc.
    + intros m i x d Hp Hs Hin Hd Hi. eexists. split; [reflexivity | ].
      rewrite Hsrc, Hp, Hs. unfold clampMap, or_else. simpl truthy. cbv iota.
      simpl Object_entries. now apply (fold_clampEntry_retains defs m [] i x d).
    + eexists. split; [reflexivity | ].
      unfold clampMap. now apply fold_clampEntry_no_proto.
Qed.

Lemma clampTimeline_params_or_set_witness :
  exists ks,
    getField (keyed [keyframe (VNum (ofZ 0)) [("ParamX", VNum (ofZ 1))]]) "keyframes"
      = VArr ks /\
    Forall2 (fun kf k =>
      getField k "params" =
        VObj (clampMap [unit_def "ParamX" false]
                (if truthy (getField kf "params") then getField kf "params"
                 else or_else (getField kf "set") (VObj []))) /\
      (forall m i n d,
         truthy (getField kf "params") = false ->
         getField kf "set" = VObj m -> In (i, VNum n) m ->
         byId [unit_def "ParamX" false] i = Some d -> i <> proto_key ->
         exists ps, getField k "params" = VObj ps /\ obj_has ps i = true) /\
      (exists ps, getField k "params" = VObj ps /\ obj_has ps proto_key = false))
      [VObj [("timeMs", VNum (ofZ 0)); ("set", VObj [("ParamX", VNum (ofZ 7))])]] ks.
Proof.
  apply (clampTimeline_params_or_set sample_host [unit_def "ParamX" false]
           [("mode", VStr "keyframes");
            ("keyframes",
             VArr [VObj [("timeMs", VNum (ofZ 0));
                         ("set", VObj [("ParamX", VNum (ofZ 7))])]])]).
  - reflexivity.
  - reflexivity.
  - vm_compute. reflexivity.
Defined.

(** ** The post-validation invariant *)

Lemma between_integers_finite (a b : Z) (x : num) :
  num_leb (ofZ a) x = true -> num_leb x (ofZ b) = true -> exists q, x = Fin q.
Proof. destruct x; simpl; try discriminate. intros _ _. now exists q. Qed.

Lemma clampValue_valid (d : ParameterDefinition) (n : num) :
  goodDef d -> is_nan n = false ->
  num_le (min d) (clampValue d n) /\ num_le (clampValue d n) (max d) /\
  (isToggleLike d = true -> is_integer (clampValue d n)).
Proof.
  intros [Hab Hint] Hn. unfold clampValue, num_le in *.
  destruct (clamp_in n _ _ Hab Hn) as [H1 H2].
  destruct (isToggleLike d).
  - destruct (Hint eq_refl) as [[a Ha] [b Hb]].
    rewrite Ha, Hb in *.
    set (x := clamp n (ofZ a) (ofZ b)) in *.
    destruct (between_integers_finite a b _ H1 H2) as [q Hq].
    repeat split.
    + rewrite <- (Math_round_ofZ a). now apply Math_round_mono.
    + rewrite <- (Math_round_ofZ b). now apply Math_round_mono.
    + intros _. rewrite Hq. now exists (round_Q q).
  - repeat split; try assumption. discriminate.
Qed.

Lemma mapOk_number (m : value) (k : string) (n : num) :
  mapOk m = true -> In (k, VNum n) (Object_entries m) -> is_nan n = false.
Proof.
  unfold mapOk. rewrite forallb_forall. intros H Hin.
  specialize (H _ Hin). unfold numberOk in H. simpl in H.
  now destruct n.
Qed.

Lemma mapOk_or_else (a b : value) :
  mapOk a = true -> mapOk b = true -> mapOk (or_else a b) = true.
Proof. unfold or_else. now destruct (truthy a). Qed.

Lemma clampMap_valid (defs : list ParameterDefinition) (obj : value) :
  Forall goodDef defs -> mapOk obj = true ->
  validMap defs (VObj (clampMap defs obj)).
Proof.
  intros Hg Hok. exists (clampMap defs obj). split; [reflexivity | ].
  apply Forall_forall. intros [k v] Hin.
  destruct (clampMap_from _ _ _ Hin) as (d & n & Hd & Hsrc & Hv & _).
  simpl in Hd, Hsrc, Hv.
  destruct (byId_In _ _ _ Hd) as [HdIn Hid].
  assert (Hn : is_nan n = false).
  { apply (mapOk_number (or_else obj (VObj [])) k); [ | exact Hsrc].
    now apply mapOk_or_else. }
  rewrite Forall_forall in Hg.
  destruct (clampValue_valid d n (Hg d HdIn) Hn) as (B1 & B2 & B3).
  exists d, (clampValue d n). simpl. repeat split; assumption.
Qed.

Lemma keyframeSource_ok (kf : value) :
  keyframeOk kf = true -> mapOk (keyframeSource kf) = true.
Proof.
  unfold keyframeOk, keyframeSource. intros H.
  apply andb_true_iff in H. destruct H as [H1 H2].
  apply mapOk_or_else; [now apply mapOk_or_else | reflexivity].
Qed.

Lemma mode_object (t : value) (s : string) :
  is_str (getField t "mode") s = true -> exists kvs, t = VObj kvs.
Proof.
  destruct t; simpl; try discriminate.
  intros _. now exists kvs.
Qed.

Lemma mode_exclusive (v : value) :
  is_str v "keyframes" = true -> is_str v "fixed_fps" = false.
Proof.
  destruct v; simpl; try discriminate.
  intros H. apply String.eqb_eq in H. now subst.
Qed.

Lemma ToNumber_plain (host : Host) (tm : value) (dft : num) :
  plainTime tm = true ->
  exists n, ToNumber host (or_else tm (VNum dft)) = Ok n.
Proof.
  destruct tm as [ | | b | m | | | ]; try discriminate; intros _; unfold or_else.
  - simpl. eauto.
  - simpl. eauto.
  - destruct b; simpl; eauto.
  - destruct (truthy (VNum m)); simpl; eauto.
Qed.

(** Numbers, booleans and missing fields are time fields that
    convert. *)
Lemma plainTime_converts (host : Host) (tm : value) (dft : num) :
  plainTime tm = true -> is_nan dft = false -> converts host tm dft.
Proof.
  intros Hp Hd. destruct (ToNumber_plain host tm dft Hp) as [n Hn].
  exists n. split; [exact Hn | ].
  now apply (plainTime_number host tm dft n).
Qed.

Lemma plainKeyframe_converts (host : Host) (kf : value) :
  plainKeyframe kf = true -> keyframeConverts host kf.
Proof.
  intros H. repeat split.
  - intros ->. discriminate.
  - intros ->. discriminate.
  - apply plainTime_converts; [ | reflexivity].
    destruct kf; try discriminate; exact H.
Qed.

Lemma timesPlain_converts (host : Host) (t : value) :
  timesPlain t = true -> timesConvert host t.
Proof.
  unfold timesPlain, timesConvert. intros H. split.
  - intros Ek kfs Hk. rewrite Ek, Hk in H.
    apply Forall_forall. intros kf Hin.
    rewrite forallb_forall in H. now apply plainKeyframe_converts, H.
  - intros Ek Ef. rewrite Ek, Ef in H.
    apply plainTime_converts; [exact H | reflexivity].
Qed.

(** A keyframe that converts is clamped without an exception. *)
Lemma clampKeyframe_total (host : Host) (defs : list ParameterDefinition) (kf : value) :
  keyframeConverts host kf ->
  exists n, is_nan n = false /\
    clampKeyframe host defs kf =
      Ok (VObj [("timeMs", VNum (normTime n));
                ("params", VObj (clampMap defs (keyframeSource kf)))]).
Proof.
  intros (Hu & Hnull & n & Hn & Hnan). unfold clampKeyframe.
  assert (Hg : getProp kf "timeMs" = Ok (getField kf "timeMs")).
  { destruct kf; try reflexivity; congruence. }
  rewrite Hg. simpl bind. rewrite Hn. simpl bind.
  exists n. split; [exact Hnan | reflexivity].
Qed.

Lemma mapM_clampKeyframe_valid (host : Host) (defs : list ParameterDefinition)
    (kfs : list value) :
  Forall goodDef defs ->
  Forall (keyframeConverts host) kfs -> forallb keyframeOk kfs = true ->
  exists ks, mapM (clampKeyframe host defs) kfs = Ok ks /\
             Forall (validKeyframe defs) ks /\ List.length ks = List.length kfs.
Proof.
  intros Hg. induction kfs as [ | kf rest IH]; simpl; intros Hp Hok.
  - exists []. repeat split; constructor.
  - inversion Hp as [ | ? ? Hp1 Hp2]; subst.
    apply andb_true_iff in Hok. destruct Hok as [Hok1 Hok2].
    destruct (IH Hp2 Hok2) as (ks & Hks & Hv & Hl).
    destruct (clampKeyframe_total host defs kf Hp1) as (n & Hn & Hkf).
    rewrite Hkf, Hks. simpl. eexists. split; [reflexivity | ]. split.
    + constructor; [ | exact Hv]. split.
      * exists (normTime n). split; [reflexivity | ].
        now destruct (floor_round_fix 0 n Hn) as (_ & T2 & _).
      * simpl. apply clampMap_valid; [exact Hg | now apply keyframeSource_ok].
    + simpl. now rewrite Hl.
Qed.

Lemma array_inv (v : value) : is_array v = true -> exists xs, v = VArr xs.
Proof. destruct v; try discriminate. intros _. now exists xs. Qed.

Lemma frames_array_object (v : value) (frames : list value) :
  getField v "frames" = VArr frames -> exists fkvs, v = VObj fkvs.
Proof.
  destruct v; simpl; try discriminate.
  intros _. now exists kvs.
Qed.

(** C4 (amended). When every definition has [min <= max], with
    integral bounds if it is toggle-like, and the timeline is of one
    of the two recognized shapes, with no keyframe that is null or
    undefined, with time fields ([timeMs] of each keyframe, [dtMs])
    that convert to a number other than NaN (or are missing or falsy,
    and take the default) and with no NaN among its parameter values,
    [clampTimeline] returns a timeline in which every parameter id is
    in the catalog, every value lies in the range of its definition,
    every value of a toggle-like parameter is an integer, every
    [timeMs] is at least 0 and [dtMs] is at least 8. *)
Theorem clampTimeline_valid (host : Host) (defs : list ParameterDefinition)
    (t : value) :
  Forall goodDef defs ->
  isKeyed t || isFixed t = true ->
  timesConvert host t -> paramsOk t = true ->
  exists t1, clampTimeline host t defs = Ok t1 /\ validTimeline defs t1.
Proof.
  intros Hg Hshape [HpK HpF] Hok.
  destruct (isKeyed t) eqn:Ek.
  - specialize (HpK eq_refl). clear HpF.
    unfold isKeyed in Ek.
    apply andb_true_iff in Ek. destruct Ek as [Ek Harr].
    apply andb_true_iff in Ek. destruct Ek as [_ Hm].
    destruct (mode_object _ _ Hm) as [kvs ->]. simpl in Hm, Harr.
    destruct (array_inv _ Harr) as [kfs Hk].
    pose proof (HpK kfs Hk) as Hp.
    unfold paramsOk in Hok. simpl getField in Hok. rewrite Hk in Hok.
    apply andb_true_iff in Hok. destruct Hok as [Hok _].
    destruct (mapM_clampKeyframe_valid host defs kfs Hg Hp Hok) as (ks & Hks & Hv & _).
    rewrite clampTimeline_keyframes by exact Hm.
    rewrite Hk. unfold or_else. simpl truthy. cbv iota. rewrite Hks. simpl bind.
    eexists. split; [reflexivity | ]. split.
    + intros _. exists ks. split; [ | exact Hv].
      simpl. apply obj_get_set_same.
    + simpl. rewrite obj_get_set_other by reflexivity.
      rewrite (mode_exclusive _ Hm). discriminate.
  - simpl in Hshape. specialize (HpF eq_refl Hshape). clear HpK.
    unfold isFixed in Hshape.
    apply andb_true_iff in Hshape. destruct Hshape as [Es Harr].
    apply andb_true_iff in Es. destruct Es as [Es _].
    apply andb_true_iff in Es. destruct Es as [_ Hm].
    destruct (mode_object _ _ Hm) as [kvs ->]. simpl in Hm, Harr.
    destruct (array_inv _ Harr) as [frames Hfr].
    destruct (frames_array_object _ _ Hfr) as [fkvs Hf].
    simpl getField in HpF. rewrite Hf in Hfr, HpF. simpl in Hfr, HpF.
    unfold paramsOk in Hok. simpl getField in Hok. rewrite Hf in Hok.
    simpl getField in Hok. rewrite Hfr in Hok.
    apply andb_true_iff in Hok. destruct Hok as [_ Hok].
    rewrite (clampTimeline_fixed host defs kvs fkvs) by (try assumption; now rewrite Hfr).
    destruct HpF as (n & Hn & Hnn). rewrite Hn, Hfr.
    simpl bind.
    destruct (floor_round_fix 8 n Hnn) as (_ & T2 & _). fold (normDt n) in T2.
    eexists. split; [reflexivity | ]. split.
    + simpl. rewrite obj_get_set_other by reflexivity.
      assert (Hmk : is_str (obj_get kvs "mode") "keyframes" = false).
      { destruct (obj_get kvs "mode"); simpl in *; try discriminate.
        apply String.eqb_eq in Hm. now subst. }
      rewrite Hmk. discriminate.
    + intros _. exists (normDt n), (List.map (fun f => VObj (clampMap defs f)) frames).
      simpl getField at 2. simpl getField at 3. rewrite !obj_get_set_same.
      simpl getField. rewrite obj_get_set_other by reflexivity.
      rewrite !obj_get_set_same. repeat split; try assumption.
      apply Forall_forall. intros f' Hin. apply in_map_iff in Hin.
      destruct Hin as (f & <- & Hin).
      apply clampMap_valid; [exact Hg | ].
      rewrite forallb_forall in Hok. now apply Hok.
Qed.

Lemma unit_def_good (i : string) : goodDef (unit_def i false).
Proof. split; [reflexivity | discriminate]. Qed.

Lemma clampTimeline_valid_witness :
  exists t1,
    clampTimeline sample_host
      (keyed [keyframe (VNum (ofZ (-5))) [("ParamX", VNum (ofZ 999))]])
      [unit_def "ParamX" false] = Ok t1 /\
    validTimeline [unit_def "ParamX" false] t1.
Proof.
  apply (clampTimeline_valid sample_host [unit_def "ParamX" false]
           (keyed [keyframe (VNum (ofZ (-5))) [("ParamX", VNum (ofZ 999))]])).
  - constructor; [apply unit_def_good | constructor].
  - reflexivity.
  - apply timesPlain_converts. reflexivity.
  - reflexivity.
Defined.

(** C4 (counterexample). With the toggle-like range [-1.5, 1.5] the
    value 2 is clamped to 1.5 and then rounded to 2, above the
    maximum; with the range [5, 1] every value becomes 5, above the
    maximum 1. *)
Lemma clampTimeline_out_of_range :
  (forall host : Host,
     clampTimeline host (keyed [keyframe (VNum (ofZ 0)) [("P", VNum (ofZ 2))]])
       [piecewise_def]
     = Ok (keyed [keyframe (VNum (ofZ 0)) [("P", VNum (ofZ 2))]])) /\
  num_leb (ofZ 2) (max piecewise_def) = false /\
  (forall host : Host,
     clampTimeline host (keyed [keyframe (VNum (ofZ 0)) [("P", VNum (ofZ 3))]])
       [inverted_def]
     = Ok (keyed [keyframe (VNum (ofZ 0)) [("P", VNum (ofZ 5))]])) /\
  num_leb (ofZ 5) (max inverted_def) = false.
Proof.
  repeat split; try (intros host); vm_compute; reflexivity.
Qed.

(** ** [clampTimeline] returns or raises *)

Lemma ToNumber_answers (host : Host) (v : value) : ToNumber host v <> OutOfFuel.
Proof.
  destruct v; simpl; try discriminate.
  - destruct (ArrayToString host xs); discriminate.
  - destruct (obj_has kvs "toString"); discriminate.
Qed.






(** ** In-place update *)























(** ** The fallback synthesizer *)

Lemma this_div (x y : Qc) : (this (x / y)%Qc == this x / this y)%Q.
Proof.
  unfold Qcdiv, Qcmult, Qcinv, Q2Qc, this. now rewrite !Qred_correct.
Qed.

Lemma num_add_ofZ (a b : Z) : num_add (ofZ a) (ofZ b) = ofZ (a + b).
Proof.
  unfold num_add, ofZ. f_equal. apply Qc_is_canon.
  unfold Qcplus, Q2Qc, this. rewrite !Qred_correct.
  now rewrite inject_Z_plus.
Qed.

Lemma max_one (q : Qc) :
  exists q', Math_max (ofZ 1) (Fin q) = Fin q' /\ (1 <= q')%Q /\
             ((q <= 1)%Q -> (q' == 1)%Q) /\ ((1 <= q)%Q -> q' = q).
Proof.
  rewrite floor_at by reflexivity.
  destruct (num_leb (ofZ 1) (Fin q)) eqn:E; unfold num_leb, ofZ in E.
  - exists q. apply Qle_bool_iff in E. rewrite (this_ofZ 1) in E.
    split; [reflexivity | ]. split; [exact E | ]. split.
    + intros H. now apply Qle_antisym.
    + reflexivity.
  - exists (Q2Qc (inject_Z 1)).
    split; [reflexivity | ]. rewrite (this_ofZ 1).
    split; [apply Qle_refl | ]. split.
    + reflexivity.
    + intros H. rewrite <- (this_ofZ 1) in H. apply Qle_bool_iff in H.
      congruence.
Qed.

Lemma stepOf_positive (q : Qc) :
  Qle_bool q 2000 = true ->
  exists z, stepOf q = ofZ z /\ (1 <= z <= 1000)%Z /\
            ((3 * q <= 400)%Q -> (8 <= z)%Z).
Proof.
  intros Hq. apply Qle_bool_iff in Hq. unfold stepOf.
  destruct (max_one q) as (q' & -> & H1 & Hle & Hge).
  assert (Hq' : (q' <= 2000)%Q).
  { destruct (Qlt_le_dec q 1) as [L | L].
    - rewrite (Hle (Qlt_le_weak _ _ L)). discriminate.
    - now rewrite (Hge L). }
  assert (Hpos : (0 < q')%Q) by (eapply Qlt_le_trans; [ | exact H1]; reflexivity).
  unfold num_div, ofZ.
  destruct (Qeq_bool q' 0) eqn:E0.
  { apply Qeq_bool_iff in E0. rewrite E0 in Hpos. discriminate. }
  simpl Math_round. exists (round_Q (Q2Qc (inject_Z 1000) / q')%Qc).
  split; [reflexivity | ].
  assert (Hx : (this (Q2Qc (inject_Z 1000) / q')%Qc == inject_Z 1000 / q')%Q).
  { rewrite this_div. now rewrite (this_ofZ 1000). }
  rewrite (round_Q_comp _ _ Hx). unfold round_Q. split; [split | ].
  - rewrite <- (Qfloor_Z 1) at 1. apply Qfloor_resp_le.
    setoid_replace (inject_Z 1) with ((1 # 2) + (1 # 2))%Q by reflexivity.
    apply Qplus_le_l.
    apply Qle_shift_div_l; [exact Hpos | ].
    setoid_replace (inject_Z 1000) with ((1 # 2) * 2000)%Q by reflexivity.
    apply Qmult_le_l; [reflexivity | exact Hq'].
  - change 1000%Z with (Qfloor (inject_Z 1000 + (1 # 2))) at 2.
    apply Qfloor_resp_le. apply Qplus_le_l.
    apply Qle_shift_div_r; [exact Hpos | ].
    setoid_replace (inject_Z 1000) with (inject_Z 1000 * 1)%Q at 1 by ring.
    apply Qmult_le_l; [reflexivity | exact H1].
  - intros H3.
    assert (Hq3 : (3 * q' <= 400)%Q).
    { destruct (Qlt_le_dec q 1) as [L | L].
      - rewrite (Hle (Qlt_le_weak _ _ L)). discriminate.
      - now rewrite (Hge L). }
    rewrite <- (Qfloor_Z 8) at 1. apply Qfloor_resp_le.
    setoid_replace (inject_Z 8) with ((15 # 2) + (1 # 2))%Q by reflexivity.
    apply Qplus_le_l.
    apply Qle_shift_div_l; [exact Hpos | ].
    setoid_replace ((15 # 2) * q')%Q with ((5 # 2) * (3 * q'))%Q by ring.
    setoid_replace (inject_Z 1000) with ((5 # 2) * 400)%Q by reflexivity.
    apply Qmult_le_l; [reflexivity | exact Hq3].
Qed.

Lemma finite_number (host : Host) (f : value) :
  finiteTime f = true ->
  exists q, ToNumber host (or_else f (VNum (ofZ 0))) = Ok (Fin q).
Proof.
  destruct f as [ | | | n | | | ]; try discriminate.
  - intros _. eexists. reflexivity.
  - destruct n; try discriminate. intros _. unfold or_else.
    destruct (truthy (VNum (Fin q))); eexists; reflexivity.
Qed.

Lemma Math_max_fin (m x : Qc) :
  exists y, Math_max (Fin m) (Fin x) = Fin y /\ (m <= y)%Q.
Proof.
  unfold Math_max. destruct (num_leb (Fin m) (Fin x)) eqn:E.
  - exists x. split; [reflexivity | ]. now apply Qle_bool_iff.
  - exists m. split; [reflexivity | apply Qle_refl].
Qed.

Lemma reduce_max_plain (host : Host) (k : string) (xs : list value) (m : Qc) :
  forallb (finiteField k) xs = true ->
  exists m', reduce_max host k xs (Fin m) = Ok (Fin m') /\ (m <= m')%Q.
Proof.
  revert m. induction xs as [ | x rest IH]; intros m Hp.
  - exists m. split; [reflexivity | apply Qle_refl].
  - simpl in Hp. apply andb_true_iff in Hp. destruct Hp as [Hx Hrest].
    destruct x as [ | | | | | |kvs]; try discriminate. simpl in Hx.
    cbn [reduce_max getProp getField]. cbv beta iota delta [bind].
    destruct (finite_number host _ Hx) as [q Hq]. rewrite Hq. cbv beta iota delta [bind].
    destruct (Math_max_fin m q) as (y & -> & Hy).
    destruct (IH y Hrest) as (m' & Hm' & Hle).
    exists m'. split; [exact Hm' | ]. eapply Qle_trans; eassumption.
Qed.

Lemma plainWord_end (ws : list value) :
  forallb plainWord ws = true -> forallb (finiteField "endMs") ws = true.
Proof.
  rewrite !forallb_forall. intros H w Hin. specialize (H w Hin).
  destruct w; try discriminate. simpl in *.
  apply andb_true_iff in H. destruct H as [H _].
  apply andb_true_iff in H. now destruct H.
Qed.

Lemma plainViseme_start (vs : list value) :
  forallb plainViseme vs = true -> forallb (finiteField "startMs") vs = true.
Proof.
  rewrite !forallb_forall. intros H v Hin. specialize (H v Hin).
  now destruct v.
Qed.

Lemma nodWord_plain (host : Host) (t : num) (w : value) :
  plainWord w = true -> exists b, nodWord host t w = Ok b.
Proof.
  destruct w as [ | | | | | |kvs]; try discriminate. simpl.
  intros H. apply andb_true_iff in H. destruct H as [H Htx].
  apply andb_true_iff in H. destruct H as [Hst _].
  unfold nodWord. simpl getProp. cbv beta iota delta [bind].
  assert (Hs : exists s, ToString host (obj_get kvs "text") = Ok s).
  { destruct (obj_get kvs "text"); try discriminate; eexists; reflexivity. }
  destruct Hs as [s ->]. cbv beta iota delta [bind].
  destruct (test_terminal s); [ | eauto].
  destruct (finite_number host _ Hst) as [q ->]. simpl. eauto.
Qed.

Lemma find_word_plain (host : Host) (t : num) (ws : list value) :
  forallb plainWord ws = true -> exists e, find_word host t ws = Ok e.
Proof.
  induction ws as [ | w rest IH]; simpl; intros Hp.
  - eauto.
  - apply andb_true_iff in Hp. destruct Hp as [Hw Hrest].
    destruct (nodWord_plain host t w Hw) as [b ->]. simpl.
    destruct b; eauto.
Qed.

Lemma frameAt_plain (host : Host) (ws : list value)
    (defs : list ParameterDefinition) (t : num) :
  forallb plainWord ws = true -> exists f, frameAt host ws defs t = Ok f.
Proof.
  intros Hp. unfold frameAt.
  destruct (has defs "ParamAngleY"); [ | eauto].
  destruct (find_word_plain host t ws Hp) as [e ->]. simpl. eauto.
Qed.

Lemma leb_ofZ_fin (k : Z) (d : Qc) :
  num_leb (ofZ k) (Fin d) = true <-> (k <= Qfloor d)%Z.
Proof.
  unfold num_leb, ofZ. rewrite Qle_bool_iff, (this_ofZ k). split.
  - intros H. rewrite <- (Qfloor_Z k). now apply Qfloor_resp_le.
  - intros H. eapply Qle_trans; [ | apply Qfloor_le].
    now rewrite <- Zle_Qle.
Qed.


(** C5 (amended). With no words, no visemes and no definitions, a
    finite frame rate [q] of at most 2000 (60 when none is given)
    yields a fixed-rate timeline of exactly one frame with no
    parameter set, whose [dtMs] is an integer from 1 to 1000, and at
    least 8 when [q <= 400/3]. *)
Theorem simpleFallbackTimeline_empty (host : Host) (fps : value) (q : Qc)
    (fuel : nat) :
  dflt fps (VNum (ofZ 60)) = VNum (Fin q) ->
  Qle_bool q 2000 = true ->
  (2 <= fuel)%nat ->
  exists z,
    simpleFallbackTimeline host fuel [] [] [] fps
      = Ok (fixed (VNum (ofZ z)) [VObj []]) /\
    (1 <= z <= 1000)%Z /\
    ((3 * q <= 400)%Q -> (8 <= z)%Z).
Proof.
  intros Hfps Hq Hfuel.
  destruct (stepOf_positive q Hq) as (z & Hz & Hz1 & Hz8).
  exists z. split; [ | now split].
  destruct fuel as [ | [ | fuel]]; try lia.
  unfold simpleFallbackTimeline. rewrite Hfps.
  cbn [ToNumber reduce_max]. cbv beta iota delta [bind].
  fold (stepOf q). rewrite Hz.
  assert (Hdur : Math_max (ofZ 0) (ofZ 0) = ofZ 0) by (vm_compute; reflexivity).
  rewrite Hdur. cbn [framesLoop].
  rewrite (num_leb_ofZ 0 0). cbv beta iota.
  assert (Hf : frameAt host [] [] (ofZ 0) = Ok (VObj [])) by reflexivity.
  rewrite Hf. cbv beta iota delta [bind].
  rewrite num_add_ofZ, num_leb_ofZ.
  destruct (Z.leb_spec (0 + z) 0) as [L | L]; [lia | reflexivity].
Qed.

Lemma simpleFallbackTimeline_empty_witness :
  exists z,
    simpleFallbackTimeline sample_host 2 [] [] [] VUndef
      = Ok (fixed (VNum (ofZ z)) [VObj []]) /\
    (1 <= z <= 1000)%Z /\
    ((3 * Q2Qc (inject_Z 60) <= 400)%Q -> (8 <= z)%Z).
Proof.
  apply (simpleFallbackTimeline_empty sample_host VUndef (Q2Qc (inject_Z 60)) 2).
  - reflexivity.
  - vm_compute. reflexivity.
  - lia.
Defined.

Lemma framesLoop_stuck (host : Host) (fuel : nat) :
  framesLoop host fuel [] [] (ofZ 0) (ofZ 0) (ofZ 0) = OutOfFuel.
Proof.
  induction fuel as [ | fuel IH]; [reflexivity | ].
  cbn [framesLoop]. rewrite (num_leb_ofZ 0 0). cbv beta iota.
  assert (Hf : frameAt host [] [] (ofZ 0) = Ok (VObj [])) by reflexivity.
  rewrite Hf. cbv beta iota delta [bind].
  rewrite num_add_ofZ. change (0 + 0)%Z with 0%Z. now rewrite IH.
Qed.

(** C5 (counterexample). At 200 frames per second the synthesizer
    returns [dtMs] 5, below 8; at 5000 the step rounds to 0 and the
    frame loop never ends. *)
Lemma simpleFallbackTimeline_fast_rates :
  (forall host : Host,
     simpleFallbackTimeline host 2 [] [] [] (VNum (ofZ 200))
       = Ok (fixed (VNum (ofZ 5)) [VObj []])) /\
  num_leb (ofZ 8) (ofZ 5) = false /\
  (forall (host : Host) (fuel : nat),
     simpleFallbackTimeline host fuel [] [] [] (VNum (ofZ 5000)) = OutOfFuel).
Proof.
  split; [ | split].
  - intros host. vm_compute. reflexivity.
  - vm_compute. reflexivity.
  - intros host fuel. unfold simpleFallbackTimeline.
    cbn [dflt ToNumber reduce_max]. cbv beta iota delta [bind].
    assert (Hstep : Math_round (num_div (ofZ 1000) (Math_max (ofZ 1) (ofZ 5000)))
                    = ofZ 0) by (vm_compute; reflexivity).
    assert (Hdur : Math_max (ofZ 0) (ofZ 0) = ofZ 0) by (vm_compute; reflexivity).
    rewrite Hstep, Hdur, framesLoop_stuck. reflexivity.
Qed.

(** ** The nod *)

(** The scenario of the specification: "Stop." starts at 1000 ms; the
    frame at 1003 ms nods, the frame at 0 ms does not. *)
Example nod_at_sentence_end (host : Host) :
  frameAt host [word "Stop." 1000 1200] [angleY_def] (ofZ 1003)
    = Ok (VObj [("ParamAngleY", VNum (ofZ 3))]) /\
  frameAt host [word "Stop." 1000 1200] [angleY_def] (ofZ 0) = Ok (VObj []).
Proof. split; vm_compute; reflexivity. Qed.

(** C9 (the code at the failing input). The word "3.5" does not end
    in sentence-terminal punctuation, and the frame at its start time
    carries the nod all the same: the test looks for [. ! ?] anywhere
    in the text. *)
Theorem nod_on_inner_punctuation (host : Host) :
  ends_terminal "3.5" = false /\
  frameAt host [word "3.5" 0 0] [angleY_def] (ofZ 0)
    = Ok (VObj [("ParamAngleY", VNum (ofZ 3))]) /\
  simpleFallbackTimeline host 2 [word "3.5" 0 0] [] [angleY_def] (VNum (ofZ 60))
    = Ok (fixed (VNum (ofZ 17)) [VObj [("ParamAngleY", VNum (ofZ 3))]]).
Proof.
  repeat split; vm_compute; reflexivity.
Qed.

(** ** The route *)

Lemma truthy_positive (z : Z) : (1 <= z)%Z -> truthy (VNum (ofZ z)) = true.
Proof.
  intros Hz. unfold truthy, ofZ.
  destruct (Qeq_bool (Q2Qc (inject_Z z)) 0) eqn:E; [ | reflexivity].
  apply Qeq_bool_iff in E. rewrite (this_ofZ z) in E.
  exfalso. revert E. unfold Qeq. simpl. lia.
Qed.




(** What a candidate of a recognized shape looks like once clamped. *)
Lemma safe_shape (host : Host) (defs : list ParameterDefinition) (out safe : value) :
  isKeyed out || isFixed out = true ->
  clampTimeline host out defs = Ok safe ->
  (is_str (getField safe "mode") "keyframes" = true /\
   exists ks, getField safe "keyframes" = VArr ks) \/
  (is_str (getField safe "mode") "keyframes" = false /\
   is_str (getField safe "mode") "fixed_fps" = true /\
   exists fk fs, getField safe "fixedFps" = VObj fk /\
                 getField (VObj fk) "frames" = VArr fs).
Proof.
  intros Hshape.
  destruct (isKeyed out) eqn:Ek.
  - unfold isKeyed in Ek.
    apply andb_true_iff in Ek. destruct Ek as [Ek Harr].
    apply andb_true_iff in Ek. destruct Ek as [_ Hm].
    destruct (mode_object _ _ Hm) as [kvs ->]. simpl in Hm, Harr.
    destruct (array_inv _ Harr) as [kfs Hk].
    rewrite clampTimeline_keyframes by exact Hm.
    rewrite Hk. unfold or_else. simpl truthy. cbv iota.
    destruct (mapM (clampKeyframe host defs) kfs) as [ks | | ]; simpl;
      try discriminate.
    intros H. injection H as <-. left. split.
    + simpl. now rewrite obj_get_set_other by reflexivity.
    + exists ks. simpl. apply obj_get_set_same.
  - simpl in Hshape. unfold isFixed in Hshape.
    apply andb_true_iff in Hshape. destruct Hshape as [Es Harr].
    apply andb_true_iff in Es. destruct Es as [Es _].
    apply andb_true_iff in Es. destruct Es as [_ Hm].
    destruct (mode_object _ _ Hm) as [kvs ->]. simpl in Hm, Harr.
    destruct (array_inv _ Harr) as [frames Hfr].
    destruct (frames_array_object _ _ Hfr) as [fkvs Hf].
    rewrite Hf in Hfr. simpl in Hfr.
    rewrite (clampTimeline_fixed host defs kvs fkvs) by (try assumption; now rewrite Hfr).
    destruct (ToNumber host _) as [n | | ]; simpl; try discriminate.
    rewrite Hfr. intros H. injection H as <-. right.
    assert (Hmk : is_str (obj_get kvs "mode") "keyframes" = false).
    { destruct (obj_get kvs "mode"); simpl in *; try discriminate.
      apply String.eqb_eq in Hm. now subst. }
    simpl getField. rewrite obj_get_set_other by reflexivity.
    rewrite obj_get_set_same. repeat split; try assumption.
    eexists. eexists. split; [reflexivity | ]. apply obj_get_set_same.
Qed.


Lemma live2d_timeline_unfold (host : Host) (fuel : nat) (collab : Collaborator)
    (ws vs : list value) :
  live2d_timeline host fuel collab (request ws vs) =
    planWithDefs host fuel collab ws vs (VNum (ofZ 60)) (VStr "auto")
      (filter_map (matchLine host) (split_lines "")).
Proof. reflexivity. Qed.

(** C2 (the code at the failing input). One word whose [endMs] is
    an object: the duration is NaN and the frame loop is not entered.
    With no catalog, and with a catalog of one definition when the
    collaborator fails (the catch block) or answers a timeline with no
    keyframe (the guard against empty payloads turns to the fallback),
    the route answers 200 with a timeline of no frame. *)
Theorem live2d_timeline_no_frame :
  (forall (host : Host) (fuel : nat),
     live2d_timeline host (S fuel) no_reply
       (request [VObj [("endMs", VObj [])]] [])
     = Ok (Response 200 (fixed (VNum (ofZ 17)) [])) /\
     live2d_timeline host (S fuel) empty_reply
       (request [VObj [("endMs", VObj [])]] [])
     = Ok (Response 200 (fixed (VNum (ofZ 17)) []))) /\
  (forall fuel : nat,
     live2d_timeline catalog_host (S fuel) no_reply
       (catalog_request [VObj [("endMs", VObj [])]] [])
     = Ok (Response 200 (fixed (VNum (ofZ 17)) [])) /\
     live2d_timeline catalog_host (S fuel) empty_reply
       (catalog_request [VObj [("endMs", VObj [])]] [])
     = Ok (Response 200 (fixed (VNum (ofZ 17)) []))) /\
  frameCount (fixed (VNum (ofZ 17)) []) = 0%nat.
Proof.
  split; [ | split; [ | reflexivity]].
  - intros host fuel. rewrite !live2d_timeline_unfold.
    destruct (filter_map (matchLine host) (split_lines "")) as [ | d ds];
      split; vm_compute; reflexivity.
  - intros fuel. split; vm_compute; reflexivity.
Qed.

(** C1 (the code at the failing inputs). A [null] among the words:
    the fallback reads [w.endMs] and raises, also when it runs in the
    catch block, so with a collaborator that fails the route raises.
    A catalog that is a number: [parseCatalog] raises, outside any
    try block, whatever the collaborator does. *)
Theorem live2d_timeline_raises (host : Host) (fuel : nat) :
  live2d_timeline host fuel no_reply (request [VNull] []) = Throw /\
  (forall collab : Collaborator,
     live2d_timeline host fuel collab
       (VObj [("words", VArr []); ("visemes", VArr []);
              ("parameterCatalog", VNum (ofZ 5))]) = Throw).
Proof.
  split.
  - rewrite live2d_timeline_unfold.
    destruct (filter_map (matchLine host) (split_lines "")) as [ | d ds];
      vm_compute; reflexivity.
  - intros collab. vm_compute. reflexivity.
Qed.

(** The two kinds of fallback exit of the route, for any non-empty
    catalog: when the collaborator fails, the catch block works on
    all the definitions; when its answer has no recognized shape, the
    exit inside the try block works on the first [MAX_PARAMS]. *)
Lemma planWithDefs_catch (host : Host) (fuel : nat) (collab : Collaborator)
    (ws vs : list value) (fps strategy : value)
    (d : ParameterDefinition) (ds : list ParameterDefinition)
    (texts : list string) :
  mapM (fun w => ToString host (or_else (getPropOpt w "text") (VStr ""))) ws
    = Ok texts ->
  (forall sys user, collab sys user = None) ->
  planWithDefs host fuel collab ws vs fps strategy (d :: ds)
    = fallbackClamped host fuel ws vs (d :: ds) fps.
Proof.
  intros Ht Hc. unfold planWithDefs. rewrite Ht.
  cbv beta iota delta [bind]. now rewrite Hc.
Qed.

Lemma planWithDefs_unusable (host : Host) (fuel : nat) (collab : Collaborator)
    (ws vs : list value) (fps strategy out : value)
    (d : ParameterDefinition) (ds : list ParameterDefinition)
    (texts : list string) :
  mapM (fun w => ToString host (or_else (getPropOpt w "text") (VStr ""))) ws
    = Ok texts ->
  (forall sys user, collab sys user = Some out) ->
  isFixed out = false -> isKeyed out = false ->
  planWithDefs host fuel collab ws vs fps strategy (d :: ds)
    = try_catch
        (fallbackClamped host fuel ws vs (firstn MAX_PARAMS (d :: ds)) fps)
        (fallbackClamped host fuel ws vs (d :: ds) fps).
Proof.
  intros Ht Hc Hf Hk. unfold planWithDefs. rewrite Ht.
  cbv beta iota delta [bind]. now rewrite Hc, Hf, Hk.
Qed.

(** C7 (the code at the failing input). The catalog has 281
    definitions, the last being [ParamBreath]. When the collaborator
    fails, the catch block synthesizes and clamps against all 281:
    the frame carries [ParamBreath]. When the collaborator answers
    something unusable, the sibling path works on the first 280: the
    frame is empty. *)
Theorem catch_path_untrimmed (host : Host) :
  planWithDefs host 2 no_reply [] [] (VNum (ofZ 60)) (VStr "auto")
    (filler_defs ++ [unit_def "ParamBreath" false])
  = Ok (Response 200
          (fixed (VNum (ofZ 17))
             [VObj [("ParamBreath",
                     VNum (clampValue (unit_def "ParamBreath" false)
                             (breath host (ofZ 0))))]])) /\
  planWithDefs host 2 (fun _ _ => Some VNull) [] [] (VNum (ofZ 60)) (VStr "auto")
    (filler_defs ++ [unit_def "ParamBreath" false])
  = Ok (Response 200 (fixed (VNum (ofZ 17)) [VObj []])).
Proof.
  split; vm_compute; reflexivity.
Qed.

(** * Further properties *)

(** ** [parseCatalog]: lines *)

Lemma split_from_LF (cur : list ascii) (s : string) :
  split_from cur (String LF s) = string_of_list_ascii (rev cur) :: split_from [] s.
Proof. reflexivity. Qed.

Lemma split_from_CRLF (cur : list ascii) (s : string) :
  split_from cur (String CR (String LF s))
    = string_of_list_ascii (rev cur) :: split_from [] s.
Proof. reflexivity. Qed.

Lemma split_from_push (cur : list ascii) (c : ascii) (s : string) :
  Ascii.eqb c LF = false ->
  Ascii.eqb c CR && starts_LF s = false ->
  split_from cur (String c s) = split_from (c :: cur) s.
Proof.
  intros H1 H2. cbn [split_from]. rewrite H1.
  destruct (Ascii.eqb c CR); [ | reflexivity].
  destruct s as [ | c' s']; [reflexivity | ].
  simpl in H2. now rewrite H2.
Qed.

Lemma split_from_line (l : string) (cur : list ascii) :
  no_char LF l = true ->
  split_from cur l = [string_of_list_ascii (rev cur ++ list_ascii_of_string l)].
Proof.
  revert cur. induction l as [ | c rest IH]; intros cur H.
  - simpl. now rewrite app_nil_r.
  - simpl in H. apply andb_true_iff in H. destruct H as [Hc Hrest].
    apply negb_true_iff in Hc.
    rewrite split_from_push.
    + rewrite IH by exact Hrest. simpl. now rewrite <- app_assoc.
    + exact Hc.
    + destruct rest as [ | c' rest']; [apply andb_false_r | ].
      simpl in Hrest. apply andb_true_iff in Hrest. destruct Hrest as [Hc' _].
      apply negb_true_iff in Hc'. simpl. rewrite Hc'. apply andb_false_r.
Qed.

Lemma ends_CR_tail (c c' : ascii) (rest : string) :
  ends_CR (String c (String c' rest)) = ends_CR (String c' rest).
Proof. reflexivity. Qed.

Lemma ends_CR_rest (c : ascii) (rest : string) :
  ends_CR (String c rest) = false -> ends_CR rest = false.
Proof. destruct rest; [reflexivity | now rewrite ends_CR_tail]. Qed.

Lemma starts_LF_append (a b : string) :
  a <> EmptyString -> starts_LF (a ++ String LF b) = starts_LF a.
Proof. destruct a; [congruence | reflexivity]. Qed.

Lemma split_from_append_bounded (b : string) (n : nat) :
  forall (a : string) (cur : list ascii),
    (String.length a <= n)%nat -> ends_CR a = false ->
    split_from cur (a ++ String LF b) = split_from cur a ++ split_from [] b.
Proof.
  induction n as [ | n IH]; intros a cur Hlen H.
  - destruct a; [reflexivity | simpl in Hlen; lia].
  - destruct a as [ | c rest]; [reflexivity | ].
    simpl in Hlen.
    pose proof (ends_CR_rest _ _ H) as Hrest.
    change ((String c rest ++ String LF b)%string)
      with (String c (rest ++ String LF b)%string).
    destruct (Ascii.eqb c LF) eqn:ELF.
    { apply Ascii.eqb_eq in ELF. subst c. rewrite !split_from_LF.
      rewrite IH by (try lia; exact Hrest). reflexivity. }
    destruct (Ascii.eqb c CR && starts_LF rest) eqn:ECR.
    + apply andb_true_iff in ECR. destruct ECR as [ECR Est].
      apply Ascii.eqb_eq in ECR. subst c.
      destruct rest as [ | c' rest']; [discriminate | ].
      simpl in Est. apply Ascii.eqb_eq in Est. subst c'.
      change ((String LF rest' ++ String LF b)%string)
        with (String LF (rest' ++ String LF b)%string).
      rewrite !split_from_CRLF.
      pose proof (ends_CR_rest _ _ Hrest) as Hrest'. simpl in Hlen.
      rewrite IH by (try lia; exact Hrest'). reflexivity.
    + rewrite !split_from_push; try assumption.
      * apply IH; [lia | exact Hrest].
      * destruct rest as [ | c' rest'].
        -- simpl in H. simpl. rewrite H. reflexivity.
        -- rewrite starts_LF_append by discriminate. exact ECR.
Qed.

Lemma split_lines_append (a b : string) :
  ends_CR a = false ->
  split_lines (a ++ String LF b) = split_lines a ++ split_lines b.
Proof.
  intros H. unfold split_lines.
  now apply (split_from_append_bounded b (String.length a)).
Qed.

Lemma split_lines_line (l : string) :
  no_char LF l = true -> split_lines l = [l].
Proof.
  intros H. unfold split_lines. rewrite split_from_line by exact H.
  simpl. now rewrite string_of_list_ascii_of_string.
Qed.

Lemma split_lines_join (l : string) (ls : list string) :
  forallb plainLine (l :: ls) = true ->
  split_lines (String.concat newline (l :: ls)) = l :: ls.
Proof.
  revert l. induction ls as [ | l' rest IH]; intros l H.
  - simpl in H. rewrite andb_true_r in H. unfold plainLine in H.
    apply andb_true_iff in H. destruct H as [H _].
    simpl. now apply split_lines_line.
  - cbn [forallb] in H. apply andb_true_iff in H. destruct H as [Hl Hrest].
    unfold plainLine in Hl. apply andb_true_iff in Hl. destruct Hl as [Hlf Hcr].
    apply negb_true_iff in Hcr.
    change (String.concat newline (l :: l' :: rest))
      with ((l ++ String LF (String.concat newline (l' :: rest)))%string).
    rewrite split_lines_append by exact Hcr.
    rewrite split_lines_line by exact Hlf.
    rewrite IH by exact Hrest. reflexivity.
Qed.

Lemma parseCatalog_string (host : Host) (s : string) :
  parseCatalog host (VStr s) = Ok (filter_map (matchLine host) (split_lines s)).
Proof.
  unfold parseCatalog, or_else. simpl truthy.
  destruct (String.eqb s "") eqn:E; simpl; [ | reflexivity].
  apply String.eqb_eq in E. now subst.
Qed.

Lemma filter_map_app {A B : Type} (f : A -> option B) (xs ys : list A) :
  filter_map f (xs ++ ys) = filter_map f xs ++ filter_map f ys.
Proof.
  induction xs as [ | x rest IH]; simpl; [reflexivity | ].
  destruct (f x); simpl; now rewrite IH.
Qed.

(** X1. The definitions parsed from lines joined by line feeds are
    those of the matching lines, each line seen once and in order,
    when no line holds a line feed or ends in a carriage return. *)
Theorem parseCatalog_joined_lines (host : Host) (l : string) (ls : list string) :
  forallb plainLine (l :: ls) = true ->
  parseCatalog host (VStr (String.concat newline (l :: ls)))
    = Ok (filter_map (matchLine host) (l :: ls)).
Proof.
  intros H. rewrite parseCatalog_string. now rewrite split_lines_join.
Qed.

Lemma parseCatalog_joined_lines_witness :
  parseCatalog sample_host
    (VStr (String.concat newline ["- ParamBreath [0, 1]"; "# comment"]))
  = Ok (filter_map (matchLine sample_host) ["- ParamBreath [0, 1]"; "# comment"]).
Proof.
  apply (parseCatalog_joined_lines sample_host "- ParamBreath [0, 1]" ["# comment"]).
  reflexivity.
Defined.

(** X2. Parsing two catalog texts joined by a line feed gives the
    definitions of the first followed by those of the second, unless
    the first ends in a carriage return. *)
Theorem parseCatalog_append (host : Host) (a b : string) :
  ends_CR a = false ->
  parseCatalog host (VStr (a ++ String LF b))
    = Ok (filter_map (matchLine host) (split_lines a)
          ++ filter_map (matchLine host) (split_lines b)).
Proof.
  intros H. rewrite parseCatalog_string, split_lines_append by exact H.
  now rewrite filter_map_app.
Qed.

Lemma parseCatalog_append_witness :
  parseCatalog sample_host (VStr ("- A [0, 1]" ++ String LF "- B [0, 1]"))
  = Ok (filter_map (matchLine sample_host) (split_lines "- A [0, 1]")
        ++ filter_map (matchLine sample_host) (split_lines "- B [0, 1]")).
Proof.
  apply (parseCatalog_append sample_host "- A [0, 1]" "- B [0, 1]").
  reflexivity.
Defined.

Lemma starts_LF_crlf (s : string) :
  no_char CR s = true -> starts_LF (to_crlf s) = false.
Proof.
  destruct s as [ | c rest]; [reflexivity | ].
  simpl. intros H. apply andb_true_iff in H. destruct H as [Hc _].
  apply negb_true_iff in Hc.
  destruct (Ascii.eqb c LF) eqn:E; simpl; [reflexivity | exact E].
Qed.

Lemma split_from_crlf (s : string) (cur : list ascii) :
  no_char CR s = true ->
  split_from cur (to_crlf s) = split_from cur s.
Proof.
  revert cur. induction s as [ | c rest IH]; intros cur H; [reflexivity | ].
  simpl in H. apply andb_true_iff in H. destruct H as [Hc Hrest].
  apply negb_true_iff in Hc. cbn [to_crlf].
  destruct (Ascii.eqb c LF) eqn:ELF.
  - apply Ascii.eqb_eq in ELF. subst c.
    rewrite split_from_CRLF, split_from_LF. now rewrite IH.
  - rewrite !split_from_push; try assumption; try (now rewrite Hc).
    now apply IH.
Qed.

(** X3. A catalog text saved with Windows line ends (carriage return,
    line feed) parses to the same definitions as the text with bare
    line feeds. *)
Theorem parseCatalog_crlf (host : Host) (s : string) :
  no_char CR s = true ->
  parseCatalog host (VStr (to_crlf s)) = parseCatalog host (VStr s).
Proof.
  intros H. rewrite !parseCatalog_string. unfold split_lines.
  now rewrite split_from_crlf.
Qed.

Lemma parseCatalog_crlf_witness :
  parseCatalog sample_host (VStr (to_crlf ("- A [0, 1]" ++ String LF "- B [0, 1]")))
  = parseCatalog sample_host (VStr ("- A [0, 1]" ++ String LF "- B [0, 1]")).
Proof.
  apply (parseCatalog_crlf sample_host ("- A [0, 1]" ++ String LF "- B [0, 1]")).
  reflexivity.
Defined.

(** ** [clamp] and [clampMap]: what is kept *)

Lemma clampValue_in_range (d : ParameterDefinition) (v : num) :
  num_le (min d) v -> num_le v (max d) ->
  (isToggleLike d = true -> is_integer v) ->
  clampValue d v = v.
Proof.
  unfold num_le, clampValue. intros H1 H2 Hint.
  rewrite clamp_fix by assumption.
  destruct (isToggleLike d); [ | reflexivity].
  now apply Math_round_integer, Hint.
Qed.

(** X5. A parameter map that already satisfies the post-validation
    invariant (distinct catalogued ids, values in range, integral for
    toggle-like parameters) and has no key [__proto__] is returned by
    [clampMap] as it is. *)
Theorem clampMap_valid_unchanged (defs : list ParameterDefinition)
    (kvs : list (string * value)) :
  NoDup (List.map fst kvs) -> Forall (validEntry defs) kvs ->
  ~ In proto_key (List.map fst kvs) ->
  clampMap defs (VObj kvs) = kvs.
Proof.
  intros Hnd Hv Hp. unfold clampMap, or_else. simpl truthy. cbv iota.
  simpl Object_entries.
  apply (fold_clampEntry_rebuild defs kvs []); [exact Hnd | ].
  apply Forall_forall. intros kv Hin.
  rewrite Forall_forall in Hv.
  destruct (Hv kv Hin) as (d & x & _ & _ & Hd & Hx & H1 & H2 & H3).
  exists d, x. repeat split; try assumption.
  - now apply clampValue_in_range.
  - intros E. apply Hp. rewrite <- E. now apply in_map.
Qed.

Lemma clampMap_valid_unchanged_witness :
  clampMap [unit_def "ParamX" false] (VObj [("ParamX", VNum (ofQ (1 # 2)))])
  = [("ParamX", VNum (ofQ (1 # 2)))].
Proof.
  apply (clampMap_valid_unchanged [unit_def "ParamX" false]
           [("ParamX", VNum (ofQ (1 # 2)))]).
  - repeat constructor. simpl. tauto.
  - constructor; [ | constructor].
    exists (unit_def "ParamX" false), (ofQ (1 # 2)).
    repeat split; try reflexivity; try (now left). discriminate.
  - simpl. intros [E | []]. discriminate E.
Defined.

Lemma Math_min_mono (b v1 v2 : num) :
  is_nan b = false -> num_leb v1 v2 = true ->
  num_leb (Math_min b v1) (Math_min b v2) = true.
Proof.
  intros Hb H. destruct (num_leb_not_nan _ _ H) as [N1 N2].
  assert (E1 : Math_min b v1 = if num_leb b v1 then b else v1)
    by (destruct b, v1; try discriminate; reflexivity).
  assert (E2 : Math_min b v2 = if num_leb b v2 then b else v2)
    by (destruct b, v2; try discriminate; reflexivity).
  rewrite E1, E2.
  destruct (num_leb b v1) eqn:B1, (num_leb b v2) eqn:B2.
  - now apply num_leb_refl.
  - rewrite (num_leb_trans _ _ _ B1 H) in B2. discriminate.
  - now apply num_leb_total.
  - exact H.
Qed.

Lemma Math_max_mono (a x1 x2 : num) :
  is_nan a = false -> num_leb x1 x2 = true ->
  num_leb (Math_max a x1) (Math_max a x2) = true.
Proof.
  intros Ha H. destruct (num_leb_not_nan _ _ H) as [N1 N2].
  assert (E1 : Math_max a x1 = if num_leb a x1 then x1 else a)
    by (destruct a, x1; try discriminate; reflexivity).
  assert (E2 : Math_max a x2 = if num_leb a x2 then x2 else a)
    by (destruct a, x2; try discriminate; reflexivity).
  rewrite E1, E2.
  destruct (num_leb a x1) eqn:B1, (num_leb a x2) eqn:B2.
  - exact H.
  - rewrite (num_leb_trans _ _ _ B1 H) in B2. discriminate.
  - exact B2.
  - now apply num_leb_refl.
Qed.

(** X6. Clamping keeps the order of values: for a definition whose
    bounds are numbers, [v1 <= v2] gives
    [clampValue d v1 <= clampValue d v2], rounding included. *)
Theorem clampValue_monotone (d : ParameterDefinition) (v1 v2 : num) :
  is_nan (min d) = false -> is_nan (max d) = false ->
  num_le v1 v2 ->
  num_le (clampValue d v1) (clampValue d v2).
Proof.
  unfold num_le, clampValue, clamp. intros Ha Hb H.
  assert (Hc : num_leb (Math_max (min d) (Math_min (max d) v1))
                       (Math_max (min d) (Math_min (max d) v2)) = true).
  { apply Math_max_mono; [exact Ha | ]. now apply Math_min_mono. }
  destruct (isToggleLike d); [now apply Math_round_mono | exact Hc].
Qed.

Lemma clampValue_monotone_witness :
  num_le (clampValue (unit_def "ParamX" true) (ofQ (1 # 4)))
         (clampValue (unit_def "ParamX" true) (ofQ (3 # 4))).
Proof.
  apply (clampValue_monotone (unit_def "ParamX" true) (ofQ (1 # 4)) (ofQ (3 # 4)));
    reflexivity.
Defined.

Lemma byId_app_last (ds : list ParameterDefinition) (d : ParameterDefinition)
    (k : string) :
  byId (ds ++ [d]) k = if String.eqb (id d) k then Some d else byId ds k.
Proof.
  induction ds as [ | d0 rest IH]; simpl.
  - reflexivity.
  - rewrite IH. destruct (String.eqb (id d) k); reflexivity.
Qed.

(** X7. When an id is defined more than once, the last definition
    decides: every value retained under the id of the last definition
    of the catalog has been clamped against that definition. *)
Theorem clampMap_last_definition (ds : list ParameterDefinition)
    (d : ParameterDefinition) (obj v : value) :
  In (id d, v) (clampMap (ds ++ [d]) obj) ->
  exists n, In (id d, VNum n) (Object_entries (or_else obj (VObj []))) /\
            v = VNum (clampValue d n).
Proof.
  intros H. destruct (clampMap_from _ _ _ H) as (d' & n & Hd & Hin & Hv & _).
  simpl in Hd, Hin, Hv. rewrite byId_app_last, String.eqb_refl in Hd.
  injection Hd as <-. now exists n.
Qed.

Lemma clampMap_last_definition_witness :
  exists n,
    In ("P", VNum n) (Object_entries (or_else (VObj [("P", VNum (ofZ 7))]) (VObj []))) /\
    VNum (ofZ 1) = VNum (clampValue (unit_def "P" false) n).
Proof.
  apply (clampMap_last_definition [inverted_def] (unit_def "P" false)
           (VObj [("P", VNum (ofZ 7))]) (VNum (ofZ 1))).
  vm_compute. now left.
Defined.

Lemma obj_has_entry (kvs : list (string * value)) (k : string) :
  obj_has kvs k = true -> exists v, In (k, v) kvs.
Proof.
  induction kvs as [ | [k0 v0] rest IH]; simpl; [discriminate | ].
  destruct (String.eqb k0 k) eqn:E; simpl.
  - intros _. apply String.eqb_eq in E. subst. exists v0. now left.
  - intros H. destruct (IH H) as [v Hv]. exists v. now right.
Qed.

(** X8. [clampMap] keeps exactly the keys, other than [__proto__],
    that carry a number and are catalogued: a key is in the output if
    and only if it is not [__proto__], the input has a numeric entry
    under it and the catalog defines it. *)
Theorem clampMap_keys (defs : list ParameterDefinition) (obj : value) (k : string) :
  obj_has (clampMap defs obj) k = true <->
  k <> proto_key /\
  (exists n, In (k, VNum n) (Object_entries (or_else obj (VObj [])))) /\
  (exists d, byId defs k = Some d).
Proof.
  split.
  - intros H. destruct (obj_has_entry _ _ H) as [v Hv].
    destruct (clampMap_from _ _ _ Hv) as (d & n & Hd & Hin & _ & Hk).
    split; [exact Hk | ]. split; [now exists n | now exists d].
  - intros (Hk & [n Hn] & [d Hd]).
    now apply (fold_clampEntry_retains defs _ [] k n d).
Qed.

Lemma mapM_length {A B : Type} (f : A -> result B) (xs : list A) (ys : list B) :
  mapM f xs = Ok ys -> List.length ys = List.length xs.
Proof.
  intros H. apply mapM_Forall2 in H.
  induction H; simpl; [reflexivity | now f_equal].
Qed.

Lemma clampTimeline_preserves (host : Host) (defs : list ParameterDefinition)
    (t t1 : value) :
  isKeyed t || isFixed t = true ->
  clampTimeline host t defs = Ok t1 ->
  frameCount t1 = frameCount t /\ getField t1 "mode" = getField t "mode".
Proof.
  intros Hshape.
  destruct (isKeyed t) eqn:Ek.
  - unfold isKeyed in Ek.
    apply andb_true_iff in Ek. destruct Ek as [Ek Harr].
    apply andb_true_iff in Ek. destruct Ek as [_ Hm].
    destruct (mode_object _ _ Hm) as [kvs ->]. simpl in Hm, Harr.
    destruct (array_inv _ Harr) as [kfs Hk].
    rewrite clampTimeline_keyframes by exact Hm.
    rewrite Hk. unfold or_else. simpl truthy. cbv iota.
    destruct (mapM (clampKeyframe host defs) kfs) as [ks | | ] eqn:Em; simpl;
      try discriminate.
    intros H. injection H as <-.
    assert (Hmode : obj_get (obj_set kvs "keyframes" (VArr ks)) "mode"
                    = obj_get kvs "mode")
      by now rewrite obj_get_set_other.
    split; [ | exact Hmode].
    unfold frameCount. simpl getField. rewrite Hmode, Hm.
    rewrite obj_get_set_same, Hk. simpl. now apply mapM_length in Em.
  - simpl in Hshape. unfold isFixed in Hshape.
    apply andb_true_iff in Hshape. destruct Hshape as [Es Harr].
    apply andb_true_iff in Es. destruct Es as [Es _].
    apply andb_true_iff in Es. destruct Es as [_ Hm].
    destruct (mode_object _ _ Hm) as [kvs ->]. simpl in Hm, Harr.
    destruct (array_inv _ Harr) as [frames Hfr].
    destruct (frames_array_object _ _ Hfr) as [fkvs Hf].
    rewrite Hf in Hfr. simpl in Hfr.
    rewrite (clampTimeline_fixed host defs kvs fkvs) by (try assumption; now rewrite Hfr).
    destruct (ToNumber host _) as [n | | ]; simpl; try discriminate.
    rewrite Hfr. intros H. injection H as <-.
    assert (Hmk : is_str (obj_get kvs "mode") "keyframes" = false).
    { destruct (obj_get kvs "mode"); simpl in *; try discriminate.
      apply String.eqb_eq in Hm. now subst. }
    assert (Hmode : forall x, obj_get (obj_set kvs "fixedFps" x) "mode"
                              = obj_get kvs "mode")
      by (intros x; now rewrite obj_get_set_other).
    split; [ | apply Hmode].
    unfold frameCount. simpl getField. rewrite Hmode, Hmk, Hm.
    rewrite obj_get_set_same, Hf. simpl getField.
    rewrite obj_get_set_same, Hfr. simpl. apply length_map.
Qed.

(** X9. On a timeline of a recognized shape [clampTimeline] neither
    drops nor adds a keyframe or frame, and it keeps the mode. *)
Theorem clampTimeline_count (host : Host) (defs : list ParameterDefinition)
    (t t1 : value) :
  isKeyed t || isFixed t = true ->
  clampTimeline host t defs = Ok t1 ->
  frameCount t1 = frameCount t /\ getField t1 "mode" = getField t "mode".
Proof. apply clampTimeline_preserves. Qed.

Lemma clampTimeline_count_witness :
  frameCount (keyed [keyframe (VNum (ofZ 0)) []])
  = frameCount (keyed [keyframe (VNum (ofZ (-5))) [("Unknown", VNum (ofZ 999))]]) /\
  getField (keyed [keyframe (VNum (ofZ 0)) []]) "mode"
  = getField (keyed [keyframe (VNum (ofZ (-5))) [("Unknown", VNum (ofZ 999))]]) "mode".
Proof.
  destruct (clampTimeline_count sample_host [unit_def "ParamX" false]
              (keyed [keyframe (VNum (ofZ (-5))) [("Unknown", VNum (ofZ 999))]])
              (keyed [keyframe (VNum (ofZ 0)) []])) as [H1 H2].
  - reflexivity.
  - vm_compute. reflexivity.
  - split; [exact H1 | exact H2].
Defined.

(** ** [simpleFallbackTimeline]: frames *)

Lemma Math_max_ge (m n : num) :
  is_nan (Math_max m n) = false ->
  num_leb m (Math_max m n) = true /\ num_leb n (Math_max m n) = true.
Proof.
  destruct m as [ | | a | ], n as [ | | b | ]; simpl; try discriminate;
    intros _; try (split; reflexivity);
    try (split; [reflexivity | apply Qle_bool_iff, Qle_refl]);
    try (split; [apply Qle_bool_iff, Qle_refl | reflexivity]).
  destruct (Qle_bool a b) eqn:E; simpl.
  - split; [exact E | apply Qle_bool_iff, Qle_refl].
  - split; [apply Qle_bool_iff, Qle_refl | ].
    apply Qle_bool_iff. destruct (Qlt_le_dec a b) as [L | L]; [ | exact L].
    apply Qlt_le_weak in L. apply Qle_bool_iff in L. simpl in *. congruence.
Qed.

Lemma reduce_max_ge (host : Host) (k : string) (xs : list value) (m r : num) :
  reduce_max host k xs m = Ok r -> num_leb m r = true \/ r = NaN.
Proof.
  revert m. induction xs as [ | x rest IH]; intros m H.
  - simpl in H. injection H as ->.
    destruct (is_nan r) eqn:E; [right; now destruct r | left; now apply num_leb_refl].
  - cbn [reduce_max] in H.
    destruct (getProp x k) as [f | | ]; simpl in H; try discriminate.
    destruct (ToNumber host _) as [n | | ]; simpl in H; try discriminate.
    destruct (IH _ H) as [Hle | Hnan]; [ | now right].
    left. destruct (num_leb_not_nan _ _ Hle) as [Hm _].
    destruct (Math_max_ge m n Hm) as [H1 _].
    eapply num_leb_trans; eassumption.
Qed.

Lemma duration_nonneg (host : Host) (ws vs : list value) (d : Qc) :
  duration host ws vs = Ok (Fin d) -> (0 <= Qfloor d)%Z.
Proof.
  unfold duration.
  destruct (reduce_max host "endMs" ws (ofZ 0)) as [dw | | ] eqn:Ew; simpl;
    try discriminate.
  destruct (reduce_max host "startMs" vs (ofZ 0)) as [dv | | ] eqn:Ev; simpl;
    try discriminate.
  intros H. injection H as H.
  assert (Hn : is_nan (Math_max dw dv) = false) by now rewrite H.
  destruct (Math_max_ge dw dv Hn) as [H1 _]. rewrite H in H1.
  destruct (reduce_max_ge _ _ _ _ _ Ew) as [Hle | ->]; [ | discriminate].
  apply leb_ofZ_fin. eapply num_leb_trans; eassumption.
Qed.

Lemma framesLoop_length (host : Host) (ws : list value)
    (defs : list ParameterDefinition) (d : Qc) (z : Z) :
  (1 <= z)%Z ->
  forall (fuel : nat) (k : Z) (fs : list value),
    framesLoop host fuel ws defs (Fin d) (ofZ z) (ofZ k) = Ok fs ->
    List.length fs =
      if (k <=? Qfloor d)%Z then (Z.to_nat ((Qfloor d - k) / z) + 1)%nat else 0%nat.
Proof.
  intros Hz. induction fuel as [ | fuel IH]; intros k fs H; [discriminate | ].
  cbn [framesLoop] in H.
  destruct (num_leb (ofZ k) (Fin d)) eqn:E.
  - apply leb_ofZ_fin in E.
    destruct (frameAt host ws defs (ofZ k)) as [f | | ];
      cbv beta iota delta [bind] in H; try discriminate.
    rewrite num_add_ofZ in H.
    destruct (framesLoop host fuel ws defs (Fin d) (ofZ z) (ofZ (k + z)))
      as [fs' | | ] eqn:Eloop; cbv beta iota delta [bind] in H; try discriminate.
    injection H as <-. simpl. rewrite (IH _ _ Eloop).
    destruct (Z.leb_spec k (Qfloor d)) as [_ | L]; [ | lia].
    destruct (Z.leb_spec (k + z) (Qfloor d)) as [L | L].
    + replace (Qfloor d - k)%Z with ((Qfloor d - (k + z)) + 1 * z)%Z by lia.
      rewrite Z.div_add by lia.
      assert (0 <= (Qfloor d - (k + z)) / z)%Z by (apply Z.div_pos; lia).
      lia.
    + rewrite Z.div_small by lia. reflexivity.
  - injection H as <-. simpl.
    destruct (Z.leb_spec k (Qfloor d)) as [L | _]; [ | reflexivity].
    apply leb_ofZ_fin in L. congruence.
Qed.

(** X10. When the synthesizer returns a timeline whose [dtMs] is a
    positive integer [z], for words and visemes of duration [d], the
    timeline has exactly [floor(d / z) + 1] frames. *)
Theorem simpleFallbackTimeline_frame_count (host : Host) (fuel : nat)
    (ws vs : list value) (defs : list ParameterDefinition) (fps : value)
    (d : Qc) (z : Z) (frames : list value) :
  duration host ws vs = Ok (Fin d) ->
  simpleFallbackTimeline host fuel ws vs defs fps
    = Ok (fixed (VNum (ofZ z)) frames) ->
  (1 <= z)%Z ->
  List.length frames = (Z.to_nat (Qfloor d / z) + 1)%nat.
Proof.
  intros Hdur Hfb Hz.
  pose proof (duration_nonneg host ws vs d Hdur) as Hd0.
  unfold duration in Hdur. unfold simpleFallbackTimeline in Hfb.
  destruct (ToNumber host (dflt fps (VNum (ofZ 60)))) as [n | | ];
    cbv beta iota delta [bind] in Hfb; try discriminate.
  remember (Math_round (num_div (ofZ 1000) (Math_max (ofZ 1) n))) as dt eqn:Edt.
  clear Edt.
  destruct (reduce_max host "endMs" ws (ofZ 0)) as [dw | | ];
    cbv beta iota delta [bind] in Hdur, Hfb; try discriminate.
  destruct (reduce_max host "startMs" vs (ofZ 0)) as [dv | | ];
    cbv beta iota delta [bind] in Hdur, Hfb; try discriminate.
  injection Hdur as Hdur. rewrite Hdur in Hfb.
  destruct (framesLoop host fuel ws defs (Fin d) dt (ofZ 0)) as [fs | | ] eqn:E;
    cbv beta iota delta [bind] in Hfb; try discriminate.
  unfold fixed in Hfb. injection Hfb as Hdt Hfs. subst dt fs.
  rewrite (framesLoop_length host ws defs d z Hz fuel 0 frames E).
  destruct (Z.leb_spec 0 (Qfloor d)) as [_ | L]; [ | lia].
  now rewrite Z.sub_0_r.
Qed.

Lemma simpleFallbackTimeline_frame_count_witness :
  List.length (repeat (VObj []) 6)
  = (Z.to_nat (Qfloor (Q2Qc (inject_Z 100)) / 17) + 1)%nat.
Proof.
  apply (simpleFallbackTimeline_frame_count sample_host 10
           [word "Hi" 0 100] [] [] VUndef (Q2Qc (inject_Z 100)) 17).
  - vm_compute. reflexivity.
  - vm_compute. reflexivity.
  - lia.
Defined.

Lemma has_byId (defs : list ParameterDefinition) (k : string) :
  has defs k = true -> exists d, byId defs k = Some d.
Proof.
  unfold has. induction defs as [ | d0 rest IH]; simpl; [discriminate | ].
  intros H. apply orb_true_iff in H. destruct H as [H | H].
  - destruct (byId rest k) as [d' | ]; [now exists d' | ].
    rewrite H. now exists d0.
  - destruct (IH H) as [d' ->]. now exists d'.
Qed.

(** The frame at [t], when the synthesizer builds one: its entries in
    order, each under a catalogued id with a number, no id twice, and
    the two eye parameters together. *)
Lemma frameAt_entries (host : Host) (ws : list value)
    (defs : list ParameterDefinition) (t : num) (f : value) :
  frameAt host ws defs t = Ok f ->
  exists kvs, f = VObj kvs /\ Forall (emitted defs) kvs /\
              NoDup (List.map fst kvs) /\
              obj_has kvs "ParamEyeLOpen" = obj_has kvs "ParamEyeROpen".
Proof.
  unfold frameAt, emitted.
  destruct (has defs "ParamBreath") eqn:Hb;
    destruct (has defs "ParamEyeLOpen") eqn:Hl;
    destruct (has defs "ParamEyeROpen") eqn:Hr;
    destruct (is_zero (blinkPhase host t));
    destruct (has defs "ParamAngleY") eqn:Hy;
    cbn [andb obj_set String.eqb Ascii.eqb Bool.eqb];
    try (destruct (find_word host t ws) as [e | | ]; simpl bind;
         try discriminate; destruct (truthy e));
    cbn [obj_set String.eqb Ascii.eqb Bool.eqb];
    intros H; injection H as <-; eexists; (split; [reflexivity | ]);
    (split; [repeat constructor; simpl; eauto;
             try (unfold proto_key; discriminate) | ]);
    (split; [ | reflexivity]).
  all: repeat constructor; simpl; intuition discriminate.
Qed.

Lemma fold_clampEntry_emitted (defs : list ParameterDefinition)
    (kvs acc : list (string * value)) :
  Forall (emitted defs) kvs -> NoDup (List.map fst (acc ++ kvs)) ->
  List.map fst (fold_left (clampEntry defs) kvs acc)
    = List.map fst acc ++ List.map fst kvs.
Proof.
  revert acc. induction kvs as [ | [k v] rest IH]; simpl; intros acc Hem Hnd.
  - now rewrite app_nil_r.
  - inversion Hem as [ | ? ? (Hhas & [n Hn] & Hk) Hrest]; subst.
    simpl in Hhas, Hn, Hk. subst v.
    destruct (has_byId _ _ Hhas) as [d Hd]. rewrite Hd.
    rewrite (assign_number_other _ _ _ Hk).
    assert (Hfresh : ~ In k (List.map fst acc)).
    { rewrite map_app in Hnd. simpl in Hnd.
      apply NoDup_remove_2 in Hnd. rewrite in_app_iff in Hnd. tauto. }
    rewrite obj_set_fresh by exact Hfresh.
    rewrite IH;
      [ | exact Hrest
        | rewrite <- app_assoc, map_app; rewrite map_app in Hnd; exact Hnd].
    rewrite map_app. simpl. now rewrite <- app_assoc.
Qed.

(** X11. The synthesizer sets only parameters the catalog defines, so
    clamping one of its frames against the same definitions keeps
    every parameter of the frame, in the same order. *)
Theorem fallback_frame_survives_clamp (host : Host) (ws : list value)
    (defs : list ParameterDefinition) (t : num) (f : value) :
  frameAt host ws defs t = Ok f ->
  Forall (emitted defs) (Object_entries f) /\
  List.map fst (clampMap defs f) = List.map fst (Object_entries f).
Proof.
  intros H. destruct (frameAt_entries _ _ _ _ _ H) as (kvs & -> & Hem & Hnd & _).
  split; [exact Hem | ].
  unfold clampMap, or_else. simpl truthy. cbv iota. simpl Object_entries.
  now apply (fold_clampEntry_emitted defs kvs []).
Qed.

Lemma fallback_frame_survives_clamp_witness :
  Forall (emitted [angleY_def]) (Object_entries (VObj [("ParamAngleY", VNum (ofZ 3))])) /\
  List.map fst (clampMap [angleY_def] (VObj [("ParamAngleY", VNum (ofZ 3))]))
    = List.map fst (Object_entries (VObj [("ParamAngleY", VNum (ofZ 3))])).
Proof.
  apply (fallback_frame_survives_clamp sample_host [word "Stop." 1000 1200]
           [angleY_def] (ofZ 1003)).
  vm_compute. reflexivity.
Defined.

(** X12. A frame of the synthesizer closes both eyes or neither: it
    holds [ParamEyeLOpen] exactly when it holds [ParamEyeROpen]. *)
Theorem fallback_blinks_both_eyes (host : Host) (ws : list value)
    (defs : list ParameterDefinition) (t : num) (f : value) :
  frameAt host ws defs t = Ok f ->
  obj_has (Object_entries f) "ParamEyeLOpen"
    = obj_has (Object_entries f) "ParamEyeROpen".
Proof.
  intros H. destruct (frameAt_entries _ _ _ _ _ H) as (kvs & -> & _ & _ & He).
  exact He.
Qed.

Lemma fallback_blinks_both_eyes_witness :
  obj_has (Object_entries
             (VObj [("ParamEyeLOpen", VNum (ofQ (1 # 10)));
                    ("ParamEyeROpen", VNum (ofQ (1 # 10)))])) "ParamEyeLOpen"
  = obj_has (Object_entries
               (VObj [("ParamEyeLOpen", VNum (ofQ (1 # 10)));
                      ("ParamEyeROpen", VNum (ofQ (1 # 10)))])) "ParamEyeROpen".
Proof.
  apply (fallback_blinks_both_eyes blinking_host []
           [unit_def "ParamEyeLOpen" false; unit_def "ParamEyeROpen" false] (ofZ 0)).
  vm_compute. reflexivity.
Defined.

(** ** [simpleFallbackTimeline]: frame rates out of range *)

Lemma stepOf_zero (q : Qc) : (2000 < q)%Q -> stepOf q = ofZ 0.
Proof.
  intros Hq. unfold stepOf.
  destruct (max_one q) as (q' & -> & H1 & _ & Hge).
  assert (Hq1 : (1 <= q)%Q).
  { apply Qlt_le_weak. eapply Qle_lt_trans; [ | exact Hq]. discriminate. }
  rewrite (Hge Hq1) in *. clear Hge q'.
  assert (Hpos : (0 < q)%Q) by (eapply Qlt_le_trans; [ | exact H1]; reflexivity).
  unfold num_div. unfold ofZ at 1.
  destruct (Qeq_bool q 0) eqn:E0.
  { apply Qeq_bool_iff in E0. rewrite E0 in Hpos. discriminate. }
  change (ofZ (round_Q (Q2Qc (inject_Z 1000) / q)%Qc) = ofZ 0). f_equal.
  assert (Hx : (this (Q2Qc (inject_Z 1000) / q)%Qc == inject_Z 1000 / q)%Q).
  { rewrite this_div. now rewrite (this_ofZ 1000). }
  rewrite (round_Q_comp _ _ Hx). unfold round_Q. apply Qfloor_unique.
  - apply Qle_trans with (y := (inject_Z 1000 / q)%Q).
    + apply Qle_shift_div_l; [exact Hpos | ].
      setoid_replace (inject_Z 0 * q)%Q with 0%Q by ring. discriminate.
    + rewrite <- (Qplus_0_r (inject_Z 1000 / q)) at 1.
      apply Qplus_le_r. discriminate.
  - setoid_replace (inject_Z (0 + 1)) with ((1 # 2) + (1 # 2))%Q by reflexivity.
    apply Qplus_lt_l.
    apply Qlt_shift_div_r; [exact Hpos | ].
    setoid_replace (inject_Z 1000) with ((1 # 2) * 2000)%Q by reflexivity.
    apply Qmult_lt_l; [reflexivity | exact Hq].
Qed.

Lemma framesLoop_stuck_plain (host : Host) (ws : list value)
    (defs : list ParameterDefinition) (d : Qc) (fuel : nat) :
  forallb plainWord ws = true -> (0 <= Qfloor d)%Z ->
  framesLoop host fuel ws defs (Fin d) (ofZ 0) (ofZ 0) = OutOfFuel.
Proof.
  intros Hw Hd. induction fuel as [ | fuel IH]; [reflexivity | ].
  cbn [framesLoop].
  assert (E : num_leb (ofZ 0) (Fin d) = true) by now apply leb_ofZ_fin.
  rewrite E.
  destruct (frameAt_plain host ws defs (ofZ 0) Hw) as [f ->].
  cbv beta iota delta [bind].
  rewrite num_add_ofZ. change (0 + 0)%Z with 0%Z. now rewrite IH.
Qed.

Lemma duration_plain (host : Host) (ws vs : list value) :
  forallb plainWord ws = true -> forallb plainViseme vs = true ->
  exists dw dv d,
    reduce_max host "endMs" ws (ofZ 0) = Ok (Fin dw) /\
    reduce_max host "startMs" vs (ofZ 0) = Ok (Fin dv) /\
    Math_max (Fin dw) (Fin dv) = Fin d /\ (0 <= Qfloor d)%Z.
Proof.
  intros Hw Hv.
  destruct (reduce_max_plain host "endMs" ws (Q2Qc (inject_Z 0))
              (plainWord_end ws Hw)) as (dw & Hdw & Hdw0).
  destruct (reduce_max_plain host "startMs" vs (Q2Qc (inject_Z 0))
              (plainViseme_start vs Hv)) as (dv & Hdv & _).
  destruct (Math_max_fin dw dv) as (d & Hd & Hdd).
  exists dw, dv, d. repeat split; try assumption.
  rewrite <- (Qfloor_Z 0). apply Qfloor_resp_le.
  rewrite <- (this_ofZ 0). eapply Qle_trans; eassumption.
Qed.

(** X13. For a frame rate above 2000 per second (or infinite) the
    frame step rounds to 0, and on words and visemes of the documented
    types the synthesizer's loop never ends: it returns no timeline
    whatever the loop budget. *)
Theorem simpleFallbackTimeline_never_returns (host : Host)
    (ws vs : list value) (defs : list ParameterDefinition) (fps : value) :
  (exists q, fps = VNum (Fin q) /\ (2000 < q)%Q) \/ fps = VNum PInf ->
  forallb plainWord ws = true -> forallb plainViseme vs = true ->
  forall fuel, simpleFallbackTimeline host fuel ws vs defs fps = OutOfFuel.
Proof.
  intros Hfps Hw Hv fuel.
  destruct (duration_plain host ws vs Hw Hv) as (dw & dv & d & Hdw & Hdv & Hd & Hd0).
  assert (Hstep : exists n,
    ToNumber host (dflt fps (VNum (ofZ 60))) = Ok n /\
    Math_round (num_div (ofZ 1000) (Math_max (ofZ 1) n)) = ofZ 0).
  { destruct Hfps as [(q & -> & Hq) | ->].
    - exists (Fin q). split; [reflexivity | now apply stepOf_zero].
    - exists PInf. split; [reflexivity | vm_compute; reflexivity]. }
  destruct Hstep as (n & Hn & Hstep).
  unfold simpleFallbackTimeline. rewrite Hn. cbv beta iota delta [bind].
  rewrite Hstep, Hdw. cbv beta iota delta [bind].
  rewrite Hdv. cbv beta iota delta [bind]. rewrite Hd.
  now rewrite framesLoop_stuck_plain.
Qed.

Lemma simpleFallbackTimeline_never_returns_witness :
  simpleFallbackTimeline sample_host 1000 [word "Hi" 0 100] [] []
    (VNum (ofZ 5000)) = OutOfFuel.
Proof.
  apply (simpleFallbackTimeline_never_returns sample_host [word "Hi" 0 100] [] []
           (VNum (ofZ 5000))).
  - left. exists (Q2Qc (inject_Z 5000)). split; reflexivity.
  - reflexivity.
  - reflexivity.
Defined.

(** X14. For a frame rate that converts to NaN the frame step is NaN
    and, on words and visemes of the documented types, the synthesizer
    returns exactly one frame: after the first turn the loop variable
    is NaN and the loop test fails. *)
Theorem simpleFallbackTimeline_nan_rate (host : Host)
    (ws vs : list value) (defs : list ParameterDefinition) (fps : value)
    (fuel : nat) :
  ToNumber host (dflt fps (VNum (ofZ 60))) = Ok NaN ->
  forallb plainWord ws = true -> forallb plainViseme vs = true ->
  (2 <= fuel)%nat ->
  exists f, simpleFallbackTimeline host fuel ws vs defs fps
              = Ok (fixed (VNum NaN) [f]).
Proof.
  intros Hn Hw Hv Hfuel.
  destruct (duration_plain host ws vs Hw Hv) as (dw & dv & d & Hdw & Hdv & Hd & Hd0).
  destruct fuel as [ | [ | fuel]]; try lia.
  unfold simpleFallbackTimeline. rewrite Hn. cbv beta iota delta [bind].
  rewrite Hdw. cbv beta iota delta [bind].
  rewrite Hdv. cbv beta iota delta [bind]. rewrite Hd.
  assert (Hstep : Math_round (num_div (ofZ 1000) (Math_max (ofZ 1) NaN)) = NaN)
    by reflexivity.
  rewrite Hstep. cbn [framesLoop].
  assert (E : num_leb (ofZ 0) (Fin d) = true) by now apply leb_ofZ_fin.
  rewrite E.
  destruct (frameAt_plain host ws defs (ofZ 0) Hw) as [f ->].
  cbv beta iota delta [bind].
  assert (Ht : num_add (ofZ 0) NaN = NaN) by reflexivity.
  rewrite Ht. cbn [num_leb]. cbv beta iota delta [bind].
  now exists f.
Qed.

Lemma simpleFallbackTimeline_nan_rate_witness :
  exists f,
    simpleFallbackTimeline sample_host 2 [word "Hi" 0 100] [] [] (VObj [])
      = Ok (fixed (VNum NaN) [f]).
Proof.
  apply (simpleFallbackTimeline_nan_rate sample_host [word "Hi" 0 100] [] []
           (VObj []) 2).
  - reflexivity.
  - reflexivity.
  - reflexivity.
  - lia.
Defined.

(** ** The route: status, usable candidates, empty catalog *)

Lemma fallbackClamped_status (host : Host) (fuel : nat) (ws vs : list value)
    (defs : list ParameterDefinition) (fps : value) (st : Z) (b : value) :
  fallbackClamped host fuel ws vs defs fps = Ok (Response st b) -> st = 200%Z.
Proof.
  unfold fallbackClamped.
  destruct (simpleFallbackTimeline host fuel ws vs defs fps) as [fb | | ];
    cbv beta iota delta [bind]; try discriminate.
  destruct (clampTimeline host fb defs) as [tl | | ];
    cbv beta iota delta [bind]; try discriminate.
  intros H. now injection H as <- _.
Qed.

Lemma planWithDefs_status (host : Host) (fuel : nat) (collab : Collaborator)
    (ws vs : list value) (fps strategy : value)
    (defs : list ParameterDefinition) (st : Z) (b : value) :
  planWithDefs host fuel collab ws vs fps strategy defs = Ok (Response st b) ->
  st = 200%Z.
Proof.
  unfold planWithDefs. destruct defs as [ | d ds].
  - destruct (simpleFallbackTimeline host fuel ws vs [] fps) as [fb | | ];
      cbv beta iota delta [bind]; try discriminate.
    intros H. now injection H as <- _.
  - destruct (mapM _ ws) as [texts | | ]; cbv beta iota delta [bind];
      try discriminate.
    pose proof (fallbackClamped_status host fuel ws vs (d :: ds) fps st b) as HD.
    pose proof (fallbackClamped_status host fuel ws vs
                  (firstn MAX_PARAMS (d :: ds)) fps st b) as HT.
    destruct (collab _ _) as [out | ]; [ | exact HD].
    destruct (negb (isFixed out) && negb (isKeyed out)).
    { destruct (fallbackClamped host fuel ws vs (firstn MAX_PARAMS (d :: ds)) fps)
        as [r | | ] eqn:E; simpl; try discriminate; [ | exact HD].
      intros H. rewrite <- H in HT. now apply HT. }
    destruct (clampTimeline host out (firstn MAX_PARAMS (d :: ds))) as [safe | | ];
      cbv beta iota delta [bind]; [ | exact HD | discriminate].
    destruct (_ && (_ || _)).
    { destruct (fallbackClamped host fuel ws vs (firstn MAX_PARAMS (d :: ds)) fps)
        as [r | | ] eqn:E; simpl; try discriminate; [ | exact HD].
      intros H. rewrite <- H in HT. now apply HT. }
    destruct (_ && _).
    { destruct (fallbackClamped host fuel ws vs (firstn MAX_PARAMS (d :: ds)) fps)
        as [r | | ] eqn:E; simpl; try discriminate; [ | exact HD].
      intros H. rewrite <- H in HT. now apply HT. }
    simpl. intros H. now injection H as <- _.
Qed.

(** X15. The route answers 400 exactly when [words] or [visemes] is
    given and is not an array, and then the answer is the BAD_INPUT
    body, whatever the catalog, the frame rate and the collaborator;
    every other answer of the route has status 200. *)
Theorem live2d_timeline_status (host : Host) (fuel : nat) (collab : Collaborator)
    (body : value) :
  let W := dflt (getField (or_else body (VObj [])) "words") (VArr []) in
  let V := dflt (getField (or_else body (VObj [])) "visemes") (VArr []) in
  (is_array W && is_array V = false ->
     live2d_timeline host fuel collab body = Ok bad_input) /\
  (forall st b,
     live2d_timeline host fuel collab body = Ok (Response st b) ->
     is_array W && is_array V = true -> st = 200%Z).
Proof.
  intros W V. unfold live2d_timeline. fold W V. split.
  - intros H. destruct W; try reflexivity. destruct V; try reflexivity.
    discriminate.
  - intros st b H Ha. destruct W; try discriminate. destruct V; try discriminate.
    destruct (parseCatalog host _) as [defs | | ]; cbv beta iota delta [bind] in H;
      try discriminate.
    now apply planWithDefs_status in H.
Qed.

Lemma no_length_nonempty (xs : list value) :
  (1 <= List.length xs)%nat -> no_length (VArr xs) = false.
Proof.
  intros H.
  assert (Ht : truthy (VNum (ofZ (Z.of_nat (List.length xs)))) = true)
    by (apply truthy_positive; lia).
  unfold no_length. change (getPropOpt (VArr xs) "length")
    with (VNum (ofZ (Z.of_nat (List.length xs)))).
  now rewrite Ht.
Qed.

(** X16. When the collaborator's answer has a recognized shape, at
    least one keyframe or frame, and clamps without an exception, the
    route answers the clamped candidate and never runs the
    synthesizer: the answer does not depend on the frame rate, the
    visemes or the loop budget. *)
Theorem planWithDefs_usable_candidate (host : Host) (collab : Collaborator)
    (ws : list value) (texts : list string) (out safe : value)
    (d : ParameterDefinition) (ds : list ParameterDefinition) :
  mapM (fun w => ToString host (or_else (getPropOpt w "text") (VStr ""))) ws
    = Ok texts ->
  (forall sys user, collab sys user = Some out) ->
  isKeyed out || isFixed out = true ->
  (1 <= frameCount out)%nat ->
  clampTimeline host out (firstn MAX_PARAMS (d :: ds)) = Ok safe ->
  forall (fuel : nat) (vs : list value) (fps strategy : value),
    planWithDefs host fuel collab ws vs fps strategy (d :: ds)
      = Ok (Response 200 safe).
Proof.
  intros Ht Hc Hshape Hcount Hsafe fuel vs fps strategy.
  destruct (clampTimeline_preserves host _ out safe Hshape Hsafe) as [Hcnt _].
  rewrite <- Hcnt in Hcount.
  assert (Hneg : negb (isFixed out) && negb (isKeyed out) = false).
  { destruct (isFixed out), (isKeyed out); simpl in *; congruence. }
  unfold planWithDefs. rewrite Ht. cbv beta iota delta [bind].
  rewrite Hc, Hneg, Hsafe. cbv beta iota delta [bind].
  unfold frameCount in Hcount.
  destruct (safe_shape host _ out safe Hshape Hsafe)
    as [[Hm (ks & Hks)] | (Hmk & Hm & fk & fs & Hfk & Hfs)].
  - rewrite Hm, Hks in *. simpl in Hcount.
    rewrite (mode_exclusive _ Hm).
    rewrite (no_length_nonempty ks Hcount). reflexivity.
  - rewrite Hmk, Hm, Hfk in *. simpl getField in Hfs, Hcount.
    rewrite Hfs in Hcount. simpl in Hcount.
    assert (Hopt : getPropOpt safe "fixedFps" = VObj fk).
    { destruct safe; simpl in *; try discriminate; exact Hfk. }
    rewrite Hopt. simpl getPropOpt. rewrite Hfs.
    rewrite (no_length_nonempty fs Hcount). reflexivity.
Qed.

Lemma planWithDefs_usable_candidate_witness :
  planWithDefs sample_host 0
    (fun _ _ => Some (keyed [keyframe (VNum (ofZ (-5))) [("ParamX", VNum (ofZ 999))]]))
    [VNull] [] (VNum (ofZ 5000)) (VStr "auto") [unit_def "ParamX" false]
  = Ok (Response 200 (keyed [keyframe (VNum (ofZ 0)) [("ParamX", VNum (ofZ 1))]])).
Proof.
  apply (planWithDefs_usable_candidate sample_host
           (fun _ _ => Some (keyed [keyframe (VNum (ofZ (-5))) [("ParamX", VNum (ofZ 999))]]))
           [VNull] [""]
           (keyed [keyframe (VNum (ofZ (-5))) [("ParamX", VNum (ofZ 999))]])
           (keyed [keyframe (VNum (ofZ 0)) [("ParamX", VNum (ofZ 1))]])
           (unit_def "ParamX" false) []).
  - reflexivity.
  - reflexivity.
  - reflexivity.
  - vm_compute. apply le_n.
  - vm_compute. reflexivity.
Defined.

Lemma framesLoop_no_defs (host : Host) (ws : list value) (dur dt : num) :
  forall (fuel : nat) (t : num) (fs : list value),
    framesLoop host fuel ws [] dur dt t = Ok fs ->
    fs = repeat (VObj []) (List.length fs).
Proof.
  induction fuel as [ | fuel IH]; intros t fs H; [discriminate | ].
  cbn [framesLoop] in H.
  destruct (num_leb t dur).
  - change (frameAt host ws [] t) with (@Ok value (VObj [])) in H.
    cbv beta iota delta [bind] in H.
    destruct (framesLoop host fuel ws [] dur dt (num_add t dt)) as [fs' | | ] eqn:E;
      try discriminate.
    injection H as <-. simpl. f_equal. now apply (IH _ _ E).
  - injection H as <-. reflexivity.
Qed.

(** X17. With a catalog that yields no definition the route answers
    the synthesizer's timeline as it is, without clamping it, whatever
    the collaborator would say; every frame of it is empty. *)
Theorem planWithDefs_empty_catalog (host : Host) (fuel : nat)
    (collab : Collaborator) (ws vs : list value) (fps strategy : value)
    (r : response) :
  planWithDefs host fuel collab ws vs fps strategy [] = Ok r ->
  exists dt frames,
    simpleFallbackTimeline host fuel ws vs [] fps
      = Ok (fixed (VNum dt) (repeat (VObj []) frames)) /\
    r = Response 200 (fixed (VNum dt) (repeat (VObj []) frames)).
Proof.
  unfold planWithDefs, simpleFallbackTimeline.
  destruct (ToNumber host _) as [n | | ]; cbv beta iota delta [bind];
    try discriminate.
  destruct (reduce_max host "endMs" ws (ofZ 0)) as [dw | | ];
    cbv beta iota delta [bind]; try discriminate.
  destruct (reduce_max host "startMs" vs (ofZ 0)) as [dv | | ];
    cbv beta iota delta [bind]; try discriminate.
  destruct (framesLoop host fuel ws [] _ _ _) as [fs | | ] eqn:E;
    cbv beta iota delta [bind]; try discriminate.
  intros H. injection H as <-.
  eexists. exists (List.length fs).
  rewrite <- (framesLoop_no_defs _ _ _ _ _ _ _ E).
  split; reflexivity.
Qed.

Lemma planWithDefs_empty_catalog_witness :
  exists dt frames,
    simpleFallbackTimeline sample_host 2 [] [] [] (VNum (ofZ 200))
      = Ok (fixed (VNum dt) (repeat (VObj []) frames)) /\
    Response 200 (fixed (VNum (ofZ 5)) [VObj []])
    = Response 200 (fixed (VNum dt) (repeat (VObj []) frames)).
Proof.
  apply (planWithDefs_empty_catalog sample_host 2 no_reply [] []
           (VNum (ofZ 200)) (VStr "auto")).
  vm_compute. reflexivity.
Defined.

(** ** The [/emotion] route *)

Lemma unit01_range (n : num) :
  unit01 n = NaN \/ (num_le (ofZ 0) (unit01 n) /\ num_le (unit01 n) (ofZ 1)).
Proof.
  unfold unit01, num_le.
  destruct (is_nan n) eqn:En.
  - left. now destruct n.
  - right.
    assert (H0 : is_nan (Math_max (ofZ 0) n) = false)
      by (destruct n; try discriminate; try reflexivity;
          unfold Math_max, ofZ; destruct (num_leb _ _); reflexivity).
    destruct (Math_max_ge (ofZ 0) n H0) as [Hlo _].
    set (x := Math_max (ofZ 0) n) in *.
    assert (E : Math_min (ofZ 1) x = if num_leb (ofZ 1) x then ofZ 1 else x)
      by (destruct x; try discriminate; reflexivity).
    rewrite E. destruct (num_leb (ofZ 1) x) eqn:B.
    + split; reflexivity.
    + split; [exact Hlo | ]. apply num_leb_total; try assumption; reflexivity.
Qed.

Lemma unit01_mono (x y : num) :
  num_leb x y = true -> num_leb (unit01 x) (unit01 y) = true.
Proof.
  intros H. unfold unit01.
  apply Math_min_mono; [reflexivity | ].
  now apply Math_max_mono.
Qed.

Lemma clamp01_value (host : Host) (out : value) (k : string) (v : value) :
  clamp01 host out k = Ok v ->
  exists n, numberOr0 host (getField out k) = Ok n /\ v = VNum (unit01 n).
Proof.
  unfold clamp01.
  destruct (getProp out k) as [f | | ] eqn:E; simpl; try discriminate.
  assert (Hf : f = getField out k).
  { unfold getProp in E. destruct out; try discriminate; now injection E as <-. }
  subst f.
  destruct (numberOr0 host (getField out k)) as [n | | ]; simpl; try discriminate.
  intros H. injection H as <-. now exists n.
Qed.

Lemma emotionBody_scores (host : Host) (out b : value) :
  emotionBody host out = Ok b ->
  exists h c a g s,
    b = scores (unit01 h) (unit01 c) (unit01 a) (unit01 g) (unit01 s) /\
    numberOr0 host (getField out "happiness") = Ok h /\
    numberOr0 host (getField out "confused") = Ok c /\
    numberOr0 host (getField out "annoyed") = Ok a /\
    numberOr0 host (getField out "angry") = Ok g /\
    numberOr0 host (getField out "sad") = Ok s.
Proof.
  unfold emotionBody.
  destruct (clamp01 host out "happiness") as [vh | | ] eqn:Eh; simpl; try discriminate.
  destruct (clamp01 host out "confused") as [vc | | ] eqn:Ec; simpl; try discriminate.
  destruct (clamp01 host out "annoyed") as [va | | ] eqn:Ea; simpl; try discriminate.
  destruct (clamp01 host out "angry") as [vg | | ] eqn:Eg; simpl; try discriminate.
  destruct (clamp01 host out "sad") as [vs | | ] eqn:Es; simpl; try discriminate.
  destruct (clamp01_value _ _ _ _ Eh) as (h & Hh & ->).
  destruct (clamp01_value _ _ _ _ Ec) as (c & Hc & ->).
  destruct (clamp01_value _ _ _ _ Ea) as (a & Ha & ->).
  destruct (clamp01_value _ _ _ _ Eg) as (g & Hg & ->).
  destruct (clamp01_value _ _ _ _ Es) as (s & Hs & ->).
  intros H. injection H as <-. exists h, c, a, g, s. repeat split; assumption.
Qed.

Lemma ToString_answers (host : Host) (v : value) : ToString host v <> OutOfFuel.
Proof.
  destruct v; simpl; try discriminate.
  - destruct (ArrayToString host xs); discriminate.
  - destruct (obj_has kvs "toString"); discriminate.
Qed.

Lemma getProp_answers (v : value) (k : string) : getProp v k <> OutOfFuel.
Proof. destruct v; discriminate. Qed.

Lemma setProp_answers (o : value) (k : string) (x : value) :
  setProp o k x <> OutOfFuel.
Proof. destruct o; discriminate. Qed.

Lemma bind_answers {A B : Type} (r : result A) (f : A -> result B) :
  r <> OutOfFuel -> (forall a, f a <> OutOfFuel) -> bind r f <> OutOfFuel.
Proof. intros Hr Hf. destruct r; simpl; [apply Hf | discriminate | congruence]. Qed.

Lemma raiseTo_answers (host : Host) (c : num) (k : string) (out : value) :
  raiseTo host c k out <> OutOfFuel.
Proof.
  unfold raiseTo. apply bind_answers; [apply getProp_answers | intros v].
  apply bind_answers; [apply ToNumber_answers | intros n].
  apply setProp_answers.
Qed.

Lemma lowerTo_answers (host : Host) (c : num) (k : string) (out : value) :
  lowerTo host c k out <> OutOfFuel.
Proof.
  unfold lowerTo. apply bind_answers; [apply getProp_answers | intros v].
  apply bind_answers; [apply ToNumber_answers | intros n].
  apply setProp_answers.
Qed.

Lemma angryOverrides_answers (host : Host) (out : value) :
  angryOverrides host out <> OutOfFuel.
Proof.
  unfold angryOverrides.
  repeat (apply bind_answers;
          [first [apply raiseTo_answers | apply lowerTo_answers] | intros ?]).
  apply lowerTo_answers.
Qed.

Lemma clamp01_answers (host : Host) (out : value) (k : string) :
  clamp01 host out k <> OutOfFuel.
Proof.
  unfold clamp01. apply bind_answers; [apply getProp_answers | intros v].
  apply bind_answers; [apply ToNumber_answers | intros n]. discriminate.
Qed.

Lemma emotionBody_answers (host : Host) (out : value) :
  emotionBody host out <> OutOfFuel.
Proof.
  unfold emotionBody.
  repeat (apply bind_answers; [apply clamp01_answers | intros ?]).
  discriminate.
Qed.

(** X18. The [/emotion] route never raises: for every request body
    and every behaviour of the scoring collaborator it answers with
    status 200 and the five scores, each of which is NaN or lies
    between 0 and 1. *)
Theorem emotion_total (host : Host) (scorer : Scorer) (body : value) :
  exists h c a g s,
    emotion host scorer body = Ok (Response 200 (scores h c a g s)) /\
    Forall (fun x => x = NaN \/ (num_le (ofZ 0) x /\ num_le x (ofZ 1)))
           [h; c; a; g; s].
Proof.
  assert (Hzero : Forall (fun x => x = NaN \/ (num_le (ofZ 0) x /\ num_le x (ofZ 1)))
                    [ofZ 0; ofZ 0; ofZ 0; ofZ 0; ofZ 0]).
  { repeat constructor; right; split; reflexivity. }
  unfold emotion.
  set (text := dflt (getField (or_else body (VObj [])) "text") (VStr "")).
  destruct (scorer text) as [out | ];
    [ | exists (ofZ 0), (ofZ 0), (ofZ 0), (ofZ 0), (ofZ 0); now split].
  pose proof (ToString_answers host text) as Hs.
  destruct (ToString host text) as [s | | ]; cbv beta iota delta [bind];
    [ | exists (ofZ 0), (ofZ 0), (ofZ 0), (ofZ 0), (ofZ 0); now split
      | now destruct Hs].
  assert (Hout : (if hintAngry host s then angryOverrides host out else Ok out)
                 <> OutOfFuel).
  { destruct (hintAngry host s); [apply angryOverrides_answers | discriminate]. }
  destruct (if hintAngry host s then angryOverrides host out else Ok out)
    as [out' | | ]; cbv beta iota delta [bind];
    [ | exists (ofZ 0), (ofZ 0), (ofZ 0), (ofZ 0), (ofZ 0); now split
      | now destruct Hout].
  pose proof (emotionBody_answers host out') as Hb.
  destruct (emotionBody host out') as [b | | ] eqn:Eb; cbv beta iota delta [bind];
    [ | exists (ofZ 0), (ofZ 0), (ofZ 0), (ofZ 0), (ofZ 0); now split
      | now destruct Hb].
  destruct (emotionBody_scores _ _ _ Eb) as (h & c & a & g & s' & -> & _).
  exists (unit01 h), (unit01 c), (unit01 a), (unit01 g), (unit01 s').
  split; [reflexivity | ].
  repeat (apply Forall_cons; [apply unit01_range | ]). apply Forall_nil.
Qed.

Lemma numberOr0_ok (host : Host) (v : value) :
  scoreOk v = true -> exists n, numberOr0 host v = Ok n /\ is_nan n = false.
Proof.
  destruct v as [ | | | n | | | ]; try discriminate; simpl.
  - intros _. now exists (ofZ 0).
  - intros _. now exists (ofZ 0).
  - intros H. exists n. split; [reflexivity | now apply negb_true_iff].
Qed.

Lemma Math_max_not_nan (a b : num) :
  is_nan a = false -> is_nan b = false -> is_nan (Math_max a b) = false.
Proof.
  destruct a, b; try discriminate; intros _ _; unfold Math_max;
    destruct (num_leb _ _); reflexivity.
Qed.

Lemma Math_min_le (a b : num) :
  is_nan a = false -> is_nan b = false ->
  num_leb (Math_min a b) a = true /\ num_leb (Math_min a b) b = true.
Proof.
  intros Ha Hb.
  assert (E : Math_min a b = if num_leb a b then a else b)
    by (destruct a, b; try discriminate; reflexivity).
  rewrite E. destruct (num_leb a b) eqn:B.
  - split; [now apply num_leb_refl | exact B].
  - split; [now apply num_leb_total | now apply num_leb_refl].
Qed.

Lemma raised_score (c n : num) :
  is_nan c = false -> is_nan n = false -> unit01 c = c ->
  num_leb c (unit01 (Math_max c n)) = true.
Proof.
  intros Hc Hn Hfix. rewrite <- Hfix at 1. apply unit01_mono.
  apply Math_max_ge. now apply Math_max_not_nan.
Qed.

Lemma lowered_score (c n : num) :
  is_nan c = false -> is_nan n = false -> unit01 c = c ->
  num_leb (unit01 (Math_min n c)) c = true.
Proof.
  intros Hc Hn Hfix. rewrite <- Hfix at 2. apply unit01_mono.
  now apply Math_min_le.
Qed.

Lemma unit01_bounds (x : num) :
  is_nan (unit01 x) = false ->
  num_leb (ofZ 0) (unit01 x) = true /\ num_leb (unit01 x) (ofZ 1) = true.
Proof.
  intros H. destruct (unit01_range x) as [E | E]; [ | exact E].
  rewrite E in H. discriminate.
Qed.

Lemma raiseTo_obj (host : Host) (c : num) (k : string)
    (kvs : list (string * value)) (n : num) :
  numberOr0 host (obj_get kvs k) = Ok n ->
  raiseTo host c k (VObj kvs) = Ok (VObj (obj_set kvs k (VNum (Math_max c n)))).
Proof.
  intros H. unfold raiseTo. cbn [getProp getField].
  cbv beta iota delta [bind]. now rewrite H.
Qed.

Lemma lowerTo_obj (host : Host) (c : num) (k : string)
    (kvs : list (string * value)) (n : num) :
  numberOr0 host (obj_get kvs k) = Ok n ->
  lowerTo host c k (VObj kvs) = Ok (VObj (obj_set kvs k (VNum (Math_min n c)))).
Proof.
  intros H. unfold lowerTo. cbn [getProp getField].
  cbv beta iota delta [bind]. now rewrite H.
Qed.

Lemma clamp01_obj (host : Host) (kvs : list (string * value)) (k : string)
    (n : num) :
  numberOr0 host (obj_get kvs k) = Ok n ->
  clamp01 host (VObj kvs) k = Ok (VNum (unit01 n)).
Proof.
  intros H. unfold clamp01. cbn [getProp getField].
  cbv beta iota delta [bind]. now rewrite H.
Qed.

Ltac read_field :=
  repeat (rewrite obj_get_set_other by reflexivity);
  try rewrite obj_get_set_same.

(** X19. When the text carries an anger hint and the scorer's reply is
    an object whose five scores are numbers or missing, the answer has
    [angry >= 0.9], [annoyed >= 0.6], [happiness <= 0.1],
    [sad <= 0.2] and [confused <= 0.2], all within 0 and 1. *)
Theorem emotion_angry_overrides (host : Host) (scorer : Scorer) (body : value)
    (s : string) (kvs : list (string * value)) :
  let text := dflt (getField (or_else body (VObj [])) "text") (VStr "") in
  ToString host text = Ok s -> hintAngry host s = true ->
  scorer text = Some (VObj kvs) ->
  forallb (fun k => scoreOk (obj_get kvs k)) emotionNames = true ->
  exists h c a g d,
    emotion host scorer body = Ok (Response 200 (scores h c a g d)) /\
    (num_le (ofQ (9 # 10)) g /\ num_le g (ofZ 1)) /\
    (num_le (ofQ (6 # 10)) a /\ num_le a (ofZ 1)) /\
    (num_le (ofZ 0) h /\ num_le h (ofQ (1 # 10))) /\
    (num_le (ofZ 0) d /\ num_le d (ofQ (2 # 10))) /\
    (num_le (ofZ 0) c /\ num_le c (ofQ (2 # 10))).
Proof.
  intros text Hs Hhint Hsc Hok. unfold emotionNames in Hok. simpl forallb in Hok.
  repeat (apply andb_true_iff in Hok; destruct Hok as [?H Hok]).
  destruct (numberOr0_ok host _ H) as (nh & Eh & Nh).
  destruct (numberOr0_ok host _ H0) as (nc & Ec & Nc).
  destruct (numberOr0_ok host _ H1) as (na & Ea & Na).
  destruct (numberOr0_ok host _ H2) as (ng & Eg & Ng).
  destruct (numberOr0_ok host _ H3) as (ns & Es & Ns).
  set (g := Math_max (ofQ (9 # 10)) ng).
  set (a := Math_max (ofQ (6 # 10)) na).
  set (h := Math_min nh (ofQ (1 # 10))).
  set (d := Math_min ns (ofQ (2 # 10))).
  set (c := Math_min nc (ofQ (2 # 10))).
  exists (unit01 h), (unit01 c), (unit01 a), (unit01 g), (unit01 d).
  assert (Hg : num_leb (ofQ (9 # 10)) (unit01 g) = true) by now apply raised_score.
  assert (Ha : num_leb (ofQ (6 # 10)) (unit01 a) = true) by now apply raised_score.
  assert (Hh : num_leb (unit01 h) (ofQ (1 # 10)) = true) by now apply lowered_score.
  assert (Hd : num_leb (unit01 d) (ofQ (2 # 10)) = true) by now apply lowered_score.
  assert (Hc : num_leb (unit01 c) (ofQ (2 # 10)) = true) by now apply lowered_score.
  split.
  - unfold emotion. fold text. rewrite Hsc, Hs. cbv beta iota delta [bind].
    rewrite Hhint. unfold angryOverrides.
    rewrite (raiseTo_obj host _ "angry" kvs ng Eg). cbv beta iota delta [bind].
    rewrite (raiseTo_obj host _ "annoyed" _ na) by (now read_field).
    cbv beta iota delta [bind].
    rewrite (lowerTo_obj host _ "happiness" _ nh) by (now read_field).
    cbv beta iota delta [bind].
    rewrite (lowerTo_obj host _ "sad" _ ns) by (now read_field).
    cbv beta iota delta [bind].
    rewrite (lowerTo_obj host _ "confused" _ nc) by (now read_field).
    cbv beta iota delta [bind]. fold g a h d c.
    unfold emotionBody.
    rewrite (clamp01_obj host _ "happiness" h) by (now read_field).
    cbv beta iota delta [bind].
    rewrite (clamp01_obj host _ "confused" c) by (now read_field).
    cbv beta iota delta [bind].
    rewrite (clamp01_obj host _ "annoyed" a) by (now read_field).
    cbv beta iota delta [bind].
    rewrite (clamp01_obj host _ "angry" g) by (now read_field).
    cbv beta iota delta [bind].
    rewrite (clamp01_obj host _ "sad" d) by (now read_field).
    reflexivity.
  - repeat split; unfold num_le; try assumption.
    + apply unit01_bounds. now destruct (num_leb_not_nan _ _ Hg).
    + apply unit01_bounds. now destruct (num_leb_not_nan _ _ Ha).
    + apply unit01_bounds. now destruct (num_leb_not_nan _ _ Hh).
    + apply unit01_bounds. now destruct (num_leb_not_nan _ _ Hd).
    + apply unit01_bounds. now destruct (num_leb_not_nan _ _ Hc).
Qed.

Lemma emotion_angry_overrides_witness :
  exists h c a g d,
    emotion (mkHost (fun _ => NaN) (fun _ => "") (fun _ => None)
               (fun _ => ofQ (1 # 2)) (fun _ => ofZ 1) (fun _ => None)
               (fun d => id d) "" (fun _ => true))
      (fun _ => Some (VObj [("happiness", VNum (ofQ (8 # 10)))]))
      (VObj [("text", VStr "I'm angry")])
    = Ok (Response 200 (scores h c a g d)) /\
    (num_le (ofQ (9 # 10)) g /\ num_le g (ofZ 1)) /\
    (num_le (ofQ (6 # 10)) a /\ num_le a (ofZ 1)) /\
    (num_le (ofZ 0) h /\ num_le h (ofQ (1 # 10))) /\
    (num_le (ofZ 0) d /\ num_le d (ofQ (2 # 10))) /\
    (num_le (ofZ 0) c /\ num_le c (ofQ (2 # 10))).
Proof.
  apply (emotion_angry_overrides _ _ (VObj [("text", VStr "I'm angry")])
           "I'm angry" [("happiness", VNum (ofQ (8 # 10)))]); reflexivity.
Defined.

(** X20. A reply of the scorer that is neither an object nor an array
    (null, a number, a string, a boolean) scores 0 everywhere, anger
    hint or not; so does a failure of the scorer. *)
Theorem emotion_unusable_reply (host : Host) (scorer : Scorer) (body : value) :
  let text := dflt (getField (or_else body (VObj [])) "text") (VStr "") in
  (scorer text = None \/
   exists out, scorer text = Some out /\
               (forall kvs, out <> VObj kvs) /\ (forall xs, out <> VArr xs)) ->
  emotion host scorer body = Ok (Response 200 (zeroScores)).
Proof.
  intros text [Hnone | (out & Hsome & Hobj & Harr)]; unfold emotion; fold text.
  - now rewrite Hnone.
  - rewrite Hsome.
    pose proof (ToString_answers host text) as Hs.
    destruct (ToString host text) as [s | | ]; cbv beta iota delta [bind];
      [ | reflexivity | now destruct Hs].
    destruct out as [ | | b | n | s0 | xs | kvs];
      try (now destruct (Hobj kvs)); try (now destruct (Harr xs));
      destruct (hintAngry host s); reflexivity.
Qed.

Lemma emotion_unusable_reply_witness :
  emotion sample_host (fun _ => Some VNull) (VObj [("text", VStr "hello")])
    = Ok (Response 200 zeroScores).
Proof.
  apply (emotion_unusable_reply sample_host (fun _ => Some VNull)
           (VObj [("text", VStr "hello")])).
  right. exists VNull. repeat split; discriminate.
Defined.

(** ** The [/tts] route: audio format *)

(** X23. For a format given as a string, the mime type announced by
    the [/tts] route is audio/mpeg exactly when the MP3 encoding is
    requested from the synthesizer. For a format that is falsy and not
    a string (null, false, 0) the PCM encoding is requested and
    computing the mime type raises; a truthy format that is not a
    string makes the encoding choice itself raise. *)
Theorem tts_format_and_mime (fmt : value) :
  (forall s, fmt = VStr s ->
     (azureFormatFromClient fmt = Ok Audio24Khz48KBitRateMonoMp3 <->
      ttsMime fmt = Ok "audio/mpeg") /\
     (azureFormatFromClient fmt = Ok Riff24Khz16BitMonoPcm <->
      ttsMime fmt = Ok "audio/wav")) /\
  ((forall s, fmt <> VStr s) ->
     ttsMime fmt = Throw /\
     azureFormatFromClient fmt =
       if truthy fmt then Throw else Ok Riff24Khz16BitMonoPcm).
Proof.
  split.
  - intros s ->. unfold azureFormatFromClient, ttsMime, or_else. simpl truthy.
    assert (E : (if negb (String.eqb s "") then VStr s else VStr "") = VStr s).
    { destruct (String.eqb s "") eqn:E; simpl; [ | reflexivity].
      apply String.eqb_eq in E. now subst. }
    rewrite E.
    destruct (includes "mp3" (toLowerCase s)); split; split;
      intros H; try reflexivity; discriminate.
  - intros Hs. split.
    + destruct fmt; try reflexivity. now destruct (Hs s).
    + unfold azureFormatFromClient, or_else.
      destruct (truthy fmt); [ | reflexivity].
      destruct fmt; try reflexivity. now destruct (Hs s).
Qed.

(** ** The route: never an empty timeline *)






(** ** [clampTimeline]: clamping twice *)

(** X24. Clamping twice is clamping once whenever the first pass
    stored no NaN as a time: if [clampTimeline] returns [t1] on [t]
    and neither a [timeMs] of [t1] (keyframes mode) nor its [dtMs]
    (fixed-rate mode) is NaN, it returns [t1] on [t1]. *)
Theorem clampTimeline_idempotent (host : Host) (defs : list ParameterDefinition)
    (t t1 : value) :
  clampTimeline host t defs = Ok t1 ->
  timesSane t1 = true ->
  clampTimeline host t1 defs = Ok t1.
Proof.
  intros H Hs.
  destruct t as [ | | b | n | s | xs | kvs];
    try (rewrite clampTimeline_not_object in H by discriminate;
         injection H as <-; apply clampTimeline_not_object; discriminate).
  destruct (is_str (obj_get kvs "mode") "keyframes") eqn:Hk.
  - now apply (clampTimeline_fix_keyframes host defs kvs).
  - destruct (is_str (obj_get kvs "mode") "fixed_fps"
              && truthy (getPropOpt (obj_get kvs "fixedFps") "frames")) eqn:Hf.
    + apply andb_true_iff in Hf. destruct Hf as [Hm Ht].
      destruct (frames_object _ Ht) as [fkvs Hfk].
      rewrite Hfk in Ht. simpl in Ht.
      now apply (clampTimeline_fix_fixed host defs kvs fkvs).
    + rewrite clampTimeline_other in H by assumption.
      injection H as <-. now apply clampTimeline_other.
Qed.

Lemma clampTimeline_idempotent_witness :
  clampTimeline sample_host
    (keyed [keyframe (VNum (ofZ 0)) [("ParamX", VNum (ofZ 1))]])
    [unit_def "ParamX" false]
  = Ok (keyed [keyframe (VNum (ofZ 0)) [("ParamX", VNum (ofZ 1))]]).
Proof.
  apply (clampTimeline_idempotent sample_host [unit_def "ParamX" false]
           (keyed [keyframe (VNum (ofZ (-5))) [("ParamX", VNum (ofZ 999))]])).
  - vm_compute. reflexivity.
  - reflexivity.
Defined.
